(** * django-payments-payu: the PayU provider, embedded in Rocq

    A shallow embedding of [payments_payu/provider.py]: the money codec
    ([quantize_price], [dequantize_price]), the access-token retry loop
    ([PayuProvider.post_request]), order creation
    ([PayuProvider.create_order]), webhook reconciliation
    ([PayuProvider.process_notification]) and the refund request
    ([PayuProvider.refund]); with them the payment processor
    ([PaymentProcessor]), the widget ([PayuProvider.get_processor],
    [PayuProvider.process_widget], [PayuProvider.process_data],
    [PayuProvider.get_sig]) and the calls on an order or a card
    ([PayuProvider.reject_order], [PayuProvider.delete_card_token],
    [PayuProvider.get_paymethod_tokens]).

    Python values are modelled as follows.
    - [int] is [Z]; [str] and [bytes] are [string] (a [str] is identified
      with its UTF-8 encoding, so [encode] and [decode] of valid text are
      the identity);
    - [decimal.Decimal] is the record [Decimal] of sign, coefficient and
      exponent, with the arithmetic of the default context (28 significant
      digits, ROUND_HALF_EVEN).  Only finite values are represented, and the
      exponent limits of the context (Emax = 999999, Emin = -999999) are
      not enforced;
    - a decoded JSON document is a [json] tree; a Python [dict] keyed by
      strings is an association list in insertion order;
    - a call that may raise returns a [result], and code that mutates the
      payment or the provider threads the state explicitly. *)

From Stdlib Require Import ZArith NArith List String Ascii Bool Lia.
Import ListNotations.

Open Scope string_scope.
Open Scope Z_scope.

(** ** Python values *)

(** A finite [decimal.Decimal]: [Decimal((sign, digits, exponent))]. *)
Record Decimal : Type := mkDecimal {
  d_sign : bool;   (* true for a negative number *)
  d_int : N;       (* the coefficient *)
  d_exp : Z        (* the exponent: the value is (-1)^sign * int * 10^exp *)
}.

(** What [json.loads] returns.  A [float] is given by its exact value. *)
#[local] Set Warnings "-register-all".
Inductive json : Type :=
| JNull
| JBool (b : bool)
| JInt (n : Z)
| JFloat (d : Decimal)
| JStr (s : string)
| JArr (items : list json)
| JObj (members : list (string * json)).

(** The exception classes the provider raises or lets escape.  A message
    built with an f-string is given by its template (by the first literal
    when several are joined), and of several arguments the first is kept.
    [OutOfModel] marks the few library behaviours this development does not
    represent (non-finite decimals and exotic constructor arguments); no
    handler catches it. *)
Inductive exn : Type :=
| KeyError (key : json)
| TypeError
| IndexError
| AttributeError
| ValueError (msg : string)
| JSONDecodeError
| InvalidOperation
| ZeroDivisionError
| NotImplementedError (msg : string)
| PayuApiError (arg : json)
| PyException (msg : string)
| OutOfModel.

Inductive result (A : Type) : Type :=
| Ok (a : A)
| Raise (e : exn).
Arguments Ok {A} a.
Arguments Raise {A} e.

Definition rbind {A B} (r : result A) (k : A -> result B) : result B :=
  match r with
  | Ok a => k a
  | Raise e => Raise e
  end.

Declare Scope result_scope.
Delimit Scope result_scope with res.
Notation "x <- c1 ;; c2" := (rbind c1 (fun x => c2))
  (at level 61, c1 at next level, right associativity) : result_scope.

(** ** decimal.Decimal under the default context *)

Module Dec.

Inductive rounding : Type := ROUND_HALF_UP | ROUND_HALF_EVEN.

(** [getcontext().prec] and [getcontext().rounding] *)
Definition prec : Z := 28.
Definition context_rounding : rounding := ROUND_HALF_EVEN.

Definition pow10 (k : Z) : N := (10 ^ Z.to_N k)%N.

(** [len(str(n))] for a natural number *)
Fixpoint ndigits_aux (fuel : nat) (n : N) : Z :=
  match fuel with
  | O => 1
  | S f => if (n <? 10)%N then 1 else 1 + ndigits_aux f (n / 10)%N
  end.

Definition ndigits (n : N) : Z := ndigits_aux (N.size_nat n) n.

Definition is_zero (a : Decimal) : bool := (d_int a =? 0)%N.

(** The coefficient [c] without its last [k] digits ([0 < k]), rounded on
    the digits that are dropped. *)
Definition round_drop (mode : rounding) (c : N) (k : Z) : N :=
  let q := (c / pow10 k)%N in
  let r := (c mod pow10 k)%N in
  match mode with
  | ROUND_HALF_UP => if (pow10 k <=? 2 * r)%N then (q + 1)%N else q
  | ROUND_HALF_EVEN =>
      match (2 * r ?= pow10 k)%N with
      | Gt => (q + 1)%N
      | Eq => if N.odd q then (q + 1)%N else q
      | Lt => q
      end
  end.

(** [Decimal._fix]: round to the precision of the context. *)
Definition fix_ (a : Decimal) : Decimal :=
  if is_zero a then a
  else
    let len := ndigits (d_int a) in
    if prec <? len then
      let k := len - prec in
      let c := round_drop context_rounding (d_int a) k in
      if prec <? ndigits c
      then mkDecimal (d_sign a) (c / 10)%N (d_exp a + k + 1)
      else mkDecimal (d_sign a) c (d_exp a + k)
    else a.

(** [Decimal._rescale]: the same value at exponent [e]. *)
Definition rescale (a : Decimal) (e : Z) (mode : rounding) : Decimal :=
  if is_zero a then mkDecimal (d_sign a) 0 e
  else if e <=? d_exp a
  then mkDecimal (d_sign a) (d_int a * pow10 (d_exp a - e))%N e
  else mkDecimal (d_sign a) (round_drop mode (d_int a) (e - d_exp a)) e.

(** [Decimal(n)] for an [int] *)
Definition of_Z (n : Z) : Decimal := mkDecimal (n <? 0) (Z.abs_N n) 0.

(** [int(a)]: truncation towards zero *)
Definition to_int (a : Decimal) : Z :=
  let m := if 0 <=? d_exp a
           then (d_int a * pow10 (d_exp a))%N
           else (d_int a / pow10 (- d_exp a))%N in
  if d_sign a then - Z.of_N m else Z.of_N m.

Definition neg (a : Decimal) : Decimal :=
  mkDecimal (negb (d_sign a)) (d_int a) (d_exp a).

(** [a * b] *)
Definition mul (a b : Decimal) : Decimal :=
  fix_ (mkDecimal (xorb (d_sign a) (d_sign b))
                  (d_int a * d_int b)%N
                  (d_exp a + d_exp b)).

(** [a.quantize(q, rounding=mode)] *)
Definition quantize (a q : Decimal) (mode : rounding) : result Decimal :=
  if is_zero a then Ok (fix_ (mkDecimal (d_sign a) 0 (d_exp q)))
  else
    let adjusted := ndigits (d_int a) + d_exp a - 1 in
    if prec <? adjusted - d_exp q + 1 then Raise InvalidOperation
    else
      let ans := rescale a (d_exp q) mode in
      if prec <? ndigits (d_int ans) then Raise InvalidOperation
      else Ok (fix_ ans).

(** The loop of [__truediv__] that removes trailing zeros of an exact
    quotient while the exponent is below the ideal one. *)
Fixpoint strip_zeros (fuel : nat) (coeff : N) (e ideal : Z) : N * Z :=
  match fuel with
  | O => (coeff, e)
  | S f =>
      if (e <? ideal) && (coeff mod 10 =? 0)%N
      then strip_zeros f (coeff / 10)%N (e + 1) ideal
      else (coeff, e)
  end.

(** [a / b] *)
Definition div (a b : Decimal) : result Decimal :=
  let sign := xorb (d_sign a) (d_sign b) in
  if is_zero b then
    if is_zero a then Raise InvalidOperation else Raise ZeroDivisionError
  else if is_zero a then Ok (fix_ (mkDecimal sign 0 (d_exp a - d_exp b)))
  else
    let shift := ndigits (d_int b) - ndigits (d_int a) + prec + 1 in
    let e := d_exp a - d_exp b - shift in
    let num := if 0 <=? shift then (d_int a * pow10 shift)%N else d_int a in
    let den := if 0 <=? shift then d_int b else (d_int b * pow10 (- shift))%N in
    let coeff := (num / den)%N in
    let remainder := (num mod den)%N in
    let '(coeff', e') :=
      if (remainder =? 0)%N
      then strip_zeros (Z.to_nat (d_exp a - d_exp b - e)) coeff e
                       (d_exp a - d_exp b)
      else (if (coeff mod 5 =? 0)%N then (coeff + 1)%N else coeff, e) in
    Ok (fix_ (mkDecimal sign coeff' e')).

(** [_normalize]: both operands of an addition at one exponent. *)
Definition normalize (c1 : N) (e1 : Z) (c2 : N) (e2 : Z)
  : (N * Z) * (N * Z) :=
  let first_is_tmp := negb (e1 <? e2) in
  let '(tc, te, oc, oe) :=
    if first_is_tmp then (c1, e1, c2, e2) else (c2, e2, c1, e1) in
  let e := te + Z.min (-1) (ndigits tc - prec - 2) in
  let '(oc, oe) := if ndigits oc + oe - 1 <? e then (1%N, e) else (oc, oe) in
  let tc := (tc * pow10 (te - oe))%N in
  if first_is_tmp then ((tc, oe), (oc, oe)) else ((oc, oe), (tc, oe)).

(** [a + b] *)
Definition add (a b : Decimal) : Decimal :=
  let e := Z.min (d_exp a) (d_exp b) in
  if is_zero a && is_zero b then
    fix_ (mkDecimal (d_sign a && d_sign b) 0 e)
  else if is_zero a then
    fix_ (rescale b (Z.max e (d_exp b - prec - 1)) context_rounding)
  else if is_zero b then
    fix_ (rescale a (Z.max e (d_exp a - prec - 1)) context_rounding)
  else
    let '((c1, e1), (c2, _)) :=
      normalize (d_int a) (d_exp a) (d_int b) (d_exp b) in
    if Bool.eqb (d_sign a) (d_sign b)
    then fix_ (mkDecimal (d_sign a) (c1 + c2)%N e1)
    else if (c1 =? c2)%N then fix_ (mkDecimal false 0 e)
    else if (c1 <? c2)%N
    then fix_ (mkDecimal (d_sign b) (c2 - c1)%N e1)
    else fix_ (mkDecimal (d_sign a) (c1 - c2)%N e1).

(** [a - b] *)
Definition sub (a b : Decimal) : Decimal := add a (neg b).

(** The numerical value of [a] in units of [10^m], for [m] below the
    exponent. *)
Definition scaled (a : Decimal) (m : Z) : Z :=
  let v := Z.of_N (d_int a * pow10 (d_exp a - m))%N in
  if d_sign a then - v else v.

(** Comparison by value, as [==], [<] and [>=] do on finite decimals. *)
Definition compare (a b : Decimal) : comparison :=
  let m := Z.min (d_exp a) (d_exp b) in
  Z.compare (scaled a m) (scaled b m).

Definition eqb (a b : Decimal) : bool :=
  match compare a b with Eq => true | _ => false end.
Definition ltb (a b : Decimal) : bool :=
  match compare a b with Lt => true | _ => false end.
Definition geb (a b : Decimal) : bool := negb (ltb a b).
Definition gtb (a b : Decimal) : bool := ltb b a.

End Dec.


(** ** Strings, dictionaries and JSON values as Python sees them *)

Definition is_digit (c : ascii) : bool :=
  let n := N_of_ascii c in ((48 <=? n) && (n <=? 57))%N.

Definition digit_val (c : ascii) : N := (N_of_ascii c - 48)%N.

(** [s.split(sep)] for a separator of one character *)
Fixpoint str_split (sep : ascii) (s : string) : list string :=
  match s with
  | EmptyString => [EmptyString]
  | String c s' =>
      if Ascii.eqb c sep then EmptyString :: str_split sep s'
      else match str_split sep s' with
           | h :: t => String c h :: t
           | [] => [String c EmptyString]
           end
  end.

(** [k in s] for two strings *)
Fixpoint is_substring (k s : string) : bool :=
  prefix k s ||
  match s with
  | EmptyString => false
  | String _ s' => is_substring k s'
  end.

Section Assoc.

Context {A : Type}.

(** [d[k]] *)
Fixpoint assoc_get (k : string) (d : list (string * A)) : option A :=
  match d with
  | [] => None
  | (k', v) :: d' => if String.eqb k k' then Some v else assoc_get k d'
  end.

(** [d[k] = v]: an existing key keeps its place, a new one goes last *)
Fixpoint assoc_set (k : string) (v : A) (d : list (string * A))
  : list (string * A) :=
  match d with
  | [] => [(k, v)]
  | (k', v') :: d' =>
      if String.eqb k k' then (k, v) :: d' else (k', v') :: assoc_set k v d'
  end.

(** [{**old, **new}] *)
Definition assoc_merge (old new : list (string * A)) : list (string * A) :=
  fold_left (fun acc kv => assoc_set (fst kv) (snd kv) acc) new old.

(** [k in d] *)
Definition assoc_mem (k : string) (d : list (string * A)) : bool :=
  match assoc_get k d with Some _ => true | None => false end.

End Assoc.

(** [v == s] for a string literal [s] *)
Definition json_is_str (v : json) (s : string) : bool :=
  match v with
  | JStr t => String.eqb t s
  | _ => false
  end.

(** Lists and dictionaries cannot be hashed: they are neither dictionary keys
    nor set members. *)
Definition hashable (v : json) : bool :=
  match v with
  | JArr _ | JObj _ => false
  | _ => true
  end.

(** [v[k]] for a string [k] *)
Definition py_getitem (v : json) (k : string) : result json :=
  match v with
  | JObj d =>
      match assoc_get k d with
      | Some x => Ok x
      | None => Raise (KeyError (JStr k))
      end
  | _ => Raise TypeError
  end.

(** [k in v] for a string [k] *)
Definition py_contains (k : string) (v : json) : result bool :=
  match v with
  | JObj d => Ok (assoc_mem k d)
  | JStr s => Ok (is_substring k s)
  | JArr l => Ok (existsb (fun x => json_is_str x k) l)
  | _ => Raise TypeError
  end.

(** [v.get(k)] *)
Definition dict_get (v : json) (k : string) : result json :=
  match v with
  | JObj d =>
      match assoc_get k d with
      | Some x => Ok x
      | None => Ok JNull
      end
  | _ => Raise AttributeError
  end.

(** *** The [Decimal] constructor *)

(** Reads a run of decimal digits: the number read after [acc], how many
    digits there were, and the rest of the string. *)
Fixpoint span_digits (s : string) (acc : N) (cnt : Z) : N * Z * string :=
  match s with
  | String c s' =>
      if is_digit c then span_digits s' (acc * 10 + digit_val c)%N (cnt + 1)
      else (acc, cnt, s)
  | EmptyString => (acc, cnt, s)
  end.

Definition read_sign (s : string) : bool * string :=
  match s with
  | String "-" s' => (true, s')
  | String "+" s' => (false, s')
  | _ => (false, s)
  end.

(** The exponent part: nothing, or [e] or [E], an optional sign and at least
    one digit, up to the end of the string. *)
Definition read_exponent (s : string) : option Z :=
  match s with
  | EmptyString => Some 0
  | String c s' =>
      if Ascii.eqb c "e" || Ascii.eqb c "E" then
        let '(neg, s1) := read_sign s' in
        match span_digits s1 0 0 with
        | (n, cnt, EmptyString) =>
            if 0 <? cnt then Some (if neg then - Z.of_N n else Z.of_N n)
            else None
        | _ => None
        end
      else None
  end.

(** A finite numeral: sign, digits with an optional point, exponent. *)
Definition read_numeral (s : string) : option Decimal :=
  let '(neg, s0) := read_sign s in
  let '(ip, n1, s1) := span_digits s0 0 0 in
  let '(c, n2, s2) :=
    match s1 with
    | String "." s1' => span_digits s1' ip 0
    | _ => (ip, 0, s1)
    end in
  if 0 <? n1 + n2 then
    match read_exponent s2 with
    | Some e => Some (mkDecimal neg c (e - n2))
    | None => None
    end
  else None.

Definition numeral_char (c : ascii) : bool :=
  is_digit c || existsb (Ascii.eqb c) ["+"; "-"; "."; "e"; "E"]%char.

Fixpoint string_forallb (f : ascii -> bool) (s : string) : bool :=
  match s with
  | EmptyString => true
  | String c s' => f c && string_forallb f s'
  end.

(** [Decimal(s)] for a string.  A string that is no numeral but is made of
    digits, signs, points and [e] only is a syntax error; the other strings
    the constructor accepts (padded with spaces, grouped with underscores,
    [NaN], [Infinity]) are outside the model. *)
Definition decimal_of_string (s : string) : result Decimal :=
  match read_numeral s with
  | Some d => Ok d
  | None =>
      if string_forallb numeral_char s then Raise InvalidOperation
      else Raise OutOfModel
  end.

(** [Decimal(v)] for a decoded JSON value *)
Definition decimal_of_json (v : json) : result Decimal :=
  match v with
  | JInt n => Ok (Dec.of_Z n)
  | JBool b => Ok (Dec.of_Z (if b then 1 else 0))
  | JFloat d => Ok d
  | JStr s => decimal_of_string s
  | JNull | JObj _ => Raise TypeError
  | JArr _ => Raise OutOfModel
  end.

(** ** The money codec *)

Definition CURRENCY_SUB_UNIT : list (string * Decimal) :=
  [ ("PLN", Dec.of_Z 100);
    ("EUR", Dec.of_Z 100);
    ("USD", Dec.of_Z 100);
    ("CZK", Dec.of_Z 100);
    ("GBP", Dec.of_Z 100) ].

Definition CENTS : Decimal := mkDecimal false 1 (-2).

(** [CURRENCY_SUB_UNIT[currency]] *)
Definition currency_sub_unit (currency : json) : result Decimal :=
  match currency with
  | JStr c =>
      match assoc_get c CURRENCY_SUB_UNIT with
      | Some u => Ok u
      | None => Raise (KeyError currency)
      end
  | JArr _ | JObj _ => Raise TypeError
  | _ => Raise (KeyError currency)
  end.

Definition quantize_price (price : Decimal) (currency : string) : result Z :=
  (sub_unit <- currency_sub_unit (JStr currency) ;;
   let price := Dec.mul price sub_unit in
   q <- Dec.quantize price CENTS Dec.ROUND_HALF_UP ;;
   Ok (Dec.to_int q))%res.

Definition dequantize_price (price currency : json) : result Decimal :=
  (p <- decimal_of_json price ;;
   sub_unit <- currency_sub_unit currency ;;
   Dec.div p sub_unit)%res.

(** ** hashlib.md5

    The digest of RFC 1321 on a byte string, written out so that signatures
    can be computed; [hexdigest] is [hashlib.md5(data).hexdigest()]. *)

Module MD5.

Definition mask32 (x : Z) : Z := Z.land x 4294967295.
Definition not32 (x : Z) : Z := Z.lxor x 4294967295.
Definition add32 (x y : Z) : Z := mask32 (x + y).
Definition rotl32 (x c : Z) : Z :=
  mask32 (Z.lor (Z.shiftl x c) (Z.shiftr x (32 - c))).

Definition shifts : list Z :=
  [ 7; 12; 17; 22; 7; 12; 17; 22; 7; 12; 17; 22; 7; 12; 17; 22;
    5; 9; 14; 20; 5; 9; 14; 20; 5; 9; 14; 20; 5; 9; 14; 20;
    4; 11; 16; 23; 4; 11; 16; 23; 4; 11; 16; 23; 4; 11; 16; 23;
    6; 10; 15; 21; 6; 10; 15; 21; 6; 10; 15; 21; 6; 10; 15; 21 ].

(** [floor(2^32 * abs(sin(i + 1)))] for [i] from 0 to 63 *)
Definition sines : list Z :=
  [ 3614090360; 3905402710; 606105819; 3250441966;
    4118548399; 1200080426; 2821735955; 4249261313;
    1770035416; 2336552879; 4294925233; 2304563134;
    1804603682; 4254626195; 2792965006; 1236535329;
    4129170786; 3225465664; 643717713; 3921069994;
    3593408605; 38016083; 3634488961; 3889429448;
    568446438; 3275163606; 4107603335; 1163531501;
    2850285829; 4243563512; 1735328473; 2368359562;
    4294588738; 2272392833; 1839030562; 4259657740;
    2763975236; 1272893353; 4139469664; 3200236656;
    681279174; 3936430074; 3572445317; 76029189;
    3654602809; 3873151461; 530742520; 3299628645;
    4096336452; 1126891415; 2878612391; 4237533241;
    1700485571; 2399980690; 4293915773; 2240044497;
    1873313359; 4264355552; 2734768916; 1309151649;
    4149444226; 3174756917; 718787259; 3951481745 ].

Record state : Type := mkState { sa : Z; sb : Z; sc : Z; sd : Z }.

Definition init : state :=
  mkState 1732584193 4023233417 2562383102 271733878.

(** One of the 64 operations on the 16 words [m] of a block. *)
Definition step (m : list Z) (st : state) (i : nat) : state :=
  let '(mkState a b c d) := st in
  let iz := Z.of_nat i in
  let '(f, g) :=
    if iz <? 16 then (Z.lor (Z.land b c) (Z.land (not32 b) d), iz)
    else if iz <? 32
    then (Z.lor (Z.land d b) (Z.land (not32 d) c), (5 * iz + 1) mod 16)
    else if iz <? 48 then (Z.lxor b (Z.lxor c d), (3 * iz + 5) mod 16)
    else (Z.lxor c (Z.lor b (not32 d)), (7 * iz) mod 16) in
  let f := add32 (add32 (add32 f a) (nth i sines 0)) (nth (Z.to_nat g) m 0) in
  mkState d (add32 b (rotl32 f (nth i shifts 0))) b c.

(** A little-endian word of four bytes. *)
Definition word_of (bs : list Z) : Z :=
  fold_right (fun b acc => b + 256 * acc) 0 bs.

Fixpoint words (n : nat) (bs : list Z) : list Z :=
  match n with
  | O => []
  | S n' => word_of (firstn 4 bs) :: words n' (skipn 4 bs)
  end.

Definition block (st : state) (bs : list Z) : state :=
  let st' := fold_left (step (words 16 bs)) (seq 0 64) st in
  mkState (add32 (sa st) (sa st')) (add32 (sb st) (sb st'))
          (add32 (sc st) (sc st')) (add32 (sd st) (sd st')).

Fixpoint blocks (n : nat) (st : state) (bs : list Z) : state :=
  match n with
  | O => st
  | S n' => blocks n' (block st (firstn 64 bs)) (skipn 64 bs)
  end.

Definition le_bytes (n : nat) (x : Z) : list Z :=
  map (fun i => Z.land (Z.shiftr x (8 * Z.of_nat i)) 255) (seq 0 n).

(** The message, a one bit, zeros up to 56 modulo 64, and the length in
    bits on eight bytes. *)
Definition pad (bs : list Z) : list Z :=
  let len := Z.of_nat (List.length bs) in
  let zeros := Z.to_nat ((55 - len) mod 64) in
  (bs ++ [128] ++ repeat 0 zeros
      ++ le_bytes 8 (Z.land (8 * len) (2 ^ 64 - 1)))%list.

Definition digest (bs : list Z) : list Z :=
  let p := pad bs in
  let st := blocks (List.length p / 64) init p in
  (le_bytes 4 (sa st) ++ le_bytes 4 (sb st) ++ le_bytes 4 (sc st)
     ++ le_bytes 4 (sd st))%list.

Definition hex_digit (n : Z) : ascii :=
  nth (Z.to_nat n) (list_ascii_of_string "0123456789abcdef") "0"%char.

Fixpoint hex (bs : list Z) : string :=
  match bs with
  | [] => EmptyString
  | b :: bs' =>
      String (hex_digit (b / 16)) (String (hex_digit (b mod 16)) (hex bs'))
  end.

Definition bytes_of (s : string) : list Z :=
  map (fun c => Z.of_N (N_of_ascii c)) (list_ascii_of_string s).

Definition hexdigest (data : string) : string := hex (digest (bytes_of data)).

End MD5.

(** ** Code that mutates and raises

    A computation over a state [S]: it returns or raises, and in both cases
    leaves a state behind (what Python has mutated before an exception is
    raised stays mutated). *)

Definition M (S A : Type) : Type := S -> result A * S.

Definition ret {S A} (a : A) : M S A := fun s => (Ok a, s).

Definition bind {S A B} (m : M S A) (k : A -> M S B) : M S B :=
  fun s =>
    match m s with
    | (Ok a, s') => k a s'
    | (Raise e, s') => (Raise e, s')
    end.

Definition raise {S A} (e : exn) : M S A := fun s => (Raise e, s).

Definition lift {S A} (r : result A) : M S A := fun s => (r, s).

Definition gets {S A} (f : S -> A) : M S A := fun s => (Ok (f s), s).

Definition modify {S} (f : S -> S) : M S unit := fun s => (Ok tt, f s).

(** [try: m except ...: h]: [h e] is the handler of the first [except]
    clause that matches [e], if one does. *)
Definition try_except {S A} (m : M S A) (h : exn -> option (M S A)) : M S A :=
  fun s =>
    match m s with
    | (Ok a, s') => (Ok a, s')
    | (Raise e, s') =>
        match h e with
        | Some handler => handler s'
        | None => (Raise e, s')
        end
    end.

(** A computation on a part of the state. *)
Definition zoom {S T A} (get : S -> T) (set : T -> S -> S) (m : M T A)
  : M S A :=
  fun s => let '(r, t) := m (get s) in (r, set t s).

Declare Scope prog_scope.
Delimit Scope prog_scope with prog.
Notation "x <- c1 ;; c2" := (bind c1 (fun x => c2))
  (at level 61, c1 at next level, right associativity) : prog_scope.
Notation "c1 ;; c2" := (bind c1 (fun _ => c2))
  (at level 61, right associativity) : prog_scope.

(** ** The payment record *)

Inductive PaymentStatus : Type :=
| WAITING | PREAUTH | CONFIRMED | REJECTED | REFUNDED | ERROR | INPUT.

Inductive FraudStatus : Type :=
| UNKNOWN | ACCEPT | REJECT | REVIEW.

(** What [payment.set_renew_token] stores. *)
Record RenewToken : Type := mkRenewToken {
  rt_token : json;
  rt_card_expire_year : json;
  rt_card_expire_month : json;
  rt_card_masked_number : json;
  rt_renewal_triggered_by : string
}.

(** The attributes of the payment object the provider reads and writes.
    [extra_data] holds the JSON text of a dictionary and is kept decoded (the
    empty text is the empty dictionary); [save] writes the object to the
    database and leaves the object itself as it is. *)
Record Payment : Type := mkPayment {
  id : Z;
  status : PaymentStatus;
  fraud_status : FraudStatus;
  message : json;
  total : Decimal;
  captured_amount : Decimal;
  currency : string;
  transaction_id : json;
  extra_data : list (string * json);
  renew_token : option RenewToken;
  pay_link : json;
  payment_url : string
}.

Definition set_status (v : PaymentStatus) (p : Payment) : Payment :=
  mkPayment (id p) v (fraud_status p) (message p) (total p)
            (captured_amount p) (currency p) (transaction_id p)
            (extra_data p) (renew_token p) (pay_link p) (payment_url p).

Definition set_fraud_status (v : FraudStatus) (p : Payment) : Payment :=
  mkPayment (id p) (status p) v (message p) (total p)
            (captured_amount p) (currency p) (transaction_id p)
            (extra_data p) (renew_token p) (pay_link p) (payment_url p).

Definition set_message (v : json) (p : Payment) : Payment :=
  mkPayment (id p) (status p) (fraud_status p) v (total p)
            (captured_amount p) (currency p) (transaction_id p)
            (extra_data p) (renew_token p) (pay_link p) (payment_url p).

Definition set_captured_amount (v : Decimal) (p : Payment) : Payment :=
  mkPayment (id p) (status p) (fraud_status p) (message p) (total p)
            v (currency p) (transaction_id p)
            (extra_data p) (renew_token p) (pay_link p) (payment_url p).

Definition set_transaction_id (v : json) (p : Payment) : Payment :=
  mkPayment (id p) (status p) (fraud_status p) (message p) (total p)
            (captured_amount p) (currency p) v
            (extra_data p) (renew_token p) (pay_link p) (payment_url p).

Definition set_extra_data (v : list (string * json)) (p : Payment) : Payment :=
  mkPayment (id p) (status p) (fraud_status p) (message p) (total p)
            (captured_amount p) (currency p) (transaction_id p)
            v (renew_token p) (pay_link p) (payment_url p).

Definition set_renew_token (v : RenewToken) (p : Payment) : Payment :=
  mkPayment (id p) (status p) (fraud_status p) (message p) (total p)
            (captured_amount p) (currency p) (transaction_id p)
            (extra_data p) (Some v) (pay_link p) (payment_url p).

Definition set_pay_link (v : json) (p : Payment) : Payment :=
  mkPayment (id p) (status p) (fraud_status p) (message p) (total p)
            (captured_amount p) (currency p) (transaction_id p)
            (extra_data p) (renew_token p) v (payment_url p).

(** [payment.save()] *)
Definition save : M Payment unit := ret tt.

(** [payment.change_status(status)], with the default [message=""], of
    django-payments: it sets the status, resets the message and saves. *)
Definition change_status (new_status : PaymentStatus) : M Payment unit :=
  (modify (set_status new_status) ;;
   modify (set_message (JStr "")) ;;
   save)%prog.

(** [payment.change_fraud_status(status, message=message)], as the payment
    of the test suite defines it ([tests/test_payu.py]): the message goes to
    [payment.message]. *)
Definition change_fraud_status (new_status : FraudStatus) (msg : json)
  : M Payment unit :=
  (modify (set_fraud_status new_status) ;;
   modify (set_message msg) ;;
   save)%prog.

Definition add_extra_data (new_extra_data : list (string * json))
  : M Payment unit :=
  (old_extra_data <- gets extra_data ;;
   modify (set_extra_data (assoc_merge old_extra_data new_extra_data)) ;;
   save)%prog.

(** [old_extra_data["statuses"].append(new_status)] needs a list. *)
Definition add_new_status (new_status : json) : M Payment unit :=
  (old_extra_data <- gets extra_data ;;
   let old_extra_data :=
     if assoc_mem "statuses" old_extra_data then old_extra_data
     else assoc_set "statuses" (JArr []) old_extra_data in
   match assoc_get "statuses" old_extra_data with
   | Some (JArr statuses) =>
       modify (set_extra_data
                 (assoc_set "statuses" (JArr (statuses ++ [new_status]))
                            old_extra_data)) ;;
       save
   | _ => raise AttributeError
   end)%prog.

(** ** Webhook notifications *)

Record HttpRequest : Type := mkHttpRequest {
  body : string;
  META : list (string * string)
}.

Record HttpResponse : Type := mkHttpResponse {
  content : string;
  status_code : Z
}.

(** [x + y] as [payment.message += ...] needs it: two strings are
    concatenated, a string and anything else is a type error, and a message
    that is no string is outside the model. *)
Definition py_add_str (x y : json) : result json :=
  match x, y with
  | JStr a, JStr b => Ok (JStr (a ++ b))
  | JStr _, _ => Raise TypeError
  | _, _ => Raise OutOfModel
  end.

Definition status_map : list (string * PaymentStatus) :=
  [ ("COMPLETED", CONFIRMED);
    ("PENDING", INPUT);
    ("WAITING_FOR_CONFIRMATION", INPUT);
    ("CANCELED", REJECTED);
    ("NEW", WAITING) ].

(** [status_map[key]] *)
Definition status_map_getitem (key : json) : result PaymentStatus :=
  match key with
  | JStr s =>
      match assoc_get s status_map with
      | Some st => Ok st
      | None => Raise (KeyError key)
      end
  | JArr _ | JObj _ => Raise TypeError
  | _ => Raise (KeyError key)
  end.

Definition PaymentStatus_eqb (a b : PaymentStatus) : bool :=
  match a, b with
  | WAITING, WAITING | PREAUTH, PREAUTH | CONFIRMED, CONFIRMED
  | REJECTED, REJECTED | REFUNDED, REFUNDED | ERROR, ERROR
  | INPUT, INPUT => true
  | _, _ => false
  end.

(** The loop over the parts of the signature header: each part is split at
    [=] and its first two pieces are a key and a value. *)
Fixpoint parse_header (header_data_raw : list string)
                      (header_data : list (string * string))
  : result (list (string * string)) :=
  match header_data_raw with
  | [] => Ok header_data
  | x :: rest =>
      match str_split "=" x with
      | key :: value :: _ => parse_header rest (assoc_set key value header_data)
      | _ => Raise IndexError
      end
  end.

(** [d[k]] for a dictionary of strings *)
Definition str_getitem (d : list (string * string)) (k : string)
  : result string :=
  match assoc_get k d with
  | Some v => Ok v
  | None => Raise (KeyError (JStr k))
  end.

(** The value of a number, whatever its type *)
Definition json_number (v : json) : option Decimal :=
  match v with
  | JBool b => Some (Dec.of_Z (if b then 1 else 0))
  | JInt n => Some (Dec.of_Z n)
  | JFloat d => Some d
  | _ => None
  end.

(** [a == b] on decoded JSON values: numbers by value whatever their type,
    lists element by element, dictionaries key by key. *)
Fixpoint py_eq (a b : json) {struct a} : bool :=
  match a, b with
  | JNull, JNull => true
  | JStr s, JStr t => String.eqb s t
  | JArr l, JArr m =>
      (fix all2 (l m : list json) {struct l} : bool :=
         match l, m with
         | [], [] => true
         | x :: l', y :: m' => py_eq x y && all2 l' m'
         | _, _ => false
         end) l m
  | JObj d, JObj d' =>
      Nat.eqb (List.length d) (List.length d') &&
      (fix sub (d : list (string * json)) {struct d} : bool :=
         match d with
         | [] => true
         | (k, v) :: rest =>
             match assoc_get k d' with
             | Some v' => py_eq v v' && sub rest
             | None => false
             end
         end) d
  | _, _ =>
      match json_number a, json_number b with
      | Some x, Some y => Dec.eqb x y
      | _, _ => false
      end
  end.

(** [bool(v)] *)
Definition py_truthy (v : json) : bool :=
  match v with
  | JNull => false
  | JBool b => b
  | JInt n => negb (n =? 0)
  | JFloat d => negb (Dec.is_zero d)
  | JStr s => negb (String.eqb s "")
  | JArr l => match l with [] => false | _ => true end
  | JObj d => match d with [] => false | _ => true end
  end.

(** [dict(v)], read with string keys afterwards.  Building a dictionary from
    a non-empty list of pairs is outside the model. *)
Definition py_dict (v : json) : result (list (string * json)) :=
  match v with
  | JObj d => Ok d
  | JArr [] => Ok []
  | JArr (_ :: _) => Raise OutOfModel
  | JStr EmptyString => Ok []
  | JStr (String _ _) => Raise (ValueError "dictionary update sequence")
  | _ => Raise TypeError
  end.

(** [{**v}] *)
Definition as_mapping (v : json) : result (list (string * json)) :=
  match v with
  | JObj d => Ok d
  | _ => Raise TypeError
  end.

(** [range(a, b)] *)
Definition py_range (a b : Z) : list Z :=
  map (fun i => a + Z.of_nat i) (seq 0 (Z.to_nat (b - a))).

(** ** The provider *)

(** The attributes of [PayuProvider] that the modelled methods read.  The
    two callbacks are taken as total functions; a [get_refund_ext_id] that
    returns [None] returns [JNull]. *)
Record Provider : Type := mkProvider {
  client_secret : string;
  second_key : string;
  pos_id : string;
  payu_auth_url : string;
  payu_api_orders_url : string;
  grant_type : string;
  recurring_payments : bool;
  retry_count : Z;
  get_refund_description : option (Payment -> option Decimal -> json);
  get_refund_ext_id : Payment -> option Decimal -> json
}.

(** A call of [requests.post]: the address, the content type and the bearer
    token of its headers, and its payload: the form data of the token
    request, or the document whose [json.dumps] text is sent. *)
Record Sent : Type := mkSent {
  sent_url : string;
  sent_content_type : string;
  sent_bearer : option json;
  sent_data : json
}.

(** What the methods that talk to the gateway change: the access token of
    the provider ([self.token]), the requests sent so far (the latest first)
    and the payment. *)
Record World : Type := mkWorld {
  w_token : json;
  w_sent : list Sent;
  w_payment : Payment
}.

Definition set_w_token (t : json) (w : World) : World :=
  mkWorld t (w_sent w) (w_payment w).
Definition set_w_payment (p : Payment) (w : World) : World :=
  mkWorld (w_token w) (w_sent w) p.

(** A computation on the payment, run within the world. *)
Definition on_payment {A} (m : M Payment A) : M World A :=
  zoom w_payment set_w_payment m.

(** ** The order payload *)

(** [payments.PurchasedItem] *)
Record PurchasedItem : Type := mkPurchasedItem {
  pi_name : string;
  pi_quantity : Z;
  pi_price : Decimal;
  pi_currency : string;
  pi_tax_rate : option Decimal
}.

(** [PaymentProcessor]; an attribute that is set only on demand is an
    option. *)
Record PaymentProcessor : Type := mkPaymentProcessor {
  pp_order : list PurchasedItem;
  pp_notify_url : string;
  pp_currency : string;
  pp_description : string;
  pp_customer_ip : string;
  pp_total : Decimal;
  pp_external_id : json;
  pp_pos_id : json;
  pp_paymethods : option json;
  pp_buyer : option json;
  pp_continueUrl : option string;
  pp_failureUrl : option string;
  pp_validityTime : option json;
  pp_recurring : option string;
  pp_cardOnFile : option string
}.

Definition set_pp_pos_id (v : json) (pp : PaymentProcessor)
  : PaymentProcessor :=
  mkPaymentProcessor (pp_order pp) (pp_notify_url pp) (pp_currency pp)
    (pp_description pp) (pp_customer_ip pp) (pp_total pp) (pp_external_id pp)
    v (pp_paymethods pp) (pp_buyer pp) (pp_continueUrl pp) (pp_failureUrl pp)
    (pp_validityTime pp) (pp_recurring pp) (pp_cardOnFile pp).

(** [purchased_item.tax_rate or 1] *)
Definition tax_rate_or_1 (item : PurchasedItem) : Decimal :=
  match pi_tax_rate item with
  | Some r => if Dec.is_zero r then Dec.of_Z 1 else r
  | None => Dec.of_Z 1
  end.

(** The slice [s[:n]] of a [str]: its first [n] characters.  In the UTF-8
    encoding that holds the [str], a character is a byte that is no
    continuation byte (a byte [10xxxxxx], from 128 to 191) followed by its
    continuation bytes; the slice keeps every character that it keeps with
    all its bytes. *)
Definition is_continuation (c : ascii) : bool :=
  (128 <=? N_of_ascii c)%N && (N_of_ascii c <? 192)%N.

Fixpoint str_prefix (n : nat) (s : string) : string :=
  match s with
  | EmptyString => EmptyString
  | String c rest =>
      if is_continuation c then String c (str_prefix n rest)
      else match n with
           | O => EmptyString
           | S n' => String c (str_prefix n' rest)
           end
  end.

(** One item of [PaymentProcessor.get_order_items]. *)
Definition order_item (self_currency : string) (item : PurchasedItem)
  : result json :=
  (unitPrice <- quantize_price (Dec.mul (pi_price item) (tax_rate_or_1 item))
                               self_currency ;;
   subUnit <- currency_sub_unit (JStr self_currency) ;;
   Ok (JObj [ ("name", JStr (str_prefix 127 (pi_name item)));
              ("quantity", JInt (pi_quantity item));
              ("unitPrice", JInt unitPrice);
              ("currency", JStr (pi_currency item));
              ("subUnit", JInt (Dec.to_int subUnit)) ]))%res.

Fixpoint get_order_items (self_currency : string) (order : list PurchasedItem)
  : result (list json) :=
  match order with
  | [] => Ok []
  | purchased_item :: rest =>
      (item <- order_item self_currency purchased_item ;;
       items <- get_order_items self_currency rest ;;
       Ok (item :: items))%res
  end.

Definition optional_field (k : string) (v : option json)
  : list (string * json) :=
  match v with
  | Some x => [(k, x)]
  | None => []
  end.

Definition as_json (pp : PaymentProcessor) : result json :=
  (products <- get_order_items (pp_currency pp) (pp_order pp) ;;
   totalAmount <- quantize_price (pp_total pp) (pp_currency pp) ;;
   Ok (JObj ([ ("notifyUrl", JStr (pp_notify_url pp));
               ("customerIp", JStr (pp_customer_ip pp));
               ("extOrderId", pp_external_id pp);
               ("merchantPosId", pp_pos_id pp);
               ("description", JStr (pp_description pp));
               ("currencyCode", JStr (pp_currency pp));
               ("totalAmount", JInt totalAmount);
               ("products", JArr products) ]
             ++ optional_field "payMethods" (pp_paymethods pp)
             ++ optional_field "buyer" (pp_buyer pp)
             ++ optional_field "continueUrl"
                  (option_map JStr (pp_continueUrl pp))
             ++ optional_field "validityTime" (pp_validityTime pp)
             ++ optional_field "recurring" (option_map JStr (pp_recurring pp))
             ++ optional_field "cardOnFile"
                  (option_map JStr (pp_cardOnFile pp)))%list))%res.

Definition set_pp_external_id (v : json) (pp : PaymentProcessor)
  : PaymentProcessor :=
  mkPaymentProcessor (pp_order pp) (pp_notify_url pp) (pp_currency pp)
    (pp_description pp) (pp_customer_ip pp) (pp_total pp) v
    (pp_pos_id pp) (pp_paymethods pp) (pp_buyer pp) (pp_continueUrl pp)
    (pp_failureUrl pp) (pp_validityTime pp) (pp_recurring pp)
    (pp_cardOnFile pp).

Definition set_pp_paymethods (v : json) (pp : PaymentProcessor)
  : PaymentProcessor :=
  mkPaymentProcessor (pp_order pp) (pp_notify_url pp) (pp_currency pp)
    (pp_description pp) (pp_customer_ip pp) (pp_total pp) (pp_external_id pp)
    (pp_pos_id pp) (Some v) (pp_buyer pp) (pp_continueUrl pp)
    (pp_failureUrl pp) (pp_validityTime pp) (pp_recurring pp)
    (pp_cardOnFile pp).

Definition set_pp_buyer (v : json) (pp : PaymentProcessor)
  : PaymentProcessor :=
  mkPaymentProcessor (pp_order pp) (pp_notify_url pp) (pp_currency pp)
    (pp_description pp) (pp_customer_ip pp) (pp_total pp) (pp_external_id pp)
    (pp_pos_id pp) (pp_paymethods pp) (Some v) (pp_continueUrl pp)
    (pp_failureUrl pp) (pp_validityTime pp) (pp_recurring pp)
    (pp_cardOnFile pp).

Definition set_pp_continueUrl (v : string) (pp : PaymentProcessor)
  : PaymentProcessor :=
  mkPaymentProcessor (pp_order pp) (pp_notify_url pp) (pp_currency pp)
    (pp_description pp) (pp_customer_ip pp) (pp_total pp) (pp_external_id pp)
    (pp_pos_id pp) (pp_paymethods pp) (pp_buyer pp) (Some v)
    (pp_failureUrl pp) (pp_validityTime pp) (pp_recurring pp)
    (pp_cardOnFile pp).

Definition set_pp_failureUrl (v : string) (pp : PaymentProcessor)
  : PaymentProcessor :=
  mkPaymentProcessor (pp_order pp) (pp_notify_url pp) (pp_currency pp)
    (pp_description pp) (pp_customer_ip pp) (pp_total pp) (pp_external_id pp)
    (pp_pos_id pp) (pp_paymethods pp) (pp_buyer pp) (pp_continueUrl pp)
    (Some v) (pp_validityTime pp) (pp_recurring pp) (pp_cardOnFile pp).

Definition set_pp_recurring (v : string) (pp : PaymentProcessor)
  : PaymentProcessor :=
  mkPaymentProcessor (pp_order pp) (pp_notify_url pp) (pp_currency pp)
    (pp_description pp) (pp_customer_ip pp) (pp_total pp) (pp_external_id pp)
    (pp_pos_id pp) (pp_paymethods pp) (pp_buyer pp) (pp_continueUrl pp)
    (pp_failureUrl pp) (pp_validityTime pp) (Some v) (pp_cardOnFile pp).

Definition set_pp_cardOnFile (v : string) (pp : PaymentProcessor)
  : PaymentProcessor :=
  mkPaymentProcessor (pp_order pp) (pp_notify_url pp) (pp_currency pp)
    (pp_description pp) (pp_customer_ip pp) (pp_total pp) (pp_external_id pp)
    (pp_pos_id pp) (pp_paymethods pp) (pp_buyer pp) (pp_continueUrl pp)
    (pp_failureUrl pp) (pp_validityTime pp) (pp_recurring pp) (Some v).

(** [PaymentProcessor(order=..., notify_url=..., ...)]: [external_id] and
    [pos_id] start as [None]; [tax] and [order_items] are stored and never
    read. *)
Definition PaymentProcessor_init (order : list PurchasedItem)
    (notify_url currency description customer_ip : string) (total : Decimal)
  : PaymentProcessor :=
  mkPaymentProcessor order notify_url currency description customer_ip total
    JNull JNull None None None None None None None.

(** [processor.set_paymethod(value, method_type)]: it does nothing when
    [paymethods] is set already. *)
Definition set_paymethod (value : json) (method_type : string)
                         (pp : PaymentProcessor) : PaymentProcessor :=
  match pp_paymethods pp with
  | None =>
      set_pp_paymethods
        (JObj [("payMethod",
                JObj [("type", JStr method_type); ("value", value)])]) pp
  | Some _ => pp
  end.

(** [processor.set_buyer_data(first_name, last_name, email, phone,
    lang_code)]: it does nothing when [buyer] is set already. *)
Definition set_buyer_data (first_name last_name email phone : json)
                          (lang_code : string) (pp : PaymentProcessor)
  : PaymentProcessor :=
  match pp_buyer pp with
  | None =>
      set_pp_buyer
        (JObj [ ("email", email); ("phone", phone);
                ("firstName", first_name); ("lastName", last_name);
                ("language", JStr lang_code) ]) pp
  | Some _ => pp
  end.

(** [obj.attr] for an attribute that may be missing *)
Definition getattr {A} (v : option A) : result A :=
  match v with
  | Some x => Ok x
  | None => Raise AttributeError
  end.

(** The attributes and methods of the payment that [get_processor] reads
    and that no method of the provider writes. *)
Record Details : Type := mkDetails {
  description : string;
  customer_ip_address : string;
  billing_first_name : json;
  billing_last_name : json;
  billing_email : json;
  token : string;
  purchased_items : list PurchasedItem;   (* get_purchased_items() *)
  process_url : string;                   (* get_process_url() *)
  success_url : string;                   (* get_success_url() *)
  failure_url : string                    (* get_failure_url() *)
}.

(** [payment.get_renew_token()]: the token that [set_renew_token] has
    stored, [None] before. *)
Definition get_renew_token (payment : Payment) : json :=
  match renew_token payment with
  | Some stored => rt_token stored
  | None => JNull
  end.

(** The attributes of [PayuProvider] that only the methods for the widget
    and for card tokens read. *)
Record Options : Type := mkOptions {
  card_on_file : bool;
  express_payments : bool;
  payu_token_url : string;
  payu_api_paymethods_url : string
}.

(** A request that comes from a form: the request and its [POST] data,
    the last value of each key. *)
Record FormRequest : Type := mkFormRequest {
  request_of : HttpRequest;
  POST : list (string * string)
}.

(** What [process_data] answers: an [HttpResponse], or an
    [HttpResponseRedirect] to an address. *)
Inductive Response : Type :=
| Plain (response : HttpResponse)
| Redirect (redirect_to : string).

(** A call of [requests.delete] or [requests.get] with the headers of
    [get_token_headers]: the verb, the address, the content type and the
    bearer token. *)
Record Call : Type := mkCall {
  call_verb : string;
  call_url : string;
  call_content_type : string;
  call_bearer : option json
}.

(** The world, and the calls other than [requests.post] made so far (the
    latest first). *)
Record Session : Type := mkSession {
  s_world : World;
  s_calls : list Call
}.

Definition set_s_world (w : World) (s : Session) : Session :=
  mkSession w (s_calls s).

(** A computation on the world, run within the session. *)
Definition in_world {A} (m : M World A) : M Session A :=
  zoom s_world set_s_world m.

(** ** The methods of [PayuProvider] *)

Section Provider.

(** [json.loads(text)] on a byte string decoded as UTF-8; [None] when the
    bytes are no UTF-8 text or the text is no JSON document (both raise a
    [ValueError], reported here as [JSONDecodeError]). *)
Variable json_loads : string -> option json.

(** [urllib.parse.urljoin] on two non-empty strings *)
Variable urljoin : string -> string -> string.

(** The gateway: the text of its response to a request, given the requests
    it has received before (the latest first). *)
Variable gateway : list Sent -> Sent -> string.

Variable self : Provider.

Definition loads (text : string) : result json :=
  match json_loads text with
  | Some v => Ok v
  | None => Raise JSONDecodeError
  end.

(** [requests.post(url, data=data, headers=headers).text] *)
Definition requests_post (url content_type : string) (bearer : option json)
                         (data : json) : M World string :=
  fun w =>
    let rq := mkSent url content_type bearer data in
    (Ok (gateway (w_sent w) rq),
     mkWorld (w_token w) (rq :: w_sent w) (w_payment w)).

Definition get_access_token (client_id client_secret grant_type : string)
                            (email customer_id : option string)
  : M World json :=
  (let data :=
     ([ ("grant_type", JStr grant_type);
        ("client_id", JStr client_id);
        ("client_secret", JStr client_secret) ]
      ++ match email with
         | Some e => if String.eqb e "" then [] else [("email", JStr e)]
         | None => []
         end
      ++ match customer_id with
         | Some c =>
             if String.eqb c "" then [] else [("ext_customer_id", JStr c)]
         | None => []
         end)%list in
   response_text <-
     requests_post (payu_auth_url self) "application/x-www-form-urlencoded"
                   None (JObj data) ;;
   response_dict <-
     try_except (lift (loads response_text))
       (fun e => match e with
                 | JSONDecodeError =>
                     Some (raise (PayuApiError (JStr response_text)))
                 | _ => None
                 end) ;;
   try_except (lift (py_getitem response_dict "access_token"))
     (fun e => match e with
               | KeyError _ | ValueError _ | JSONDecodeError =>
                   Some (raise (PayuApiError response_dict))
               | _ => None
               end))%prog.

(** [self.get_token_headers()]: the content type and the bearer token *)
Definition get_token_headers : M World (string * option json) :=
  (token <- gets w_token ;;
   ret ("application/json", Some token))%prog.

(** The test of [post_request] on a decoded response: is the token refused? *)
Definition is_unauthorized (response_dict : json) : result bool :=
  (error <- dict_get response_dict "error" ;;
   if json_is_str error "invalid_token" then Ok true
   else
     has_status <- py_contains "status" response_dict ;;
     if has_status then
       status <- py_getitem response_dict "status" ;;
       has_code <- py_contains "statusCode" status ;;
       if has_code then
         status <- py_getitem response_dict "status" ;;
         statusCode <- py_getitem status "statusCode" ;;
         Ok (json_is_str statusCode "UNAUTHORIZED")
       else Ok false
     else Ok false)%res.

(** The body of [for i in range(1, self.retry_count)], once for each
    element of the range, and the [raise] after the loop. *)
Fixpoint post_request_loop (attempts : list Z) (url : string) (data : json)
  : M World json :=
  match attempts with
  | [] => raise (PayuApiError (JStr "Unable to regain authorization token"))
  | _ :: rest =>
      (headers <- get_token_headers ;;
       response_text <-
         requests_post url (fst headers) (snd headers) data ;;
       response_dict <- lift (loads response_text) ;;
       unauthorized <- lift (is_unauthorized response_dict) ;;
       if unauthorized then
         try_except
           (token <- get_access_token (pos_id self) (client_secret self)
                                      (grant_type self) None None ;;
            modify (set_w_token token))
           (fun e => match e with
                     | PayuApiError _ =>
                         Some (raise (PayuApiError
                           (JStr "Unable to regain authorization token {e}")))
                     | _ => None
                     end) ;;
         post_request_loop rest url data
       else ret response_dict)%prog
  end.

Definition post_request (url : string) (data : json) : M World json :=
  post_request_loop (py_range 1 (retry_count self)) url data.

(** [self._get_payu_api_order_url(order_id)]: [urljoin] returns its base
    for an empty second argument and refuses one that is no string. *)
Definition _get_payu_api_order_url (order_id : json) : result string :=
  match order_id with
  | JStr s =>
      if String.eqb s "" then Ok (payu_api_orders_url self)
      else Ok (urljoin (payu_api_orders_url self) s)
  | v => if py_truthy v then Raise TypeError else Ok (payu_api_orders_url self)
  end.

(** The arguments of [payment.set_renew_token] in [create_order], read
    from [response_dict["payMethods"]["payMethod"]]. *)
Definition renew_token_of (response_dict : json) : result RenewToken :=
  (let payMethod :=
     (payMethods <- py_getitem response_dict "payMethods" ;;
      py_getitem payMethods "payMethod") in
   let card := (pm <- payMethod ;; py_getitem pm "card") in
   value <- (pm <- payMethod ;; py_getitem pm "value") ;;
   year <- (c <- card ;; py_getitem c "expirationYear") ;;
   month <- (c <- card ;; py_getitem c "expirationMonth") ;;
   number <- (c <- card ;; py_getitem c "number") ;;
   Ok (mkRenewToken value year month number
         (if recurring_payments self then "task" else "user")))%res.

(** The [try] block of [create_order]: [Some url] when it returns [url],
    [None] when it runs to its end. *)
Definition create_order_try (payment_processor : PaymentProcessor)
                            (auto_renew : bool) (response_dict : json)
  : M Payment (option json) :=
  (orderId <- lift (py_getitem response_dict "orderId") ;;
   modify (set_transaction_id orderId) ;;
   has_payMethods <- lift (py_contains "payMethods" response_dict) ;;
   (if has_payMethods then
      tok <- lift (renew_token_of response_dict) ;;
      modify (set_renew_token tok)
    else ret tt) ;;
   add_extra_data [("card_response", response_dict)] ;;
   statusCode <-
     lift (status <- py_getitem response_dict "status" ;;
           py_getitem status "statusCode")%res ;;
   if json_is_str statusCode "SUCCESS" then
     has_redirectUri <- lift (py_contains "redirectUri" response_dict) ;;
     if has_redirectUri then
       redirectUri <- lift (py_getitem response_dict "redirectUri") ;;
       modify (set_pay_link redirectUri) ;;
       save ;;
       redirectUri <- lift (py_getitem response_dict "redirectUri") ;;
       ret (Some redirectUri)
     else if auto_renew then ret (Some (JStr "success"))
     else
       continueUrl <- lift (getattr (pp_continueUrl payment_processor)) ;;
       ret (Some (JStr continueUrl))
   else if json_is_str statusCode "WARNING_CONTINUE_CVV" then
     redirectUri <- lift (py_getitem response_dict "redirectUri") ;;
     add_extra_data [("cvv_url", redirectUri)] ;;
     url <- gets payment_url ;;
     ret (Some (JStr url))
   else if json_is_str statusCode "WARNING_CONTINUE_3DS" then
     redirectUri <- lift (py_getitem response_dict "redirectUri") ;;
     add_extra_data [("3ds_url", redirectUri)] ;;
     redirectUri <- lift (py_getitem response_dict "redirectUri") ;;
     ret (Some redirectUri)
   else ret None)%prog.

(** [response_dict["status"]["statusCode"]] *)
Definition status_code_of (response_dict : json) : result json :=
  (status <- py_getitem response_dict "status" ;;
   py_getitem status "statusCode")%res.

(** What follows the [try] block of [create_order].  The argument of
    [logger.exception] is evaluated, and may raise; the logging itself is
    left out. *)
Definition create_order_failed (payment_processor : PaymentProcessor)
                               (response_dict : json) : M Payment json :=
  (has_status <- lift (py_contains "status" response_dict) ;;
   already_processed <-
     (if has_status then
        statusCode <- lift (status_code_of response_dict) ;;
        (if json_is_str statusCode "BUSINESS_ERROR"
         then change_fraud_status REJECT response_dict
         else
           members <- lift (as_mapping response_dict) ;;
           add_extra_data members) ;;
        statusCode <- lift (status_code_of response_dict) ;;
        current <- gets status ;;
        ret (json_is_str statusCode "ERROR_ORDER_NOT_UNIQUE"
             && PaymentStatus_eqb current CONFIRMED)
      else ret false) ;;
   if already_processed then ret (JStr "")
   else
     change_status ERROR ;;
     has_status <- lift (py_contains "status" response_dict) ;;
     (if has_status then
        _ <- lift (status <- py_getitem response_dict "status" ;;
                   py_getitem status "codeLiteral")%res ;;
        ret tt
      else ret tt) ;;
     failureUrl <- lift (getattr (pp_failureUrl payment_processor)) ;;
     ret (JStr failureUrl))%prog.

Definition create_order (payment_processor : PaymentProcessor)
                        (auto_renew : bool) : M World json :=
  (let payment_processor :=
     set_pp_pos_id (JStr (pos_id self)) payment_processor in
   json_data <- lift (as_json payment_processor) ;;
   response_dict <- post_request (payu_api_orders_url self) json_data ;;
   returned <-
     on_payment
       (try_except (create_order_try payment_processor auto_renew response_dict)
          (fun e => match e with
                    | KeyError _ => Some (ret None)
                    | _ => None
                    end)) ;;
   match returned with
   | Some url => ret url
   | None => on_payment (create_order_failed payment_processor response_dict)
   end)%prog.

(** [try: r except Exception: raise e] *)
Definition except_Exception {A} (r : result A) (e : exn) : result A :=
  match r with
  | Ok a => Ok a
  | Raise OutOfModel => Raise OutOfModel
  | Raise _ => Raise e
  end.

(** [payment_extra_data.setdefault("refund_responses", []).append(response)] *)
Definition add_refund_response (response : json) : M Payment unit :=
  (payment_extra_data <- gets extra_data ;;
   let payment_extra_data :=
     if assoc_mem "refund_responses" payment_extra_data then payment_extra_data
     else assoc_set "refund_responses" (JArr []) payment_extra_data in
   match assoc_get "refund_responses" payment_extra_data with
   | Some (JArr responses) =>
       modify (set_extra_data
                 (assoc_set "refund_responses" (JArr (responses ++ [response]))
                            payment_extra_data)) ;;
       save
   | _ => raise AttributeError
   end)%prog.

(** [x not in {"PENDING"}] *)
Definition not_in_pending (x : json) : result bool :=
  if hashable x then Ok (negb (json_is_str x "PENDING")) else Raise TypeError.

(** The first part of [refund]: the address and the document of the
    request. *)
Definition refund_request (describe : Payment -> option Decimal -> json)
                          (payment : Payment) (amount : option Decimal)
  : result (string * json) :=
  (order_url <- _get_payu_api_order_url (transaction_id payment) ;;
   let request_url := order_url ++ "/refunds" in
   let request_refund :=
     [ ("currencyCode", JStr (currency payment));
       ("description", describe payment amount) ] in
   request_refund <-
     match amount with
     | Some a =>
         quantized <- quantize_price a (currency payment) ;;
         Ok (request_refund ++ [("amount", JInt quantized)])%list
     | None => Ok request_refund
     end ;;
   let ext_refund_id := get_refund_ext_id self payment amount in
   let request_refund :=
     match ext_refund_id with
     | JNull => request_refund
     | _ => (request_refund ++ [("extRefundId", ext_refund_id)])%list
     end in
   Ok (request_url, JObj [("refund", JObj request_refund)]))%res.

(** The last part of [refund]: the checks on the response, from the first
    [try] to [return Decimal(0)]. *)
Definition check_refund_response (payment : Payment) (amount : option Decimal)
                                 (response : json) : result Decimal :=
  (let refund := py_getitem response "refund" in
   let refund_id :=
     match (r <- refund ;; py_getitem r "refundId") with
     | Ok v => v
     | Raise _ => JNull
     end in
   response_status_code <-
     except_Exception
       (status <- py_getitem response "status" ;;
        response_status <- py_dict status ;;
        py_getitem (JObj response_status) "statusCode")
       (PayuApiError (JStr
          "invalid response to refund {refund_id or '???'} of payment {payment.id}: {response}")) ;;
   if negb (json_is_str response_status_code "SUCCESS")
   then Raise (ValueError
          "refund {refund_id or '???'} of payment {payment.id} failed: ")
   else
     match refund_id with
     | JNull =>
         Raise (PayuApiError (JStr
           "invalid response to refund of payment {payment.id}: {response}"))
     | _ =>
         fields <-
           except_Exception
             (refund_order_id <- py_getitem response "orderId" ;;
              r <- refund ;;
              refund_status <- py_getitem r "status" ;;
              refund_currency <- py_getitem r "currencyCode" ;;
              refund_amount_raw <- py_getitem r "amount" ;;
              refund_amount <-
                dequantize_price refund_amount_raw refund_currency ;;
              Ok (refund_order_id, refund_status, refund_currency,
                  refund_amount))
             (PayuApiError (JStr
                "invalid response to refund {refund_id} of payment {payment.id}: {response}")) ;;
         let '(refund_order_id, refund_status, refund_currency,
               refund_amount) := fields in
         if negb (py_eq refund_order_id (transaction_id payment))
         then Raise (NotImplementedError
                "response of refund {refund_id} of payment {payment.id} containing a different order_id ")
         else if json_is_str refund_status "CANCELED"
         then Raise (ValueError
                "refund {refund_id} of payment {payment.id} canceled")
         else if json_is_str refund_status "FINALIZED"
         then Raise (NotImplementedError
                "refund {refund_id} of payment {payment.id} being FINALIZED already is not supported yet")
         else
           invalid_status <- not_in_pending refund_status ;;
           if invalid_status
           then Raise (PayuApiError (JStr
                  "invalid status of refund {refund_id} of payment {payment.id}"))
           else if negb (json_is_str refund_currency (currency payment))
           then Raise (NotImplementedError
                  "refund {refund_id} of payment {payment.id} in different currency not supported yet: ")
           else
             match amount with
             | Some a =>
                 if negb (Dec.eqb refund_amount a)
                 then Raise (NotImplementedError
                        "refund {refund_id} of payment {payment.id} having a different amount than requested not supported ")
                 else Ok (Dec.of_Z 0)
             | None => Ok (Dec.of_Z 0)
             end
     end)%res.

Definition refund (amount : option Decimal) : M World Decimal :=
  match get_refund_description self with
  | None => raise (ValueError "get_refund_description not set")
  | Some describe =>
      (payment <- gets w_payment ;;
       request <- lift (refund_request describe payment amount) ;;
       response <- post_request (fst request) (snd request) ;;
       on_payment (add_refund_response response) ;;
       payment <- gets w_payment ;;
       lift (check_refund_response payment amount response))%prog
  end.

(** The refund branch of [process_notification]: from
    [refunded_price = dequantize_price(...)] to the [raise] for a refund that
    is not finalized.  The calls to [logger.error] and [print] do not change
    the payment or the response and are left out. *)
Definition process_refund (data : json) : M Payment HttpResponse :=
  (refunded_price <-
     lift (refund <- py_getitem data "refund" ;;
           amount <- py_getitem refund "amount" ;;
           refund <- py_getitem data "refund" ;;
           currencyCode <- py_getitem refund "currencyCode" ;;
           dequantize_price amount currencyCode)%res ;;
   refund_status <-
     lift (refund <- py_getitem data "refund" ;;
           py_getitem refund "status")%res ;;
   if json_is_str refund_status "FINALIZED" then
     old_message <- gets message ;;
     new_message <-
       lift (refund <- py_getitem data "refund" ;;
             reason <- py_getitem refund "reasonDescription" ;;
             py_add_str old_message reason)%res ;;
     modify (set_message new_message) ;;
     captured <- gets captured_amount ;;
     (if Dec.geb refunded_price captured
      then change_status REFUNDED
      else
        modify (set_captured_amount (Dec.sub captured refunded_price)) ;;
        save) ;;
     ret (mkHttpResponse "ok" 200)
   else raise (PyException "Refund was not finelized"))%prog.

(** The order branch of [process_notification]: from [status_map] to the
    response; the update of the database row and the call to [logger.error]
    are left out. *)
Definition process_order (data : json) : M Payment HttpResponse :=
  (new_status <-
     lift (order <- py_getitem data "order" ;;
           order_status <- py_getitem order "status" ;;
           status_map_getitem order_status)%res ;;
   has_total <-
     (if PaymentStatus_eqb new_status CONFIRMED
      then lift (order <- py_getitem data "order" ;;
                 py_contains "totalAmount" order)%res
      else ret false) ;;
   (if has_total then
      amount <-
        lift (order <- py_getitem data "order" ;;
              totalAmount <- py_getitem order "totalAmount" ;;
              order <- py_getitem data "order" ;;
              currencyCode <- py_getitem order "currencyCode" ;;
              dequantize_price totalAmount currencyCode)%res ;;
      modify (set_captured_amount amount)
    else ret tt) ;;
   change_status new_status ;;
   ret (mkHttpResponse "ok" 200))%prog.

(** [PayuProvider.process_notification] *)
Definition process_notification (request : HttpRequest)
  : M Payment HttpResponse :=
  (header <-
     try_except
       (_ <- lift (loads (body request)) ;;
        lift (str_getitem (META request) "HTTP_OPENPAYU_SIGNATURE"))
       (fun e => match e with
                 | KeyError _ =>
                     Some (raise (PayuApiError (JStr "Malformed POST")))
                 | _ => None
                 end) ;;
   let header_data_raw := str_split ";" header in
   header_data <- lift (parse_header header_data_raw []) ;;
   incoming_signature <- lift (str_getitem header_data "signature") ;;
   algorithm <- lift (str_getitem header_data "algorithm") ;;
   if String.eqb algorithm "MD5" then
     let signature := MD5.hexdigest (body request ++ second_key self) in
     if String.eqb incoming_signature signature then
       data <- lift (loads (body request)) ;;
       add_new_status data ;;
       is_refund <- lift (py_contains "refund" data) ;;
       if is_refund then process_refund data else process_order data
     else ret (mkHttpResponse "not ok" 500)
   else ret (mkHttpResponse "not ok" 500))%prog.

(** *** Orders placed from the widget *)

(** [payments.core.get_base_url()]: the address of the site, from the
    settings *)
Variable base_url : string.

(** Is the address one that [HttpResponseRedirect] accepts: without a
    scheme, or with one of [http], [https] and [ftp]? *)
Variable allowed_redirect : string -> bool.

Variable options : Options.

(** [urljoin(base, url)] for any two strings: when one is empty the result is
    the other. *)
Definition join_url (base url : string) : string :=
  if String.eqb base "" then url
  else if String.eqb url "" then base
  else urljoin base url.

Definition get_processor (details : Details) (payment : Payment)
  : PaymentProcessor :=
  let order := purchased_items details in
  let notify_url := join_url base_url (process_url details) in
  let processor :=
    PaymentProcessor_init order notify_url (currency payment)
      (description details) (customer_ip_address details) (total payment) in
  let processor :=
    set_buyer_data (billing_first_name details) (billing_last_name details)
                   (billing_email details) JNull "en" processor in
  let processor := set_pp_external_id (JStr (token details)) processor in
  let processor :=
    set_pp_continueUrl (join_url base_url (success_url details)) processor in
  set_pp_failureUrl (join_url base_url (failure_url details)) processor.

Definition process_widget (details : Details) (card_token : json)
                          (recurring : string) (auto_renew : bool)
  : M World json :=
  (payment <- gets w_payment ;;
   let processor := get_processor details payment in
   let processor :=
     if card_on_file options then
       set_pp_cardOnFile
         (if String.eqb recurring "FIRST" then "FIRST"
          else "STANDARD_CARDHOLDER") processor
     else if recurring_payments self then set_pp_recurring recurring processor
     else processor in
   let processor :=
     if express_payments options
     then set_paymethod card_token "CARD_TOKEN" processor
     else processor in
   create_order processor auto_renew)%prog.

(** [HttpResponseRedirect(data)] and [HttpResponse(data, status=...)] for a
    string; an address that Django refuses and a content that is no string
    are outside the model. *)
Definition HttpResponseRedirect (data : json) : result Response :=
  match data with
  | JStr redirect_to =>
      if allowed_redirect redirect_to then Ok (Redirect redirect_to)
      else Raise OutOfModel
  | _ => Raise OutOfModel
  end.

Definition HttpResponse_of (data : json) (status : Z) : result Response :=
  match data with
  | JStr text => Ok (Plain (mkHttpResponse text status))
  | _ => Raise OutOfModel
  end.

Definition process_widget_callback (details : Details) (card_token : json)
                                   (recurring : string) : M World Response :=
  (data <- process_widget details card_token recurring false ;;
   if String.eqb recurring "STANDARD" then lift (HttpResponseRedirect data)
   else lift (HttpResponse_of data 200))%prog.

(** [PayuProvider.process_data]; the assignment to [self.request], which no
    method reads, is left out. *)
Definition process_data (details : Details) (request : FormRequest)
  : M World Response :=
  (payment <- gets w_payment ;;
   let renew_token := get_renew_token payment in
   if match assoc_get "CONTENT_TYPE" (META (request_of request)) with
      | Some content_type => is_substring "application/json" content_type
      | None => false
      end
   then
     response <- on_payment (process_notification (request_of request)) ;;
     ret (Plain response)
   else if py_truthy renew_token && recurring_payments self
   then process_widget_callback details renew_token "STANDARD"
   else
     match assoc_get "value" (POST request) with
     | Some value => process_widget_callback details (JStr value) "FIRST"
     | None =>
         ret (Plain (mkHttpResponse
                "request not recognized by django-payments-payu provider"
                500))
     end)%prog.

Definition auto_complete_recurring (details : Details) : M World json :=
  (payment <- gets w_payment ;;
   let renew_token := get_renew_token payment in
   url <- process_widget details renew_token "STANDARD" true ;;
   match url with
   | JStr address =>
       if negb (prefix "http" address) && negb (String.eqb address "success")
       then ret (JStr (join_url base_url address))
       else ret url
   | _ => raise AttributeError
   end)%prog.

(** *** Calls other than POST *)

(** The gateway on the other verbs: the text and the status code of its
    response to a call, given the requests and the calls it has received
    before. *)
Variable service : list Sent -> list Call -> Call -> string * Z.

(** [requests.delete(url, headers=self.get_token_headers())], and the same
    for [requests.get]: the text and the status code of the response. *)
Definition requests_call (verb url : string) : M Session (string * Z) :=
  (headers <- in_world get_token_headers ;;
   fun s =>
     let call := mkCall verb url (fst headers) (snd headers) in
     (Ok (service (w_sent (s_world s)) (s_calls s) call),
      mkSession (s_world s) (call :: s_calls s)))%prog.

Definition delete_card_token (card_token : string) : M Session bool :=
  (let payu_delete_token_url := join_url (payu_token_url options) card_token in
   response <- requests_call "DELETE" payu_delete_token_url ;;
   ret (snd response =? 204))%prog.

Definition get_paymethod_tokens : M Session json :=
  (response <- requests_call "GET" (payu_api_paymethods_url options) ;;
   lift (loads (fst response)))%prog.

(** [PayuProvider.reject_order].  In [a == b == "SUCCESS"] both status codes
    are read before they are compared. *)
Definition reject_order : M Session bool :=
  (payment <- in_world (gets w_payment) ;;
   url <- lift (_get_payu_api_order_url (transaction_id payment)) ;;
   try_except
     (answer1 <- requests_call "DELETE" url ;;
      response1 <- lift (loads (fst answer1)) ;;
      answer2 <- requests_call "DELETE" url ;;
      response2 <- lift (loads (fst answer2)) ;;
      code1 <- lift (status_code_of response1) ;;
      code2 <- lift (status_code_of response2) ;;
      if py_eq code1 code2 && json_is_str code2 "SUCCESS" then
        in_world (on_payment (change_status REJECTED)) ;;
        ret true
      else raise (PayuApiError response1))
     (fun e => match e with
               | PayuApiError _ => Some (ret false)
               | _ => None
               end))%prog.

End Provider.

(** ** The signature of the widget *)

Definition sig_sorted_key_list : list string :=
  [ "currency-code"; "customer-email"; "customer-language"; "cvv-url";
    "merchant-pos-id"; "payu-brand"; "recurring-payment"; "shop-name";
    "store-card"; "total-amount"; "widget-mode" ].

(** [s.lower()] on ASCII text *)
Definition ascii_lower (c : ascii) : ascii :=
  let n := N_of_ascii c in
  if ((65 <=? n) && (n <=? 90))%N then ascii_of_N (n + 32) else c.

Fixpoint str_lower (s : string) : string :=
  match s with
  | EmptyString => EmptyString
  | String c s' => String (ascii_lower c) (str_lower s')
  end.

Section Signature.

(** The values of the parameters of the widget with [str] on them, and
    [hashlib.sha256(data).hexdigest()]. *)
Context {Value : Type}.
Variable py_str : Value -> string.
Variable sha256_hexdigest : string -> string.

Definition get_sig (self : Provider) (payu_data : list (string * Value))
  : string :=
  let string :=
    concat ""
      (flat_map (fun key =>
                   match assoc_get key payu_data with
                   | Some value => [py_str value]
                   | None => []
                   end) sig_sorted_key_list) in
  let string := string ++ second_key self in
  str_lower (sha256_hexdigest string).

End Signature.

(** ** A decoder for a fragment of JSON

    [JsonFragment.loads] reads the JSON texts made of objects, arrays,
    ASCII strings with the simple escapes, integers, [true], [false] and
    [null], as [json.loads] reads them; it gives [None] on every other text.
    It stands for [json.loads] in the examples. *)

Module JsonFragment.

Definition quote : ascii := ascii_of_nat 34.
Definition backslash : ascii := ascii_of_nat 92.

Definition is_ws (c : ascii) : bool :=
  existsb (N.eqb (N_of_ascii c)) [32; 9; 10; 13]%N.

Fixpoint skip_ws (s : string) : string :=
  match s with
  | String c s' => if is_ws c then skip_ws s' else s
  | EmptyString => s
  end.

Definition unescape (c : ascii) : option ascii :=
  if Ascii.eqb c quote then Some quote
  else if Ascii.eqb c backslash then Some backslash
  else if Ascii.eqb c "/" then Some "/"%char
  else if Ascii.eqb c "b" then Some (ascii_of_nat 8)
  else if Ascii.eqb c "f" then Some (ascii_of_nat 12)
  else if Ascii.eqb c "n" then Some (ascii_of_nat 10)
  else if Ascii.eqb c "r" then Some (ascii_of_nat 13)
  else if Ascii.eqb c "t" then Some (ascii_of_nat 9)
  else None.

(** The characters of a string after its opening quote, and what follows
    the closing quote. *)
Fixpoint read_string (s : string) : option (string * string) :=
  match s with
  | EmptyString => None
  | String c s' =>
      if Ascii.eqb c quote then Some (EmptyString, s')
      else if Ascii.eqb c backslash then
        match s' with
        | String e s'' =>
            match unescape e, read_string s'' with
            | Some ch, Some (t, rest) => Some (String ch t, rest)
            | _, _ => None
            end
        | EmptyString => None
        end
      else if ((N_of_ascii c <? 32) || (127 <? N_of_ascii c))%N then None
      else
        match read_string s' with
        | Some (t, rest) => Some (String c t, rest)
        | None => None
        end
  end.

(** An integer: no leading zero, no fraction and no exponent. *)
Definition read_int (s : string) : option (Z * string) :=
  let '(neg, s0) :=
    match s with
    | String "-" s' => (true, s')
    | _ => (false, s)
    end in
  match span_digits s0 0 0 with
  | (n, cnt, rest) =>
      let leading_zero :=
        match s0 with
        | String "0" _ => 1 <? cnt
        | _ => false
        end in
      let continues :=
        match rest with
        | String c _ => existsb (Ascii.eqb c) ["."; "e"; "E"]%char
        | EmptyString => false
        end in
      if (0 <? cnt) && negb leading_zero && negb continues
      then Some (if neg then - Z.of_N n else Z.of_N n, rest)
      else None
  end.

Definition read_literal (lit : string) (v : json) (s : string)
  : option (json * string) :=
  if prefix lit s
  then Some (v, substring (String.length lit)
                          (String.length s - String.length lit) s)
  else None.

Fixpoint read_value (fuel : nat) (s : string) {struct fuel}
  : option (json * string) :=
  match fuel with
  | O => None
  | S fuel' =>
      match skip_ws s with
      | String c s' =>
          if Ascii.eqb c "{" then
            match skip_ws s' with
            | String "}" rest => Some (JObj [], rest)
            | _ => read_members fuel' s' []
            end
          else if Ascii.eqb c "[" then
            match skip_ws s' with
            | String "]" rest => Some (JArr [], rest)
            | _ => read_elements fuel' s' []
            end
          else if Ascii.eqb c quote then
            match read_string s' with
            | Some (t, rest) => Some (JStr t, rest)
            | None => None
            end
          else if Ascii.eqb c "t" then read_literal "true" (JBool true) (String c s')
          else if Ascii.eqb c "f" then read_literal "false" (JBool false) (String c s')
          else if Ascii.eqb c "n" then read_literal "null" JNull (String c s')
          else
            match read_int (String c s') with
            | Some (n, rest) => Some (JInt n, rest)
            | None => None
            end
      | EmptyString => None
      end
  end

with read_elements (fuel : nat) (s : string) (acc : list json) {struct fuel}
  : option (json * string) :=
  match fuel with
  | O => None
  | S fuel' =>
      match read_value fuel' s with
      | Some (v, rest) =>
          match skip_ws rest with
          | String "," rest' => read_elements fuel' rest' (acc ++ [v])
          | String "]" rest' => Some (JArr (acc ++ [v]), rest')
          | _ => None
          end
      | None => None
      end
  end

with read_members (fuel : nat) (s : string) (acc : list (string * json))
                  {struct fuel} : option (json * string) :=
  match fuel with
  | O => None
  | S fuel' =>
      match skip_ws s with
      | String c s' =>
          if Ascii.eqb c quote then
            match read_string s' with
            | Some (k, rest) =>
                match skip_ws rest with
                | String ":" rest' =>
                    match read_value fuel' rest' with
                    | Some (v, rest'') =>
                        match skip_ws rest'' with
                        | String "," r => read_members fuel' r (assoc_set k v acc)
                        | String "}" r => Some (JObj (assoc_set k v acc), r)
                        | _ => None
                        end
                    | None => None
                    end
                | _ => None
                end
            | None => None
            end
          else None
      | EmptyString => None
      end
  end.

Definition loads (text : string) : option json :=
  match read_value (2 * String.length text + 2) text with
  | Some (v, rest) =>
      match skip_ws rest with
      | EmptyString => Some v
      | _ => None
      end
  | None => None
  end.

(** A JSON text written with apostrophes in the place of its quotes. *)
Fixpoint text (s : string) : string :=
  match s with
  | EmptyString => EmptyString
  | String c s' => String (if Ascii.eqb c "'" then quote else c) (text s')
  end.

End JsonFragment.

(** ** The vocabulary of the properties *)

(** The currencies of [CURRENCY_SUB_UNIT]. *)
Definition supported (currency : string) : bool :=
  assoc_mem currency CURRENCY_SUB_UNIT.

(** An amount with at most two fractional digits: its exponent is at least
    -2, or the digits of its coefficient beyond the second place are
    zeros. *)
Definition two_decimals (x : Decimal) : bool :=
  (-2 <=? d_exp x) || (d_int x mod Dec.pow10 (-2 - d_exp x) =? 0)%N.

(** The magnitude of such an amount in hundredths, and the amount in
    hundredths. *)
Definition units (x : Decimal) : N :=
  if -2 <=? d_exp x then (d_int x * Dec.pow10 (d_exp x + 2))%N
  else (d_int x / Dec.pow10 (-2 - d_exp x))%N.

Definition minor_units (x : Decimal) : Z :=
  if d_sign x then - Z.of_N (units x) else Z.of_N (units x).

(** [a] stands for the natural number [m], up to its sign. *)
Definition represents (a : Decimal) (m : N) : Prop :=
  if 0 <=? d_exp a then (d_int a * Dec.pow10 (d_exp a))%N = m
  else d_int a = (m * Dec.pow10 (- d_exp a))%N.

(** The quantization the specification describes: the amount times 100,
    rounded half-up to the nearest integer. *)
Definition quantize_half_up (amount : Decimal) : Z :=
  Dec.to_int
    (Dec.rescale (mkDecimal (d_sign amount) (d_int amount * 100) (d_exp amount))
                 0 Dec.ROUND_HALF_UP).

(** The signature and the algorithm that [process_notification] reads from
    the header of a request. *)
Definition signature_header (request : HttpRequest) : result (string * string) :=
  (header <- str_getitem (META request) "HTTP_OPENPAYU_SIGNATURE" ;;
   header_data <- parse_header (str_split ";" header) [] ;;
   incoming_signature <- str_getitem header_data "signature" ;;
   algorithm <- str_getitem header_data "algorithm" ;;
   Ok (incoming_signature, algorithm))%res.

(** The header names MD5 and carries the digest of the body followed by
    the second key. *)
Definition signature_ok (self : Provider) (request : HttpRequest) : bool :=
  match signature_header request with
  | Ok (incoming_signature, algorithm) =>
      String.eqb algorithm "MD5"
      && String.eqb incoming_signature
                    (MD5.hexdigest (body request ++ second_key self))
  | Raise _ => false
  end.

(** The entry [key] of the journal is absent or a list, so that one can
    append to it. *)
Definition journal_ok (key : string) (p : Payment) : bool :=
  match assoc_get key (extra_data p) with
  | None | Some (JArr _) => true
  | Some _ => false
  end.

(** What [process_refund] reads from a notification. *)
Definition refund_amount_of (data : json) : result Decimal :=
  (refund <- py_getitem data "refund" ;;
   amount <- py_getitem refund "amount" ;;
   refund <- py_getitem data "refund" ;;
   currencyCode <- py_getitem refund "currencyCode" ;;
   dequantize_price amount currencyCode)%res.

Definition refund_field_of (field : string) (data : json) : result json :=
  (refund <- py_getitem data "refund" ;;
   py_getitem refund field)%res.

(** What [process_order] reads from a notification. *)
Definition order_field_of (field : string) (data : json) : result json :=
  (order <- py_getitem data "order" ;;
   py_getitem order field)%res.

Definition order_amount_of (data : json) : result Decimal :=
  (order <- py_getitem data "order" ;;
   totalAmount <- py_getitem order "totalAmount" ;;
   order <- py_getitem data "order" ;;
   currencyCode <- py_getitem order "currencyCode" ;;
   dequantize_price totalAmount currencyCode)%res.

(** The order statuses of the gateway and the payment statuses they stand
    for, as the specification lists them. *)
Definition claimed_status (order_status : json) : option PaymentStatus :=
  if json_is_str order_status "COMPLETED" then Some CONFIRMED
  else if json_is_str order_status "PENDING" then Some INPUT
  else if json_is_str order_status "WAITING_FOR_CONFIRMATION" then Some INPUT
  else if json_is_str order_status "CANCELED" then Some REJECTED
  else if json_is_str order_status "NEW" then Some WAITING
  else None.

(** [p] with a new status, an empty message and a new journal. *)
Definition moved_to (new_status : PaymentStatus) (captured : Decimal)
                    (journal : list (string * json)) (p : Payment) : Payment :=
  mkPayment (id p) new_status (fraud_status p) (JStr "") (total p)
            captured (currency p) (transaction_id p)
            journal (renew_token p) (pay_link p) (payment_url p).

Definition carries_total (data : json) : bool :=
  match order_field_of "totalAmount" data with
  | Ok _ => true
  | Raise _ => false
  end.


(** How many of the requests sent so far went to [url]. *)
Definition requests_to (url : string) (w : World) : nat :=
  List.length (filter (fun rq => String.eqb (sent_url rq) url) (w_sent w)).

(** The response acknowledges the refund of this payment: status code
    SUCCESS, a refund identifier, the order of the payment, and a refund
    with a status, a currency and an amount that can be read. *)
Definition acknowledges (payment : Payment) (response refund_status : json)
  : Prop :=
  (status <- py_getitem response "status" ;;
   response_status <- py_dict status ;;
   py_getitem (JObj response_status) "statusCode")%res = Ok (JStr "SUCCESS")
  /\ (exists refund_id,
        refund_field_of "refundId" response = Ok refund_id
        /\ refund_id <> JNull)
  /\ (exists order_id,
        py_getitem response "orderId" = Ok order_id
        /\ py_eq order_id (transaction_id payment) = true)
  /\ refund_field_of "status" response = Ok refund_status
  /\ (exists refund_currency raw refund_amount,
        refund_field_of "currencyCode" response = Ok refund_currency
        /\ refund_field_of "amount" response = Ok raw
        /\ dequantize_price raw refund_currency = Ok refund_amount).

(** The list that the journal holds under [key]: empty when there is
    none. *)
Definition journal (key : string) (p : Payment) : list json :=
  match assoc_get key (extra_data p) with
  | Some (JArr entries) => entries
  | _ => []
  end.

(** What [process_notification] does with a verified notification once it is
    in the journal. *)
Definition reconcile (data : json) : M Payment HttpResponse :=
  (is_refund <- lift (py_contains "refund" data) ;;
   if is_refund then process_refund data else process_order data)%prog.

(** The fields of the payment that no notification changes. *)
Definition kept_by_notifications (p p' : Payment) : Prop :=
  id p' = id p
  /\ fraud_status p' = fraud_status p
  /\ total p' = total p
  /\ currency p' = currency p
  /\ transaction_id p' = transaction_id p
  /\ renew_token p' = renew_token p
  /\ pay_link p' = pay_link p
  /\ payment_url p' = payment_url p.

(** A key or a value of the signature header: it holds neither [;] nor
    [=]. *)
Definition plain (s : string) : bool :=
  string_forallb (fun c => negb (Ascii.eqb c ";" || Ascii.eqb c "=")) s.

Definition plain_field (kv : string * string) : Prop :=
  plain (fst kv) = true /\ plain (snd kv) = true.

(** The header that carries the fields: [key=value] joined by [;]. *)
Fixpoint header_of (fields : list (string * string)) : string :=
  match fields with
  | [] => ""
  | (k, v) :: rest =>
      k ++ "=" ++ v ++ match rest with
                       | [] => ""
                       | _ :: _ => ";" ++ header_of rest
                       end
  end.

(** The request that [post_request] sends with the token [token], and the
    request of [post_request] for a new token. *)
Definition order_request (url : string) (token data : json) : Sent :=
  mkSent url "application/json" (Some token) data.

Definition token_request (self : Provider) : Sent :=
  mkSent (payu_auth_url self) "application/x-www-form-urlencoded" None
    (JObj [ ("grant_type", JStr (grant_type self));
            ("client_id", JStr (pos_id self));
            ("client_secret", JStr (client_secret self)) ]).

(** The card that the response to an order names, if it names one. *)
Definition card_of (self : Provider) (response_dict : json)
  : result (option RenewToken) :=
  (has_payMethods <- py_contains "payMethods" response_dict ;;
   if has_payMethods
   then tok <- renew_token_of self response_dict ;; Ok (Some tok)
   else Ok None)%res.

(** The payment after the first lines of the [try] block of [create_order]:
    with the order identifier, the card when the response names one, and
    the response in [extra_data]. *)
Definition order_recorded (order_id : json) (card : option RenewToken)
                          (response_dict : json) (p : Payment) : Payment :=
  let p := set_transaction_id order_id p in
  let p := match card with
           | Some tok => set_renew_token tok p
           | None => p
           end in
  set_extra_data
    (assoc_merge (extra_data p) [("card_response", response_dict)]) p.

(** The status code is none of those for which the [try] block of
    [create_order] returns. *)
Definition refused (code : json) : bool :=
  negb (json_is_str code "SUCCESS"
        || json_is_str code "WARNING_CONTINUE_CVV"
        || json_is_str code "WARNING_CONTINUE_3DS").

(** [response_dict["status"]["codeLiteral"]] *)
Definition code_literal_of (response : json) : result json :=
  (status <- py_getitem response "status" ;;
   py_getitem status "codeLiteral")%res.

(** [len(s)] of a [str]: the number of its characters, which is the number
    of the bytes of its encoding that are no continuation bytes. *)
Fixpoint str_len (s : string) : nat :=
  match s with
  | EmptyString => O
  | String c rest =>
      if is_continuation c then str_len rest else S (str_len rest)
  end.

(** The call that [reject_order] makes. *)
Definition delete_call (url : string) (s : Session) : Call :=
  mkCall "DELETE" url "application/json" (Some (w_token (s_world s))).

(** ** Examples

    The provider, the payments and the messages of the test suite
    ([tests/test_payu.py]), and a few more. *)

Module Examples.

Definition provider : Provider :=
  mkProvider "123abc" "123abc" "123abc"
    "http://mock.url/pl/standard/user/oauth/authorize"
    "http://mock.url/api/v2_1/orders/"
    "client_credentials" true 5
    (Some (fun _ _ => JStr "desc 1234 110"))
    (fun _ _ => JStr "ext 1234 110").

Definition waiting_payment : Payment :=
  mkPayment 1 WAITING UNKNOWN (JStr "") (Dec.of_Z 220) (Dec.of_Z 0) "USD"
    JNull [] None JNull "/payment/token".

(** A confirmed payment of 220.00 *)
Definition confirmed_payment : Payment :=
  mkPayment 1 CONFIRMED UNKNOWN (JStr "") (Dec.of_Z 220) (Dec.of_Z 220) "USD"
    (JStr "1234") [] None JNull "/payment/token".

Definition notification (body signature_header : string) : HttpRequest :=
  mkHttpRequest (JsonFragment.text body)
    [ ("CONTENT_TYPE", "application/json");
      ("HTTP_OPENPAYU_SIGNATURE", signature_header) ].

(** The header that the gateway computes for a body *)
Definition signed (body : string) : HttpRequest :=
  notification body
    ("signature="
     ++ MD5.hexdigest (JsonFragment.text body ++ second_key provider)
     ++ ";algorithm=MD5").

Definition order_completed : HttpRequest :=
  notification "{'order': {'status': 'COMPLETED'}}"
    "signature=a12fbd21c48e69bedee18edf042b816c;algorithm=MD5".

Definition order_completed_total : HttpRequest :=
  signed "{'order': {'status': 'COMPLETED', 'totalAmount': 20000, 'currencyCode': 'USD'}}".

Definition order_unknown_status : HttpRequest :=
  signed "{'order': {'status': 'REJECTED'}}".

Definition refund_full : HttpRequest :=
  notification
    "{'order': {'status': 'COMPLETED'}, 'refund': {'amount': '22000', 'currencyCode': 'USD', 'status': 'FINALIZED', 'reasonDescription': 'BlenderKit refund'}}"
    "signature=dd8cdddaa98438e7a76f5e830395d7e8;algorithm=MD5".

Definition refund_partial : HttpRequest :=
  notification
    "{'order': {'status': 'COMPLETED'}, 'refund': {'amount': '11000', 'currencyCode': 'USD', 'status': 'FINALIZED', 'reasonDescription': 'BlenderKit refund'}}"
    "signature=6f1076d9d2fa7dc58a87f20f2c69ebf8;algorithm=MD5".

Definition refund_not_finalized : HttpRequest :=
  notification
    "{'order': {'status': 'COMPLETED'}, 'refund': {'amount': '11000', 'currencyCode': 'USD', 'status': 'FOO', 'reasonDescription': 'BlenderKit refund'}}"
    "signature=0af4d2830ed40ec2cea5249a172bf6d9;algorithm=MD5".

Definition wrong_signature : HttpRequest :=
  notification "{}" "signature=foo;algorithm=MD5".


(** What [json.loads] gives for the body of a request *)
Definition decoded (request : HttpRequest) : json :=
  match JsonFragment.loads (body request) with
  | Some data => data
  | None => JNull
  end.

Definition urljoin (base url : string) : string := base ++ url.

Definition token_response : string :=
  JsonFragment.text "{'access_token': 'test_access_token'}".

(** A token endpoint that grants tokens, and an order endpoint that always
    answers with [response]. *)
Definition gateway (response : string) (log : list Sent) (rq : Sent)
  : string :=
  if String.eqb (sent_url rq) (payu_auth_url provider) then token_response
  else JsonFragment.text response.

Definition unauthorized : string :=
  "{'redirectUri': 'test_redirect_uri', 'status': {'statusCode': 'UNAUTHORIZED'}, 'orderId': 123}".

Definition duplicate_order : string :=
  "{'redirectUri': 'test_redirect_uri', 'status': {'statusCode': 'ERROR_ORDER_NOT_UNIQUE', 'codeLiteral': 'Foo code'}, 'orderId': 123}".

Definition refund_canceled : string :=
  "{'orderId': '1234', 'refund': {'refundId': '5000009987', 'extRefundId': 'ext 1234 110', 'amount': '11000', 'currencyCode': 'USD', 'description': 'desc 1234 110', 'status': 'CANCELED'}, 'status': {'statusCode': 'SUCCESS', 'statusDesc': 'Refund queued for processing'}}".

(** The response of [test_refund_no_amount] *)
Definition refund_pending : string :=
  "{'orderId': '1234', 'refund': {'refundId': '5000009987', 'extRefundId': 'ext 1234 None', 'amount': '22000', 'currencyCode': 'USD', 'description': 'desc 1234 None', 'creationDateTime': '2020-07-02T09:19:03.896+02:00', 'status': 'PENDING', 'statusDateTime': '2020-07-02T09:19:04.013+02:00'}, 'status': {'statusCode': 'SUCCESS', 'statusDesc': 'Refund queued for processing'}}".

Definition world (p : Payment) : World :=
  mkWorld (JStr "test_access_token") [] p.

(** The processor that [get_processor] builds for the payment of the test
    suite: ten items at 20. *)
Definition processor : PaymentProcessor :=
  mkPaymentProcessor
    [ mkPurchasedItem "foo" 10 (Dec.of_Z 20) "USD" None ]
    "https://example.com/process_url/token" "USD" "payment" "123"
    (Dec.of_Z 220) (JStr "bar_token") JNull None
    (Some (JObj [ ("email", JStr "foo@bar.com"); ("phone", JNull);
                  ("firstName", JStr "Foo"); ("lastName", JStr "Bar");
                  ("language", JStr "en") ]))
    (Some "http://foo_succ.com") (Some "http://cancel.com") None None None.

(** 13.5177: an item at 10.99 with a tax rate of 1.23 *)
Definition taxed_price : Decimal := mkDecimal false 135177 (-4).

(** What [json.loads] gives for a text of the fragment *)
Definition parsed (text : string) : json :=
  match JsonFragment.loads (JsonFragment.text text) with
  | Some data => data
  | None => JNull
  end.

(** The notification of the test suite with the header as the gateway
    writes it: the sender first, the content last. *)
Definition checkout_fields : list (string * string) :=
  [ ("sender", "checkout");
    ("signature", "a12fbd21c48e69bedee18edf042b816c");
    ("algorithm", "MD5");
    ("content", "DOCUMENT") ].

Definition order_completed_checkout : HttpRequest :=
  notification "{'order': {'status': 'COMPLETED'}}"
    "sender=checkout;signature=a12fbd21c48e69bedee18edf042b816c;algorithm=MD5;content=DOCUMENT".

Definition order_accepted : string :=
  "{'redirectUri': 'test_redirect_uri', 'status': {'statusCode': 'SUCCESS'}, 'orderId': 123}".

Definition order_needs_cvv : string :=
  "{'redirectUri': 'test_redirect_uri', 'status': {'statusCode': 'WARNING_CONTINUE_CVV'}, 'orderId': 123}".

Definition order_refused : string :=
  "{'status': {'statusCode': 'ERROR_VALUE_MISSING'}}".

(** A gateway whose order endpoint refuses the token until a new one has
    been asked for. *)
Definition renewing_gateway (response : string) (log : list Sent) (rq : Sent)
  : string :=
  if String.eqb (sent_url rq) (payu_auth_url provider)
  then JsonFragment.text "{'access_token': 'new_access_token'}"
  else if existsb (fun q => String.eqb (sent_url q) (payu_auth_url provider))
                  log
  then JsonFragment.text response
  else JsonFragment.text unauthorized.

(** A gateway that refuses the token and grants no other. *)
Definition closed_gateway (log : list Sent) (rq : Sent) : string :=
  if String.eqb (sent_url rq) (payu_auth_url provider) then "denied"
  else JsonFragment.text unauthorized.

(** The document that [create_order] sends for a processor *)
Definition order_document (pp : PaymentProcessor) : json :=
  match as_json (set_pp_pos_id (JStr (pos_id provider)) pp) with
  | Ok doc => doc
  | Raise _ => JNull
  end.

(** A processor in a currency without sub-unit *)
Definition yen_processor : PaymentProcessor :=
  mkPaymentProcessor
    [ mkPurchasedItem "foo" 10 (Dec.of_Z 2000) "JPY" None ]
    "https://example.com/process_url/token" "JPY" "payment" "123"
    (Dec.of_Z 20000) (JStr "bar_token") JNull None None
    (Some "http://foo_succ.com") (Some "http://cancel.com") None None None.

(** An item whose name is 64 times the letter z with a dot above (U+017C,
    the bytes 197 and 188 in UTF-8): 64 characters in 128 bytes. *)
Fixpoint replicate (n : nat) (s : string) : string :=
  match n with
  | O => EmptyString
  | S n' => s ++ replicate n' s
  end.

Definition z_with_dot : string :=
  String (ascii_of_N 197) (String (ascii_of_N 188) EmptyString).

Definition accented_item : PurchasedItem :=
  mkPurchasedItem (replicate 64 z_with_dot) 10 (Dec.of_Z 20) "USD" None.


(** An item with a tax rate of zero *)
Definition untaxed_item : PurchasedItem :=
  mkPurchasedItem "foo" 10 (Dec.of_Z 20) "USD" (Some (Dec.of_Z 0)).

(** The other attributes of the payment of the test suite, and a form
    request that carries its notification. *)
Definition details : Details :=
  mkDetails "payment" "123" (JStr "Foo") (JStr "Bar") (JStr "foo@bar.com")
    "bar_token" [ mkPurchasedItem "foo" 10 (Dec.of_Z 20) "USD" None ]
    "/process_url/token" "http://foo_succ.com" "http://cancel.com".

Definition options : Options :=
  mkOptions false true "http://mock.url/api/v2_1/tokens/"
    "http://mock.url/api/v2_1/paymethods/".

Definition form (request : HttpRequest) : FormRequest :=
  mkFormRequest request [("value", "card_token")].

(** A gateway that answers every DELETE and GET call with the same text *)
Definition service (answer : string) (sent : list Sent) (calls : list Call)
                   (call : Call) : string * Z :=
  (JsonFragment.text answer, 200).

Definition session (p : Payment) : Session := mkSession (world p) [].

(** The parameters of the widget for the payment of the test suite, and the
    same with the signature and the callback that [get_form] adds. *)
Definition widget_data : list (string * string) :=
  [ ("merchant-pos-id", "123abc"); ("shop-name", "");
    ("total-amount", "220"); ("currency-code", "USD");
    ("customer-language", "en") ].

Definition widget_data_signed : list (string * string) :=
  [ ("success-callback", "cardSuccess"); ("currency-code", "USD");
    ("total-amount", "220"); ("customer-language", "en");
    ("shop-name", ""); ("merchant-pos-id", "123abc");
    ("sig", "0123456789abcdef") ].

End Examples.

(** * Properties *)

(** ** The models of the libraries on known values *)

(** The digests of RFC 1321, and a signature of the test suite. *)
Example md5_of_empty_string :
  MD5.hexdigest "" = "d41d8cd98f00b204e9800998ecf8427e".
Proof. vm_compute. reflexivity. Qed.

Example md5_of_abc :
  MD5.hexdigest "abc" = "900150983cd24fb0d6963f7d28e17f72".
Proof. vm_compute. reflexivity. Qed.

Example md5_of_eighty_digits :
  MD5.hexdigest
    "12345678901234567890123456789012345678901234567890123456789012345678901234567890"
  = "57edf4a22be3c955ac49da2e2107b67a".
Proof. vm_compute. reflexivity. Qed.

Example md5_of_test_notification :
  MD5.hexdigest (body Examples.order_completed ++ "123abc")
  = "a12fbd21c48e69bedee18edf042b816c".
Proof. vm_compute. reflexivity. Qed.

(** [Decimal(12340) / Decimal(100)] is [Decimal('123.4')], [1 / 3] has 28
    digits, [Decimal(220) - Decimal('110.00')] is [Decimal('110.00')]. *)
Example decimal_division_exact :
  Dec.div (Dec.of_Z 12340) (Dec.of_Z 100) = Ok (mkDecimal false 1234 (-1)).
Proof. vm_compute. reflexivity. Qed.

Example decimal_division_rounded :
  Dec.div (Dec.of_Z 2) (Dec.of_Z 3)
  = Ok (mkDecimal false 6666666666666666666666666667 (-28)).
Proof. vm_compute. reflexivity. Qed.

Example decimal_subtraction :
  Dec.sub (Dec.of_Z 220) (mkDecimal false 11000 (-2))
  = mkDecimal false 11000 (-2).
Proof. vm_compute. reflexivity. Qed.

Example decimal_of_text :
  decimal_of_string "-12.50" = Ok (mkDecimal true 1250 (-2))
  /\ decimal_of_string "1e3" = Ok (mkDecimal false 1 3)
  /\ decimal_of_string "1.2.3" = Raise InvalidOperation.
Proof. vm_compute. repeat split. Qed.

Example dequantize_20000_usd :
  dequantize_price (JInt 20000) (JStr "USD") = Ok (mkDecimal false 200 0).
Proof. vm_compute. reflexivity. Qed.

Example loads_of_test_notification :
  JsonFragment.loads (body Examples.order_completed)
  = Some (JObj [("order", JObj [("status", JStr "COMPLETED")])]).
Proof. vm_compute. reflexivity. Qed.

(** The order payload of the test suite: a total of 22000 and ten items at
    2000. *)
Example as_json_of_test_processor :
  (doc <- as_json Examples.processor ;;
   totalAmount <- py_getitem doc "totalAmount" ;;
   products <- py_getitem doc "products" ;;
   Ok (totalAmount, products))%res
  = Ok (JInt 22000,
        JArr [JObj [("name", JStr "foo"); ("quantity", JInt 10);
                    ("unitPrice", JInt 2000); ("currency", JStr "USD");
                    ("subUnit", JInt 100)]]).
Proof. vm_compute. reflexivity. Qed.

(** ** Decimal arithmetic *)

Module DecFacts.
Import Dec.

Lemma ndigits_aux_pos (fuel : nat) (n : N) : 1 <= ndigits_aux fuel n.
Proof.
  revert n; induction fuel as [|f IH]; intro n; cbn [ndigits_aux]; [lia|].
  destruct (n <? 10)%N; [lia|]. specialize (IH (n / 10)%N). lia.
Qed.

Lemma ndigits_pos (n : N) : 1 <= ndigits n.
Proof. apply ndigits_aux_pos. Qed.

Lemma ndigits_aux_le (fuel : nat) :
  forall (n k : N), (n < 10 ^ k)%N -> (0 < k)%N ->
                    ndigits_aux fuel n <= Z.of_N k.
Proof.
  induction fuel as [|f IH]; intros n k Hn Hk; cbn [ndigits_aux]; [lia|].
  destruct (n <? 10)%N eqn:E; [lia|].
  apply N.ltb_ge in E.
  assert (Hk2 : (1 < k)%N).
  { destruct (N.eq_dec k 1) as [->|]; [|lia]. simpl in Hn. lia. }
  assert (Hdiv : (n / 10 < 10 ^ (k - 1))%N).
  { apply N.Div0.div_lt_upper_bound.
    replace (10 * 10 ^ (k - 1))%N with (10 ^ k)%N; [exact Hn|].
    replace k with (N.succ (k - 1)) at 1 by lia.
    now rewrite N.pow_succ_r'. }
  specialize (IH (n / 10)%N (k - 1)%N Hdiv ltac:(lia)). lia.
Qed.

Lemma ndigits_le (n k : N) :
  (n < 10 ^ k)%N -> (0 < k)%N -> ndigits n <= Z.of_N k.
Proof. apply ndigits_aux_le. Qed.


Lemma fix_small (a : Decimal) : ndigits (d_int a) <= prec -> fix_ a = a.
Proof.
  intro H. unfold fix_. destruct (is_zero a); [reflexivity|].
  destruct (prec <? ndigits (d_int a)) eqn:E; [|reflexivity].
  apply Z.ltb_lt in E. lia.
Qed.

Lemma pow10_add (a b : Z) : 0 <= a -> 0 <= b ->
  pow10 (a + b) = (pow10 a * pow10 b)%N.
Proof.
  intros Ha Hb. unfold pow10. rewrite Z2N.inj_add by lia.
  apply N.pow_add_r.
Qed.

Lemma pow10_pos (k : Z) : (0 < pow10 k)%N.
Proof. unfold pow10. apply N.neq_0_lt_0, N.pow_nonzero. discriminate. Qed.

(** What [strip_zeros] returns has the value it was given. *)
Lemma strip_zeros_value (fuel : nat) :
  forall (c : N) (e ideal : Z) (c' : N) (e' : Z),
    strip_zeros fuel c e ideal = (c', e') ->
    e <= e' /\ c = (c' * pow10 (e' - e))%N.
Proof.
  induction fuel as [|f IH]; intros c e ideal c' e' H; cbn [strip_zeros] in H.
  - inversion H; subst. split; [lia|]. rewrite Z.sub_diag.
    unfold pow10. simpl. lia.
  - destruct ((e <? ideal) && (c mod 10 =? 0)%N) eqn:E.
    + apply andb_prop in E. destruct E as [_ Em]. apply N.eqb_eq in Em.
      apply IH in H. destruct H as [Hle Hc]. split; [lia|].
      replace (e' - e) with ((e' - (e + 1)) + 1) by lia.
      rewrite pow10_add by lia.
      rewrite (N.div_mod c 10) by discriminate. rewrite Em, Hc.
      change (pow10 1) with 10%N. lia.
    + inversion H; subst. split; [lia|]. rewrite Z.sub_diag.
      unfold pow10. simpl. lia.
Qed.

(** [strip_zeros] removes the zeros it is sure to find. *)
Lemma strip_zeros_least (t : nat) :
  forall (fuel : nat) (c : N) (e ideal : Z) (c' : N) (e' : Z),
    (t <= fuel)%nat ->
    (c mod 10 ^ N.of_nat t = 0)%N ->
    e + Z.of_nat t <= ideal ->
    strip_zeros fuel c e ideal = (c', e') ->
    e + Z.of_nat t <= e'.
Proof.
  induction t as [|t IH]; intros fuel c e ideal c' e' Hf Hc He H.
  - apply strip_zeros_value in H. lia.
  - destruct fuel as [|f]; [lia|]. cbn [strip_zeros] in H.
    assert (Hpow : (10 ^ N.of_nat (S t) = 10 * 10 ^ N.of_nat t)%N).
    { rewrite Nat2N.inj_succ. apply N.pow_succ_r'. }
    rewrite Hpow in Hc.
    assert (H10 : (c mod 10 = 0)%N).
    { apply N.Div0.mod_divides in Hc. destruct Hc as [q Hq].
      apply N.Div0.mod_divides. exists (10 ^ N.of_nat t * q)%N. lia. }
    assert (Hq : ((c / 10) mod 10 ^ N.of_nat t = 0)%N).
    { apply N.Div0.mod_divides in Hc. destruct Hc as [q Hq].
      apply N.Div0.mod_divides. exists q.
      rewrite Hq. rewrite <- N.mul_assoc, N.mul_comm, N.div_mul by discriminate.
      reflexivity. }
    assert (Hlt : (e <? ideal) = true) by (apply Z.ltb_lt; lia).
    rewrite Hlt, H10 in H. cbn in H.
    apply IH in H; lia.
Qed.


Lemma pow10_lt_inv (a b : Z) : 0 <= a -> (pow10 a < pow10 b)%N -> a < b.
Proof.
  intros Ha H. unfold pow10 in H.
  apply N.pow_lt_mono_r_iff in H; [lia|reflexivity].
Qed.

Lemma size_nat_bound (n : N) : (n < 2 ^ N.of_nat (N.size_nat n))%N.
Proof.
  destruct n as [|p]; [reflexivity|]. cbn [N.size_nat].
  induction p as [p IH|p IH|]; cbn [Pos.size_nat];
    rewrite ?Nat2N.inj_succ, ?N.pow_succ_r'; lia.
Qed.

Lemma ndigits_aux_upper (fuel : nat) :
  forall n : N, (n < 2 ^ N.of_nat fuel)%N ->
                (n < 10 ^ Z.to_N (ndigits_aux fuel n))%N.
Proof.
  induction fuel as [|f IH]; intros n Hn; cbn [ndigits_aux].
  - cbn in Hn. change (Z.to_N 1) with 1%N. lia.
  - destruct (n <? 10)%N eqn:E.
    + apply N.ltb_lt in E. change (Z.to_N 1) with 1%N. lia.
    + apply N.ltb_ge in E.
      rewrite Nat2N.inj_succ, N.pow_succ_r' in Hn.
      assert (Hdiv : (n / 10 < 2 ^ N.of_nat f)%N).
      { apply N.Div0.div_lt_upper_bound. lia. }
      specialize (IH _ Hdiv).
      pose proof (ndigits_aux_pos f (n / 10)) as Hpos.
      replace (Z.to_N (1 + ndigits_aux f (n / 10)))
        with (N.succ (Z.to_N (ndigits_aux f (n / 10)))) by lia.
      rewrite N.pow_succ_r'.
      pose proof (N.div_mod n 10 ltac:(discriminate)) as Hdm.
      pose proof (N.mod_lt n 10 ltac:(discriminate)) as Hmod.
      lia.
Qed.

Lemma ndigits_upper (n : N) : (n < pow10 (ndigits n))%N.
Proof. apply ndigits_aux_upper, size_nat_bound. Qed.

Lemma pow10_nonneg (k : Z) : k <= 0 -> pow10 k = 1%N.
Proof. intro H. unfold pow10. destruct k; try reflexivity. lia. Qed.

Lemma mul_pow10_lt (m : N) (a b : Z) :
  0 <= a -> 0 <= b -> (m < pow10 a)%N -> (m * pow10 b < pow10 (a + b))%N.
Proof.
  intros Ha Hb H. rewrite pow10_add by lia.
  apply N.mul_lt_mono_pos_r; [apply pow10_pos|exact H].
Qed.

Lemma div_pow10_exact (m : N) (a b : Z) :
  0 <= b -> b <= a -> (m * pow10 a / pow10 b = m * pow10 (a - b))%N
                       /\ ((m * pow10 a) mod pow10 b = 0)%N.
Proof.
  intros Hb Hab.
  replace a with ((a - b) + b) at 1 3 by lia.
  rewrite pow10_add by lia. rewrite N.mul_assoc.
  pose proof (pow10_pos b).
  split; [apply N.div_mul|apply N.Div0.mod_mul]. lia.
Qed.

(** Rounding to the precision keeps a number of at most 26 digits. *)
Lemma fix_represents (a : Decimal) (m : N) :
  represents a m -> (m < pow10 26)%N ->
  represents (fix_ a) m /\ d_sign (fix_ a) = d_sign a.
Proof.
  intros Hr Hm. unfold fix_.
  destruct (is_zero a); [split; [exact Hr|reflexivity]|].
  destruct (prec <? ndigits (d_int a)) eqn:E; [|split; [exact Hr|reflexivity]].
  apply Z.ltb_lt in E. unfold prec in *.
  set (L := ndigits (d_int a)) in *.
  assert (Hlow : (pow10 28 <= d_int a)%N).
  { apply N.le_ngt. intro Hlt.
    pose proof (ndigits_le (d_int a) 28 Hlt eq_refl). fold L in H. lia. }
  unfold represents in Hr.
  destruct (0 <=? d_exp a) eqn:Ee.
  - (* a natural exponent: the coefficient is at most [m] *)
    exfalso. pose proof (pow10_pos (d_exp a)).
    assert ((pow10 26 < pow10 28)%N) by reflexivity. nia.
  - apply Z.leb_gt in Ee. set (j := - d_exp a) in *.
    assert (Hc : (d_int a < pow10 (26 + j))%N).
    { rewrite Hr. apply mul_pow10_lt; lia. }
    assert (HL : L <= 26 + j).
    { unfold L. rewrite <- (Z2N.id (26 + j)) by lia.
      apply ndigits_le; [exact Hc|lia]. }
    set (k := L - 28) in *.
    assert (Hk : 0 < k <= j) by lia.
    destruct (div_pow10_exact m j k ltac:(lia) ltac:(lia)) as [Hq Hrem].
    rewrite <- Hr in Hq, Hrem.
    unfold round_drop, context_rounding. rewrite Hq, Hrem.
    assert (Hcmp : (2 * 0 ?= pow10 k)%N = Lt).
    { apply N.compare_lt_iff. pose proof (pow10_pos k). lia. }
    rewrite Hcmp.
    assert (Hq28 : (m * pow10 (j - k) < pow10 28)%N).
    { rewrite <- Hq. apply N.Div0.div_lt_upper_bound.
      rewrite <- pow10_add by lia. replace (k + 28) with L by lia.
      apply ndigits_upper. }
    assert (Hnd : ndigits (m * pow10 (j - k)) <= 28).
    { apply (ndigits_le _ 28); [exact Hq28|reflexivity]. }
    assert (E2 : (28 <? ndigits (m * pow10 (j - k))) = false)
      by (apply Z.ltb_ge; exact Hnd).
    rewrite E2. cbn [d_sign]. split; [|reflexivity].
    unfold represents. cbn [d_exp d_int].
    destruct (0 <=? d_exp a + k) eqn:E3.
    + apply Z.leb_le in E3.
      replace (j - k) with 0 by lia. replace (d_exp a + k) with 0 by lia.
      change (pow10 0) with 1%N. lia.
    + f_equal. f_equal. lia.
Qed.

(** Quantizing to two places a decimal that stands for a natural number
    of at most 26 digits. *)
Lemma quantize_represents (a : Decimal) (m : N) :
  represents a m -> (m < pow10 26)%N ->
  quantize a CENTS ROUND_HALF_UP = Ok (mkDecimal (d_sign a) (m * 100) (-2)).
Proof.
  intros Hr Hm. unfold quantize, represents in *. cbn [CENTS d_exp].
  assert (Hm100 : (m * 100 < pow10 28)%N).
  { change 100%N with (pow10 2). apply (mul_pow10_lt m 26 2); lia. }
  assert (Hfix : forall s, fix_ (mkDecimal s (m * 100) (-2))
                           = mkDecimal s (m * 100) (-2)).
  { intro s. apply fix_small. cbn [d_int]. unfold prec.
    apply (ndigits_le _ 28); [exact Hm100|reflexivity]. }
  destruct (is_zero a) eqn:Ez.
  - (* zero *)
    unfold is_zero in Ez. apply N.eqb_eq in Ez.
    assert (m = 0%N).
    { destruct (0 <=? d_exp a); rewrite Ez in Hr; [lia|].
      pose proof (pow10_pos (- d_exp a)). nia. }
    subst m. reflexivity.
  - unfold is_zero in Ez. apply N.eqb_neq in Ez.
    assert (Hm0 : m <> 0%N).
    { intro. subst m. pose proof (pow10_pos (d_exp a)).
      destruct (0 <=? d_exp a); nia. }
    destruct (0 <=? d_exp a) eqn:Ee.
    + (* padding *)
      apply Z.leb_le in Ee.
      assert (He26 : d_exp a < 26).
      { apply pow10_lt_inv; [lia|]. nia. }
      assert (Hc : (d_int a < pow10 (26 - d_exp a))%N).
      { apply (N.mul_lt_mono_pos_r (pow10 (d_exp a))); [apply pow10_pos|].
        rewrite <- pow10_add by lia.
        replace (26 - d_exp a + d_exp a) with 26 by lia. lia. }
      assert (Hnd : ndigits (d_int a) <= 26 - d_exp a).
      { rewrite <- (Z2N.id (26 - d_exp a)) by lia.
        apply ndigits_le; [exact Hc|lia]. }
      assert (E1 : (prec <? ndigits (d_int a) + d_exp a - 1 - -2 + 1) = false)
        by (apply Z.ltb_ge; unfold prec; lia).
      rewrite E1. unfold rescale, is_zero.
      assert (Ez' : (d_int a =? 0)%N = false) by (apply N.eqb_neq; exact Ez).
      rewrite Ez'.
      assert (E2 : (-2 <=? d_exp a) = true) by (apply Z.leb_le; lia).
      rewrite E2. cbn [d_int].
      replace (d_exp a - -2) with (d_exp a + 2) by lia.
      rewrite pow10_add by lia. change (pow10 2) with 100%N.
      rewrite N.mul_assoc, Hr.
      assert (E3 : (prec <? ndigits (m * 100)) = false).
      { apply Z.ltb_ge. unfold prec.
        apply (ndigits_le _ 28); [exact Hm100|reflexivity]. }
      rewrite E3. rewrite Hfix. reflexivity.
    + apply Z.leb_gt in Ee. set (j := - d_exp a) in *.
      assert (Hc : (d_int a < pow10 (26 + j))%N).
      { rewrite Hr. apply mul_pow10_lt; lia. }
      assert (Hnd : ndigits (d_int a) <= 26 + j).
      { rewrite <- (Z2N.id (26 + j)) by lia.
        apply ndigits_le; [exact Hc|lia]. }
      assert (E1 : (prec <? ndigits (d_int a) + d_exp a - 1 - -2 + 1) = false)
        by (apply Z.ltb_ge; unfold prec; lia).
      rewrite E1. unfold rescale, is_zero.
      assert (Ez' : (d_int a =? 0)%N = false) by (apply N.eqb_neq; exact Ez).
      rewrite Ez'.
      assert (E3 : (prec <? ndigits (m * 100)) = false).
      { apply Z.ltb_ge. unfold prec.
        apply (ndigits_le _ 28); [exact Hm100|reflexivity]. }
      destruct (-2 <=? d_exp a) eqn:E2; cbn [d_int].
      * apply Z.leb_le in E2.
        replace (d_exp a - -2) with (2 - j) by lia.
        assert (Hj : j = 1 \/ j = 2) by lia.
        assert (Hv : (d_int a * pow10 (2 - j) = m * 100)%N).
        { rewrite Hr, <- N.mul_assoc, <- pow10_add by lia.
          replace (j + (2 - j)) with 2 by lia. reflexivity. }
        rewrite Hv, E3, Hfix. reflexivity.
      * apply Z.leb_gt in E2.
        replace (-2 - d_exp a) with (j - 2) by lia.
        assert (Hsplit : (d_int a = m * 100 * pow10 (j - 2))%N).
        { rewrite Hr. change 100%N with (pow10 2).
          rewrite <- N.mul_assoc, <- pow10_add by lia.
          do 2 f_equal. lia. }
        unfold round_drop. rewrite Hsplit.
        pose proof (pow10_pos (j - 2)) as Hp.
        rewrite N.div_mul, N.Div0.mod_mul by lia.
        assert (E4 : (pow10 (j - 2) <=? 2 * 0)%N = false)
          by (apply N.leb_gt; lia).
        rewrite E4, E3, Hfix. reflexivity.
Qed.

End DecFacts.

(** ** The money codec *)

Lemma sub_unit_supported (cur : string) :
  supported cur = true -> currency_sub_unit (JStr cur) = Ok (Dec.of_Z 100).
Proof.
  unfold supported, assoc_mem, currency_sub_unit, CURRENCY_SUB_UNIT.
  cbn [assoc_get].
  repeat match goal with
         | |- context [String.eqb ?a ?b] => destruct (String.eqb a b)
         end; try reflexivity; discriminate.
Qed.

Lemma mul_100_represents (x : Decimal) :
  two_decimals x = true ->
  represents (mkDecimal (d_sign x) (d_int x * 100) (d_exp x)) (units x).
Proof.
  unfold two_decimals, represents, units. cbn [d_int d_exp]. intro H.
  destruct (0 <=? d_exp x) eqn:E0.
  - apply Z.leb_le in E0.
    assert (E2 : (-2 <=? d_exp x) = true) by (apply Z.leb_le; lia).
    rewrite E2, Z.add_comm, DecFacts.pow10_add by lia.
    change (Dec.pow10 2) with 100%N. lia.
  - apply Z.leb_gt in E0. destruct (-2 <=? d_exp x) eqn:E2.
    + apply Z.leb_le in E2. rewrite <- N.mul_assoc.
      rewrite <- DecFacts.pow10_add by lia.
      replace (d_exp x + 2 + - d_exp x) with 2 by lia. reflexivity.
    + apply Z.leb_gt in E2. cbn [orb] in H. apply N.eqb_eq in H.
      pose proof (DecFacts.pow10_pos (-2 - d_exp x)) as Hp.
      pose proof (N.div_mod (d_int x) (Dec.pow10 (-2 - d_exp x))
                            ltac:(lia)) as Hdm.
      rewrite H, N.add_0_r in Hdm.
      replace (- d_exp x) with ((-2 - d_exp x) + 2) by lia.
      rewrite DecFacts.pow10_add by lia. change (Dec.pow10 2) with 100%N.
      rewrite Hdm at 1. lia.
Qed.

(** On an amount with at most two fractional digits and at most 26 digits
    in hundredths, [quantize_price] is exact. *)
Lemma quantize_price_exact (cur : string) (x : Decimal) :
  supported cur = true ->
  two_decimals x = true ->
  Z.abs (minor_units x) < 10 ^ 26 ->
  quantize_price x cur = Ok (minor_units x).
Proof.
  intros Hcur H2 Hb. unfold quantize_price.
  rewrite (sub_unit_supported _ Hcur). cbn [rbind].
  assert (Hu : (units x < Dec.pow10 26)%N).
  { unfold minor_units in Hb. change (Dec.pow10 26) with (10 ^ 26)%N.
    destruct (d_sign x); lia. }
  unfold Dec.mul. cbn [d_sign d_int d_exp Dec.of_Z].
  change (Z.abs_N 100) with 100%N. change (100 <? 0) with false.
  rewrite xorb_false_r, Z.add_0_r.
  destruct (DecFacts.fix_represents _ _ (mul_100_represents x H2) Hu)
    as [Hr Hs].
  rewrite (DecFacts.quantize_represents _ _ Hr Hu), Hs.
  cbn [rbind d_sign]. f_equal.
  unfold Dec.to_int, minor_units. cbn [d_sign d_int d_exp].
  change (0 <=? -2) with false. cbv iota.
  change (Dec.pow10 (- -2)) with 100%N.
  rewrite N.div_mul by discriminate. reflexivity.
Qed.

Lemma dequantize_price_exact (cur : string) (n : Z) :
  supported cur = true ->
  Z.abs n < 10 ^ 26 ->
  exists y, dequantize_price (JInt n) (JStr cur) = Ok y
            /\ -2 <= d_exp y /\ Dec.scaled y (-2) = n.
Proof.
  intros Hcur Hb. unfold dequantize_price. cbn [decimal_of_json rbind].
  rewrite (sub_unit_supported _ Hcur). cbn [rbind].
  destruct (Z.eq_dec n 0) as [->|Hn].
  - exists (mkDecimal false 0 0). split; [reflexivity|]. split; [cbn; lia|reflexivity].
  - set (A := Z.abs_N n).
    assert (HA0 : A <> 0%N) by (unfold A; lia).
    assert (HA : (A < 10 ^ 26)%N) by (unfold A; lia).
    unfold Dec.div, Dec.is_zero, Dec.of_Z. cbn [d_sign d_int d_exp].
    fold A. change (Z.abs_N 100) with 100%N.
    change (100 =? 0)%N with false. cbv iota.
    assert (Hz : (A =? 0)%N = false) by (apply N.eqb_neq; exact HA0).
    rewrite Hz.
    change (Dec.ndigits 100) with 3.
    assert (L1 : 1 <= Dec.ndigits A) by apply DecFacts.ndigits_pos.
    assert (L2 : Dec.ndigits A <= 26).
    { apply (DecFacts.ndigits_le _ 26); [exact HA|reflexivity]. }
    set (shift := 3 - Dec.ndigits A + Dec.prec + 1).
    assert (Hs : 6 <= shift) by (unfold shift, Dec.prec; lia).
    assert (Hs0 : (0 <=? shift) = true) by (apply Z.leb_le; lia).
    rewrite Hs0.
    assert (Hsplit : Dec.pow10 shift = (Dec.pow10 (shift - 2) * 100)%N).
    { replace shift with ((shift - 2) + 2) at 1 by lia.
      rewrite DecFacts.pow10_add by lia. reflexivity. }
    assert (Hnum : (A * Dec.pow10 shift = A * Dec.pow10 (shift - 2) * 100)%N)
      by (rewrite Hsplit; lia).
    rewrite Hnum. rewrite N.Div0.mod_mul, N.div_mul by discriminate.
    change (0 =? 0)%N with true. cbv iota.
    replace (0 - 0 - (0 - 0 - shift)) with shift by lia.
    replace (0 - 0 - shift) with (- shift) by lia.
    change (0 - 0) with 0.
    destruct (Dec.strip_zeros (Z.to_nat shift) (A * Dec.pow10 (shift - 2))
                              (- shift) 0) as [c' e'] eqn:Hstrip.
    pose proof (DecFacts.strip_zeros_value _ _ _ _ _ _ Hstrip) as [Hle Hval].
    assert (Hleast : - shift + Z.of_nat (Z.to_nat (shift - 2)) <= e').
    { apply (DecFacts.strip_zeros_least
               (Z.to_nat (shift - 2)) (Z.to_nat shift)
               (A * Dec.pow10 (shift - 2)) (- shift) 0 c' e').
      - lia.
      - rewrite Z_nat_N. apply N.Div0.mod_mul.
      - lia.
      - exact Hstrip. }
    rewrite Z2Nat.id in Hleast by lia.
    assert (He' : -2 <= e') by lia.
    assert (Hc' : A = (c' * Dec.pow10 (e' + 2))%N).
    { apply (N.mul_cancel_r _ _ (Dec.pow10 (shift - 2))).
      - pose proof (DecFacts.pow10_pos (shift - 2)). lia.
      - rewrite Hval. rewrite <- N.mul_assoc.
        rewrite <- DecFacts.pow10_add by lia.
        do 2 f_equal. lia. }
    assert (Hc'le : (c' <= A)%N).
    { pose proof (DecFacts.pow10_pos (e' + 2)). nia. }
    eexists. split; [reflexivity|].
    rewrite DecFacts.fix_small.
    2:{ cbn [d_int]. unfold Dec.prec.
        apply (DecFacts.ndigits_le _ 28); [lia|reflexivity]. }
    cbn [d_exp]. split; [exact He'|].
    unfold Dec.scaled. cbn [d_sign d_int d_exp].
    replace (e' - -2) with (e' + 2) by lia. rewrite <- Hc'.
    change (100 <? 0) with false. rewrite xorb_false_r.
    unfold A. destruct (n <? 0) eqn:E; [apply Z.ltb_lt in E|apply Z.ltb_ge in E]; lia.
Qed.

Lemma scaled_shift (a : Decimal) (m m' : Z) :
  m' <= m -> m <= d_exp a ->
  Dec.scaled a m' = Dec.scaled a m * Z.of_N (Dec.pow10 (m - m')).
Proof.
  intros H1 H2. unfold Dec.scaled.
  replace (d_exp a - m') with ((d_exp a - m) + (m - m')) by lia.
  rewrite DecFacts.pow10_add by lia.
  destruct (d_sign a); lia.
Qed.

(** A decimal that has the hundredths of [x] equals [x]. *)
Lemma eqb_of_minor_units (x y : Decimal) :
  two_decimals x = true -> -2 <= d_exp y ->
  Dec.scaled y (-2) = minor_units x -> Dec.eqb y x = true.
Proof.
  intros H2 Hy H. unfold Dec.eqb, Dec.compare.
  set (m := Z.min (d_exp y) (d_exp x)).
  assert (E : Dec.scaled y m = Dec.scaled x m);
    [|now rewrite E, Z.compare_refl].
  unfold minor_units, units, two_decimals in *.
  destruct (-2 <=? d_exp x) eqn:Ex.
  - apply Z.leb_le in Ex.
    assert (Hx : Dec.scaled x (-2)
                 = if d_sign x
                   then - Z.of_N (d_int x * Dec.pow10 (d_exp x + 2))
                   else Z.of_N (d_int x * Dec.pow10 (d_exp x + 2))).
    { unfold Dec.scaled. now replace (d_exp x - -2) with (d_exp x + 2) by lia. }
    rewrite <- Hx in H.
    rewrite (scaled_shift x m (-2)) in H by lia.
    rewrite (scaled_shift y m (-2)) in H by lia.
    pose proof (DecFacts.pow10_pos (m - -2)). nia.
  - apply Z.leb_gt in Ex. cbn [orb] in H2. apply N.eqb_eq in H2.
    assert (Hm : m = d_exp x) by lia. rewrite Hm.
    rewrite (scaled_shift y (-2) (d_exp x)) by lia. rewrite H.
    unfold Dec.scaled. rewrite Z.sub_diag. change (Dec.pow10 0) with 1%N.
    rewrite N.mul_1_r.
    pose proof (DecFacts.pow10_pos (-2 - d_exp x)) as Hp.
    pose proof (N.div_mod (d_int x) (Dec.pow10 (-2 - d_exp x))
                          ltac:(lia)) as Hdm.
    rewrite H2, N.add_0_r in Hdm.
    destruct (d_sign x); nia.
Qed.

(** C6 (as amended): for a supported currency and an amount with at most
    two fractional digits whose value in hundredths is below 10^26,
    [quantize_price] returns, [dequantize_price] of what it returns returns
    too, and the result equals the amount. *)
Theorem quantize_dequantize_roundtrip (cur : string) (x : Decimal) :
  supported cur = true ->
  two_decimals x = true ->
  Z.abs (minor_units x) < 10 ^ 26 ->
  exists n y, quantize_price x cur = Ok n
              /\ dequantize_price (JInt n) (JStr cur) = Ok y
              /\ Dec.eqb y x = true.
Proof.
  intros Hcur H2 Hb.
  destruct (dequantize_price_exact cur (minor_units x) Hcur Hb)
    as [y [Hy [Hey Hm]]].
  exists (minor_units x), y. split; [|split].
  - apply quantize_price_exact; assumption.
  - exact Hy.
  - apply eqb_of_minor_units; assumption.
Qed.

(** ** Webhook notifications *)

Arguments MD5.hexdigest : simpl never.

Section Notification.
Variable json_loads : string -> option json.
Variable self : Provider.

Ltac run := unfold bind, try_except, lift, ret, raise, gets, modify, loads.


Lemma process_notification_header (request : HttpRequest) (p : Payment)
      (data : json) (sig alg : string) :
  json_loads (body request) = Some data ->
  signature_header request = Ok (sig, alg) ->
  process_notification json_loads self request p =
    if String.eqb alg "MD5" && String.eqb sig (MD5.hexdigest (body request ++ second_key self))
    then (add_new_status data ;;
          is_refund <- lift (py_contains "refund" data) ;;
          if is_refund then process_refund data else process_order data)%prog p
    else (Ok (mkHttpResponse "not ok" 500), p).
Proof.
  intros Hd Hh. unfold signature_header in Hh.
  destruct (str_getitem (META request) "HTTP_OPENPAYU_SIGNATURE") as [header|] eqn:E1;
    [|discriminate].
  cbn [rbind] in Hh.
  destruct (parse_header (str_split ";" header) []) as [hd|] eqn:E2; [|discriminate].
  cbn [rbind] in Hh.
  destruct (str_getitem hd "signature") as [s|] eqn:E3; [|discriminate].
  cbn [rbind] in Hh.
  destruct (str_getitem hd "algorithm") as [a|] eqn:E4; [|discriminate].
  cbn [rbind] in Hh. inversion Hh; subst s a; clear Hh.
  unfold process_notification. run.
  rewrite Hd, E1, E2, E3, E4.
  destruct (String.eqb alg "MD5"); [|reflexivity].
  destruct (String.eqb sig _); reflexivity.
Qed.

Lemma py_contains_of_getitem (v x : json) (k : string) :
  py_getitem v k = Ok x -> py_contains k v = Ok true.
Proof.
  destruct v; try discriminate. cbn [py_getitem py_contains].
  unfold assoc_mem. destruct (assoc_get k members); [reflexivity|discriminate].
Qed.

Lemma refund_field_contains (data st : json) (field : string) :
  refund_field_of field data = Ok st -> py_contains "refund" data = Ok true.
Proof.
  unfold refund_field_of. intro H.
  destruct (py_getitem data "refund") as [r|] eqn:E; [|discriminate].
  exact (py_contains_of_getitem _ _ _ E).
Qed.

Lemma assoc_get_set_same {A} (k : string) (v : A) (d : list (string * A)) :
  assoc_get k (assoc_set k v d) = Some v.
Proof.
  induction d as [|[k' v'] d IH]; cbn.
  - now rewrite String.eqb_refl.
  - destruct (String.eqb k k') eqn:E; cbn; rewrite ?String.eqb_refl, ?E; auto.
Qed.

(** Appending to a list of the journal changes [extra_data] only. *)
Lemma add_new_status_ok (data : json) (p : Payment) :
  journal_ok "statuses" p = true ->
  exists journal, add_new_status data p = (Ok tt, set_extra_data journal p).
Proof.
  unfold journal_ok, add_new_status, assoc_mem. run.
  destruct (assoc_get "statuses" (extra_data p)) as [[| | | | |l|]|] eqn:E;
    try discriminate; intros _.
  - rewrite E. eexists; reflexivity.
  - rewrite assoc_get_set_same. eexists; reflexivity.
Qed.

Lemma status_map_claimed (v : json) :
  status_map_getitem v =
    match claimed_status v with
    | Some st => Ok st
    | None => Raise (if hashable v then KeyError v else TypeError)
    end.
Proof.
  destruct v; reflexivity.
Qed.

Lemma verified_header (request : HttpRequest) :
  signature_ok self request = true ->
  exists sig alg,
    signature_header request = Ok (sig, alg)
    /\ String.eqb alg "MD5"
       && String.eqb sig (MD5.hexdigest (body request ++ second_key self))
       = true.
Proof.
  unfold signature_ok.
  destruct (signature_header request) as [[sig alg]|]; [|discriminate].
  intro H. exists sig, alg. split; [reflexivity|exact H].
Qed.

(** A verified notification is written to the journal and handed to one of
    the two branches. *)
Lemma process_notification_verified (request : HttpRequest) (p : Payment)
      (data : json) :
  json_loads (body request) = Some data ->
  signature_ok self request = true ->
  journal_ok "statuses" p = true ->
  exists journal,
    process_notification json_loads self request p =
      (is_refund <- lift (py_contains "refund" data) ;;
       if is_refund then process_refund data else process_order data)%prog
      (set_extra_data journal p).
Proof.
  intros Hd Hs Hj.
  destruct (verified_header _ Hs) as [sig [alg [Hh Hv]]].
  destruct (add_new_status_ok data p Hj) as [journal Hadd].
  exists journal.
  rewrite (process_notification_header _ p _ _ _ Hd Hh), Hv.
  unfold bind at 1. rewrite Hadd. reflexivity.
Qed.

Lemma process_refund_finalized (data : json) (p : Payment)
      (refunded : Decimal) (reason msg : string) :
  refund_amount_of data = Ok refunded ->
  refund_field_of "status" data = Ok (JStr "FINALIZED") ->
  refund_field_of "reasonDescription" data = Ok (JStr reason) ->
  message p = JStr msg ->
  process_refund data p =
    (Ok (mkHttpResponse "ok" 200),
     if Dec.geb refunded (captured_amount p)
     then moved_to REFUNDED (captured_amount p) (extra_data p) p
     else set_captured_amount (Dec.sub (captured_amount p) refunded)
            (set_message (JStr (msg ++ reason)) p)).
Proof.
  intros Ha Hst Hr Hm. unfold process_refund. run.
  unfold refund_amount_of in Ha. rewrite Ha.
  unfold refund_field_of in Hst, Hr. rewrite Hst.
  cbn [json_is_str String.eqb Ascii.eqb Bool.eqb]. rewrite Hm.
  destruct (py_getitem data "refund") as [r|] eqn:E; [|discriminate].
  cbn [rbind] in Hr |- *. rewrite Hr. cbn [rbind py_add_str].
  unfold change_status, save. run.
  cbn [captured_amount set_message].
  destruct (Dec.geb refunded (captured_amount p)); reflexivity.
Qed.


Lemma contains_total (data v : json) :
  order_field_of "status" data = Ok v ->
  (order <- py_getitem data "order" ;; py_contains "totalAmount" order)%res
  = Ok (carries_total data).
Proof.
  unfold carries_total, order_field_of. intro H.
  destruct (py_getitem data "order") as [o|]; [|discriminate].
  cbn [rbind] in *. destruct o; try discriminate.
  cbn [py_contains py_getitem]. unfold assoc_mem.
  destruct (assoc_get "totalAmount" members); reflexivity.
Qed.

Lemma process_order_unmapped (data : json) (p : Payment) (v : json) :
  order_field_of "status" data = Ok v ->
  claimed_status v = None ->
  process_order data p =
    (Raise (if hashable v then KeyError v else TypeError), p).
Proof.
  intros Hst Hc. unfold process_order. run.
  unfold order_field_of in Hst.
  destruct (py_getitem data "order") as [o|]; [|discriminate].
  cbn [rbind] in *. rewrite Hst. cbn [rbind].
  rewrite status_map_claimed, Hc. reflexivity.
Qed.

Lemma process_order_mapped (data : json) (p : Payment) (v : json)
      (new_status : PaymentStatus) :
  order_field_of "status" data = Ok v ->
  claimed_status v = Some new_status ->
  process_order data p =
    if PaymentStatus_eqb new_status CONFIRMED && carries_total data
    then match order_amount_of data with
         | Ok amount =>
             (Ok (mkHttpResponse "ok" 200),
              moved_to new_status amount (extra_data p) p)
         | Raise e => (Raise e, p)
         end
    else (Ok (mkHttpResponse "ok" 200),
          moved_to new_status (captured_amount p) (extra_data p) p).
Proof.
  intros Hst Hc. unfold process_order. run.
  pose proof (contains_total _ _ Hst) as Hct.
  unfold order_field_of in Hst.
  destruct (py_getitem data "order") as [o|] eqn:Ho; [|discriminate].
  cbn [rbind] in Hst |- *. rewrite Hst. cbn [rbind].
  rewrite status_map_claimed, Hc.
  destruct (PaymentStatus_eqb new_status CONFIRMED); cbn [andb].
  - cbn [rbind] in Hct. rewrite Hct.
    destruct (carries_total data).
    + unfold order_amount_of. rewrite Ho. cbn [rbind].
      destruct (py_getitem o "totalAmount") as [t|]; [|reflexivity].
      cbn [rbind].
      destruct (py_getitem o "currencyCode") as [c|]; [|reflexivity].
      cbn [rbind].
      destruct (dequantize_price t c); reflexivity.
    + reflexivity.
  - reflexivity.
Qed.

Lemma process_notification_refund_finalized
    (request : HttpRequest) (p : Payment) (data : json)
    (refunded : Decimal) (reason msg : string) :
  json_loads (body request) = Some data ->
  signature_ok self request = true ->
  journal_ok "statuses" p = true ->
  refund_amount_of data = Ok refunded ->
  refund_field_of "status" data = Ok (JStr "FINALIZED") ->
  refund_field_of "reasonDescription" data = Ok (JStr reason) ->
  message p = JStr msg ->
  exists journal,
    process_notification json_loads self request p =
      (Ok (mkHttpResponse "ok" 200),
       if Dec.geb refunded (captured_amount p)
       then moved_to REFUNDED (captured_amount p) journal p
       else set_captured_amount (Dec.sub (captured_amount p) refunded)
              (set_message (JStr (msg ++ reason))
                 (set_extra_data journal p))).
Proof.
  intros Hd Hs Hj Ha Hst Hr Hm.
  destruct (process_notification_verified _ p _ Hd Hs Hj) as [journal ->].
  exists journal.
  unfold bind at 1, lift at 1. rewrite (refund_field_contains _ _ _ Hst).
  rewrite (process_refund_finalized _ _ _ _ msg Ha Hst Hr) by exact Hm.
  reflexivity.
Qed.

Lemma process_notification_order
    (request : HttpRequest) (p : Payment) (data v : json) :
  json_loads (body request) = Some data ->
  signature_ok self request = true ->
  journal_ok "statuses" p = true ->
  py_contains "refund" data = Ok false ->
  order_field_of "status" data = Ok v ->
  exists journal,
    process_notification json_loads self request p =
      match claimed_status v with
      | None =>
          (Raise (if hashable v then KeyError v else TypeError),
           set_extra_data journal p)
      | Some new_status =>
          if PaymentStatus_eqb new_status CONFIRMED && carries_total data
          then match order_amount_of data with
               | Ok amount =>
                   (Ok (mkHttpResponse "ok" 200),
                    moved_to new_status amount journal p)
               | Raise e => (Raise e, set_extra_data journal p)
               end
          else (Ok (mkHttpResponse "ok" 200),
                moved_to new_status (captured_amount p) journal p)
      end.
Proof.
  intros Hd Hs Hj Hc Hst.
  destruct (process_notification_verified _ p _ Hd Hs Hj) as [journal ->].
  exists journal.
  unfold bind at 1, lift at 1. rewrite Hc.
  destruct (claimed_status v) as [new_status|] eqn:E.
  - rewrite (process_order_mapped _ _ _ _ Hst E).
    destruct (PaymentStatus_eqb new_status CONFIRMED && carries_total data);
      [|reflexivity].
    destruct (order_amount_of data); reflexivity.
  - apply (process_order_unmapped _ _ _ Hst E).
Qed.

(** Whatever else is wrong with it, a notification that is not verified
    leaves the payment as it was. *)
Lemma unverified_notification_frame (request : HttpRequest) (p : Payment) :
  signature_ok self request = false ->
  snd (process_notification json_loads self request p) = p.
Proof.
  unfold signature_ok. intro Hs.
  destruct (json_loads (body request)) as [data|] eqn:Hd.
  - destruct (signature_header request) as [[sig alg]|e] eqn:Hh.
    + rewrite (process_notification_header _ p _ _ _ Hd Hh), Hs. reflexivity.
    + clear Hs. unfold signature_header in Hh.
      unfold process_notification. run. rewrite Hd.
      destruct (str_getitem (META request) "HTTP_OPENPAYU_SIGNATURE")
        as [header|e1]; [|destruct e1; reflexivity].
      cbn [rbind] in Hh.
      destruct (parse_header (str_split ";" header) []) as [hd|];
        [|reflexivity].
      cbn [rbind] in Hh.
      destruct (str_getitem hd "signature") as [sg|]; [|reflexivity].
      cbn [rbind] in Hh.
      destruct (str_getitem hd "algorithm") as [al|]; [|reflexivity].
      discriminate.
  - unfold process_notification. run. rewrite Hd. reflexivity.
Qed.

(** C1: a notification with a verified signature whose refund has the
    status FINALIZED (and an amount and a reason that can be read) is
    answered with ok; the payment moves to REFUNDED when the dequantized
    amount is greater than or equal to [captured_amount], strictly greater
    included, and otherwise keeps its status while the amount is subtracted
    from [captured_amount]. *)
Theorem refund_notification_reconciles
    (request : HttpRequest) (p : Payment) (data : json)
    (refunded : Decimal) (reason msg : string) :
  json_loads (body request) = Some data ->
  signature_ok self request = true ->
  journal_ok "statuses" p = true ->
  message p = JStr msg ->
  refund_amount_of data = Ok refunded ->
  refund_field_of "status" data = Ok (JStr "FINALIZED") ->
  refund_field_of "reasonDescription" data = Ok (JStr reason) ->
  exists p',
    process_notification json_loads self request p = (Ok (mkHttpResponse "ok" 200), p')
    /\ if Dec.geb refunded (captured_amount p)
       then status p' = REFUNDED
       else status p' = status p
            /\ captured_amount p' = Dec.sub (captured_amount p) refunded.
Proof.
  intros Hd Hs Hj Hm Ha Hst Hr.
  destruct (process_notification_refund_finalized
              _ _ _ _ _ _ Hd Hs Hj Ha Hst Hr Hm) as [journal ->].
  eexists. split; [reflexivity|].
  destruct (Dec.geb refunded (captured_amount p)); [reflexivity|].
  split; reflexivity.
Qed.

(** C10: when the dequantized amount of a verified FINALIZED refund is
    greater than or equal to [captured_amount], the payment that
    [process_notification] leaves differs from the one it found in its
    status (REFUNDED), its message (reset to the empty string by
    [change_status]) and its journal only; [captured_amount] keeps its
    value. *)
Theorem full_refund_changes_status_message_journal
    (request : HttpRequest) (p : Payment) (data : json)
    (refunded : Decimal) (reason msg : string) :
  json_loads (body request) = Some data ->
  signature_ok self request = true ->
  journal_ok "statuses" p = true ->
  message p = JStr msg ->
  refund_amount_of data = Ok refunded ->
  refund_field_of "status" data = Ok (JStr "FINALIZED") ->
  refund_field_of "reasonDescription" data = Ok (JStr reason) ->
  Dec.geb refunded (captured_amount p) = true ->
  exists journal,
    process_notification json_loads self request p =
      (Ok (mkHttpResponse "ok" 200),
       mkPayment (id p) REFUNDED (fraud_status p) (JStr "") (total p)
                 (captured_amount p) (currency p) (transaction_id p)
                 journal (renew_token p) (pay_link p) (payment_url p)).
Proof.
  intros Hd Hs Hj Hm Ha Hst Hr Hge.
  destruct (process_notification_refund_finalized
              _ _ _ _ _ _ Hd Hs Hj Ha Hst Hr Hm) as [journal ->].
  exists journal. rewrite Hge. reflexivity.
Qed.


(** C4: for a verified notification without a refund, the status of the
    order is mapped by the table COMPLETED to CONFIRMED, PENDING and
    WAITING_FOR_CONFIRMATION to INPUT, CANCELED to REJECTED, NEW to WAITING;
    a status outside the table raises and leaves status and
    [captured_amount] as they were; when the mapped status is CONFIRMED and
    the order carries [totalAmount], [captured_amount] becomes the
    dequantized [totalAmount]; the new status is applied and the answer is
    ok. *)
Theorem order_notification_reconciles
    (request : HttpRequest) (p : Payment) (data v : json) :
  json_loads (body request) = Some data ->
  signature_ok self request = true ->
  journal_ok "statuses" p = true ->
  py_contains "refund" data = Ok false ->
  order_field_of "status" data = Ok v ->
  match claimed_status v with
  | None =>
      exists e p',
        process_notification json_loads self request p = (Raise e, p')
        /\ status p' = status p
        /\ captured_amount p' = captured_amount p
  | Some new_status =>
      if PaymentStatus_eqb new_status CONFIRMED && carries_total data
      then forall amount,
             order_amount_of data = Ok amount ->
             exists p',
               process_notification json_loads self request p
                 = (Ok (mkHttpResponse "ok" 200), p')
               /\ captured_amount p' = amount
               /\ status p' = new_status
      else exists p',
             process_notification json_loads self request p
               = (Ok (mkHttpResponse "ok" 200), p')
             /\ captured_amount p' = captured_amount p
             /\ status p' = new_status
  end.
Proof.
  intros Hd Hs Hj Hc Hst.
  destruct (process_notification_order _ p _ _ Hd Hs Hj Hc Hst)
    as [journal ->].
  destruct (claimed_status v) as [new_status|].
  - destruct (PaymentStatus_eqb new_status CONFIRMED && carries_total data).
    + intros amount ->. eexists. repeat split.
    + eexists. repeat split.
  - do 2 eexists. repeat split.
Qed.

End Notification.

(** ** The access-token retry loop *)

Section Gateway.

Variable json_loads : string -> option json.
Variable urljoin : string -> string -> string.
Variable gateway : list Sent -> Sent -> string.
Variable self : Provider.

Ltac run := unfold bind, try_except, lift, ret, raise, gets, modify, loads.

Lemma get_access_token_frame (client_id secret grant : string)
      (email customer_id : option string) (w : World) :
  let w' := snd (get_access_token json_loads gateway self client_id secret
                                  grant email customer_id w) in
  w_payment w' = w_payment w /\ w_token w' = w_token w.
Proof.
  unfold get_access_token, requests_post. run. cbn [fst snd].
  destruct (json_loads _) as [r|]; cbn; [|auto].
  destruct (py_getitem r "access_token") as [t|[]]; cbn; auto.
Qed.

(** [post_request] does not touch the payment. *)
Lemma post_request_loop_payment (attempts : list Z) (url : string)
      (data : json) :
  forall w : World,
    w_payment (snd (post_request_loop json_loads gateway self attempts
                                      url data w)) = w_payment w.
Proof.
  induction attempts as [|i rest IH]; intro w; [reflexivity|].
  cbn [post_request_loop]. unfold get_token_headers, requests_post. run.
  cbn [fst snd].
  destruct (json_loads _) as [r|]; cbn [w_payment snd]; [|reflexivity].
  destruct (is_unauthorized r) as [[|]|]; cbn [w_payment snd];
    try reflexivity.
  match goal with
  | |- context [get_access_token ?a ?b ?c ?d ?e ?f ?g ?h ?w0] =>
      pose proof (get_access_token_frame d e f g h w0) as [Hp _];
      destruct (get_access_token a b c d e f g h w0) as [[t|e0] w1]
  end; cbn [snd] in Hp.
  - rewrite IH. cbn [w_payment set_w_token]. exact Hp.
  - destruct e0; cbn [snd]; exact Hp.
Qed.

Lemma post_request_payment (url : string) (data : json) (w : World) :
  w_payment (snd (post_request json_loads gateway self url data w))
  = w_payment w.
Proof. apply post_request_loop_payment. Qed.

Section Exhaustion.

Variable url : string.
Hypothesis url_is_not_auth : String.eqb (payu_auth_url self) url = false.
Hypothesis always_unauthorized :
  forall log rq, sent_url rq = url ->
    exists r, json_loads (gateway log rq) = Some r
              /\ is_unauthorized r = Ok true.
Hypothesis auth_succeeds :
  forall log rq, sent_url rq = payu_auth_url self ->
    exists r token, json_loads (gateway log rq) = Some r
                    /\ py_getitem r "access_token" = Ok token.

(** When the gateway refuses every token and the token endpoint keeps
    granting new ones, the loop sends one request and asks for one token for
    each element of the range, and then gives up. *)
Lemma post_request_loop_exhausts (attempts : list Z) (data : json) :
  forall w : World,
    exists w',
      post_request_loop json_loads gateway self attempts url data w
        = (Raise (PayuApiError (JStr "Unable to regain authorization token")),
           w')
      /\ requests_to url w' = (requests_to url w + List.length attempts)%nat
      /\ requests_to (payu_auth_url self) w'
         = (requests_to (payu_auth_url self) w + List.length attempts)%nat.
Proof.
  induction attempts as [|i rest IH]; intro w.
  - exists w. cbn. repeat split; lia.
  - cbn [post_request_loop]. unfold get_token_headers, requests_post. run.
    cbn [fst snd].
    set (rq := mkSent url "application/json" (Some (w_token w)) data).
    destruct (always_unauthorized (w_sent w) rq eq_refl) as [r [Hr Hu]].
    rewrite Hr, Hu.
    unfold get_access_token, requests_post. run. cbn [fst snd w_sent].
    match goal with
    | |- context [gateway ?l ?q] =>
        destruct (auth_succeeds l q eq_refl) as [r2 [tok [Hr2 Htok]]];
        set (rq2 := q) in *
    end.
    rewrite Hr2, Htok.
    match goal with
    | |- context [post_request_loop _ _ _ rest url data ?w0] =>
        destruct (IH w0) as [w' [Hrun [Hn Ha]]]
    end.
    exists w'. rewrite Hrun. split; [reflexivity|].
    rewrite Hn, Ha. unfold requests_to. cbn [w_sent set_w_token filter sent_url rq rq2].
    rewrite String.eqb_refl, url_is_not_auth.
    assert (Hsym : String.eqb url (payu_auth_url self) = false)
      by (rewrite String.eqb_sym; exact url_is_not_auth).
    rewrite Hsym, String.eqb_refl. cbn [List.length]. split; lia.
Qed.

Lemma py_range_length (a b : Z) :
  List.length (py_range a b) = Z.to_nat (b - a).
Proof. unfold py_range. now rewrite length_map, length_seq. Qed.

(** The same for [post_request]: [retry_count - 1] requests in all. *)
Lemma post_request_exhausts (data : json) (w : World) :
  exists w',
    post_request json_loads gateway self url data w
      = (Raise (PayuApiError (JStr "Unable to regain authorization token")),
         w')
    /\ requests_to url w'
       = (requests_to url w + Z.to_nat (retry_count self - 1))%nat.
Proof.
  unfold post_request.
  destruct (post_request_loop_exhausts (py_range 1 (retry_count self)) data w)
    as [w' [Hrun [Hn _]]].
  exists w'. split; [exact Hrun|]. now rewrite Hn, py_range_length.
Qed.

End Exhaustion.

End Gateway.

(** ** Order creation *)

Section CreateOrder.

Variable json_loads : string -> option json.
Variable urljoin : string -> string -> string.
Variable gateway : list Sent -> Sent -> string.
Variable self : Provider.

Ltac run := unfold bind, try_except, lift, ret, raise, gets, modify, loads.

Lemma status_code_is_dict (response_dict code : json) :
  status_code_of response_dict = Ok code ->
  exists members, response_dict = JObj members
                  /\ assoc_mem "status" members = true.
Proof.
  unfold status_code_of. destruct response_dict; try discriminate.
  cbn [py_getitem rbind]. unfold assoc_mem.
  destruct (assoc_get "status" members) eqn:E; [|discriminate].
  intros _. exists members. split; [reflexivity|now rewrite E].
Qed.

Lemma py_getitem_error (v : json) (k : string) (e : exn) :
  py_getitem v k = Raise e -> e = TypeError \/ exists j, e = KeyError j.
Proof.
  destruct v; cbn [py_getitem]; try (intro H; inversion H; auto).
  destruct (assoc_get k members); inversion H; eauto.
Qed.

(** Reading the pay method fails on a missing key or on a value that is no
    dictionary. *)
Lemma renew_token_of_error (response_dict : json) (e : exn) :
  renew_token_of self response_dict = Raise e ->
  e = TypeError \/ exists j, e = KeyError j.
Proof.
  unfold renew_token_of.
  repeat match goal with
         | |- context [py_getitem ?a ?b] =>
             let E := fresh "E" in
             destruct (py_getitem a b) eqn:E; cbn [rbind];
             [|intro H; inversion H; subst; eapply py_getitem_error; eassumption]
         end.
  discriminate.
Qed.

(** For a response that reports a duplicate order the [try] block of
    [create_order] comes to its end, or to a missing key, without a
    [return] and without touching the status. *)
Lemma create_order_try_not_unique (payment_processor : PaymentProcessor)
      (auto_renew : bool) (response_dict : json) (p : Payment) :
  status_code_of response_dict = Ok (JStr "ERROR_ORDER_NOT_UNIQUE") ->
  renew_token_of self response_dict <> Raise TypeError ->
  exists p',
    try_except
      (create_order_try self payment_processor auto_renew response_dict)
      (fun e => match e with
                | KeyError _ => Some (ret None)
                | _ => None
                end) p = (Ok None, p')
    /\ status p' = status p.
Proof.
  intros Hcode Hshape.
  destruct (status_code_is_dict _ _ Hcode) as [members [-> Hmem]].
  unfold create_order_try. run.
  cbn [py_getitem py_contains].
  destruct (assoc_get "orderId" members) as [orderId|];
    [|eexists; split; reflexivity].
  destruct (assoc_mem "payMethods" members).
  - destruct (renew_token_of self (JObj members)) as [tok|e] eqn:E.
    + unfold add_extra_data, save. run. unfold status_code_of in Hcode.
      cbn [py_getitem] in Hcode. rewrite Hcode.
      cbn. eexists; split; reflexivity.
    + destruct (renew_token_of_error _ _ E) as [->|[j ->]];
        [contradiction|eexists; split; reflexivity].
  - unfold add_extra_data, save. run. unfold status_code_of in Hcode.
    cbn [py_getitem] in Hcode. rewrite Hcode.
    cbn. eexists; split; reflexivity.
Qed.

Lemma create_order_failed_not_unique (payment_processor : PaymentProcessor)
      (response_dict : json) (p : Payment) :
  status_code_of response_dict = Ok (JStr "ERROR_ORDER_NOT_UNIQUE") ->
  status p = CONFIRMED ->
  exists p',
    create_order_failed payment_processor response_dict p = (Ok (JStr ""), p')
    /\ status p' = CONFIRMED.
Proof.
  intros Hcode Hst.
  destruct (status_code_is_dict _ _ Hcode) as [members [-> Hmem]].
  unfold create_order_failed. run. cbn [py_contains]. rewrite Hmem, Hcode.
  cbn [json_is_str String.eqb Ascii.eqb Bool.eqb as_mapping].
  unfold add_extra_data, save. run. cbn [status set_extra_data].
  rewrite Hst. cbn [PaymentStatus_eqb andb].
  eexists; split; [reflexivity|exact Hst].
Qed.

(** C7: when the gateway answers an order with the status code
    ERROR_ORDER_NOT_UNIQUE and the payment is CONFIRMED, [create_order]
    returns the empty string and the payment keeps its status. *)
Theorem create_order_duplicate_of_confirmed
    (payment_processor : PaymentProcessor) (auto_renew : bool)
    (w w1 : World) (json_data response_dict : json) :
  as_json (set_pp_pos_id (JStr (pos_id self)) payment_processor)
    = Ok json_data ->
  post_request json_loads gateway self (payu_api_orders_url self) json_data w
    = (Ok response_dict, w1) ->
  status_code_of response_dict = Ok (JStr "ERROR_ORDER_NOT_UNIQUE") ->
  renew_token_of self response_dict <> Raise TypeError ->
  status (w_payment w) = CONFIRMED ->
  exists w',
    create_order json_loads gateway self payment_processor auto_renew w
      = (Ok (JStr ""), w')
    /\ status (w_payment w') = status (w_payment w).
Proof.
  intros Hjson Hpost Hcode Hshape Hst.
  pose proof (post_request_payment json_loads gateway self
                (payu_api_orders_url self) json_data w) as Hframe.
  rewrite Hpost in Hframe. cbn [snd] in Hframe.
  unfold create_order. run. rewrite Hjson, Hpost.
  unfold on_payment, zoom.
  destruct (create_order_try_not_unique
              (set_pp_pos_id (JStr (pos_id self)) payment_processor)
              auto_renew response_dict (w_payment w1) Hcode Hshape)
    as [p1 [Htry Hs1]].
  unfold try_except, ret in Htry. rewrite Htry.
  cbn [w_payment set_w_payment].
  destruct (create_order_failed_not_unique
              (set_pp_pos_id (JStr (pos_id self)) payment_processor)
              response_dict p1 Hcode) as [p2 [Hfail Hs2]].
  { rewrite Hs1, Hframe. exact Hst. }
  rewrite Hfail. eexists. split; [reflexivity|].
  cbn [w_payment set_w_payment]. rewrite Hs2, Hst. reflexivity.
Qed.

End CreateOrder.

(** ** Refunds *)

Section Refund.

Variable json_loads : string -> option json.
Variable urljoin : string -> string -> string.
Variable gateway : list Sent -> Sent -> string.
Variable self : Provider.

Ltac run := unfold bind, try_except, lift, ret, raise, gets, modify, loads.

Lemma add_refund_response_frame (response : json) (p : Payment) :
  captured_amount (snd (add_refund_response response p)) = captured_amount p
  /\ transaction_id (snd (add_refund_response response p)) = transaction_id p
  /\ currency (snd (add_refund_response response p)) = currency p.
Proof.
  unfold add_refund_response, save. run.
  destruct (assoc_get "refund_responses" _) as [[]|]; cbn; auto.
Qed.

Lemma add_refund_response_ok (response : json) (p : Payment) :
  journal_ok "refund_responses" p = true ->
  exists journal,
    add_refund_response response p = (Ok tt, set_extra_data journal p).
Proof.
  unfold journal_ok, add_refund_response, assoc_mem, save. run.
  destruct (assoc_get "refund_responses" (extra_data p))
    as [[| | | | |l|]|] eqn:E; try discriminate; intros _.
  - rewrite E. eexists; reflexivity.
  - rewrite assoc_get_set_same. eexists; reflexivity.
Qed.

(** Whatever it returns or raises, [refund] leaves [captured_amount] as it
    was. *)
Lemma refund_leaves_captured_amount (amount : option Decimal) (w : World) :
  captured_amount
    (w_payment (snd (refund json_loads urljoin gateway self amount w)))
  = captured_amount (w_payment w).
Proof.
  unfold refund. destruct (get_refund_description self) as [describe|];
    [|reflexivity].
  run. destruct (refund_request urljoin self describe (w_payment w) amount)
    as [[request_url doc]|]; [|reflexivity].
  cbn [fst snd].
  pose proof (post_request_payment json_loads gateway self request_url doc w)
    as Hframe.
  destruct (post_request json_loads gateway self request_url doc w)
    as [[response|] w1]; cbn [snd] in Hframe |- *;
    [|now rewrite Hframe].
  unfold on_payment, zoom.
  pose proof (add_refund_response_frame response (w_payment w1)) as [Hc _].
  destruct (add_refund_response response (w_payment w1)) as [[[]|] p1];
    cbn [snd] in Hc; cbn [w_payment set_w_payment snd].
  - now rewrite Hc, Hframe.
  - now rewrite Hc, Hframe.
Qed.

Lemma check_refund_response_status (payment : Payment)
      (amount : option Decimal) (response refund_status : json) :
  acknowledges payment response refund_status ->
  let r := check_refund_response payment amount response in
  (refund_status = JStr "CANCELED" ->
     r = Raise (ValueError
                  "refund {refund_id} of payment {payment.id} canceled"))
  /\ (refund_status = JStr "FINALIZED" ->
        r = Raise (NotImplementedError
                     "refund {refund_id} of payment {payment.id} being FINALIZED already is not supported yet"))
  /\ (hashable refund_status = true ->
      json_is_str refund_status "CANCELED" = false ->
      json_is_str refund_status "FINALIZED" = false ->
      json_is_str refund_status "PENDING" = false ->
        r = Raise (PayuApiError (JStr
                     "invalid status of refund {refund_id} of payment {payment.id}")))
  /\ (forall d, r = Ok d -> refund_status = JStr "PENDING").
Proof.
  intros [Hcode [[rid [Hrid Hnn]] [[oid [Hoid Heq]] [Hst [cur [raw [ra [Hcur [Hraw Hdq]]]]]]]]].
  unfold check_refund_response. rewrite Hcode. cbn [except_Exception rbind].
  cbn [json_is_str String.eqb Ascii.eqb Bool.eqb negb].
  unfold refund_field_of in Hrid, Hst, Hcur, Hraw.
  destruct (py_getitem response "refund") as [r0|]; [|discriminate].
  cbn [rbind] in Hrid, Hst, Hcur, Hraw |- *.
  rewrite Hrid, Hoid, Hst, Hcur, Hraw. cbn [rbind]. rewrite Hdq.
  cbn [rbind except_Exception]. rewrite Heq. cbn [negb].
  destruct rid; try contradiction;
    (destruct (json_is_str refund_status "CANCELED") eqn:Ec;
     [ destruct refund_status; try discriminate;
       apply String.eqb_eq in Ec; subst;
       repeat split; intros; try discriminate; try reflexivity
     | destruct (json_is_str refund_status "FINALIZED") eqn:Ef;
       [ destruct refund_status; try discriminate;
         apply String.eqb_eq in Ef; subst;
         repeat split; intros; try discriminate; try reflexivity
       | unfold not_in_pending;
         destruct (hashable refund_status) eqn:Eh; cbn [rbind];
         [ destruct (json_is_str refund_status "PENDING") eqn:Ep; cbn [negb];
           [ destruct refund_status; try discriminate;
             apply String.eqb_eq in Ep; subst;
             repeat split; intros; try discriminate; try reflexivity
           | repeat split; intros; subst; try discriminate; try reflexivity ]
         | repeat split; intros; subst; try discriminate ] ] ]).
Qed.

(** A PENDING refund in the currency of the payment, of the amount asked
    for when one was given, is accepted: the result is zero. *)
Lemma check_refund_response_pending (payment : Payment)
      (amount : option Decimal) (response refund_currency raw : json)
      (refund_amount : Decimal) :
  acknowledges payment response (JStr "PENDING") ->
  refund_field_of "currencyCode" response = Ok refund_currency ->
  refund_field_of "amount" response = Ok raw ->
  dequantize_price raw refund_currency = Ok refund_amount ->
  json_is_str refund_currency (currency payment) = true ->
  match amount with
  | Some a => Dec.eqb refund_amount a = true
  | None => True
  end ->
  check_refund_response payment amount response = Ok (Dec.of_Z 0).
Proof.
  intros [Hcode [[rid [Hrid Hnn]] [[oid [Hoid Heq]] [Hst _]]]]
         Hcur Hraw Hdq Hsame Hamount.
  unfold check_refund_response. rewrite Hcode. cbn [except_Exception rbind].
  cbn [json_is_str String.eqb Ascii.eqb Bool.eqb negb].
  unfold refund_field_of in Hrid, Hst, Hcur, Hraw.
  destruct (py_getitem response "refund") as [r0|]; [|discriminate].
  cbn [rbind] in Hrid, Hst, Hcur, Hraw |- *.
  rewrite Hrid, Hoid, Hst, Hcur, Hraw. cbn [rbind]. rewrite Hdq.
  cbn [rbind except_Exception]. rewrite Heq, Hsame.
  destruct rid; try contradiction;
    (destruct amount as [a|]; [rewrite Hamount|]; reflexivity).
Qed.

Lemma check_refund_response_reads (p q : Payment) (amount : option Decimal)
      (response : json) :
  transaction_id p = transaction_id q ->
  currency p = currency q ->
  check_refund_response p amount response
  = check_refund_response q amount response.
Proof.
  intros Ht Hc. unfold check_refund_response. rewrite Ht, Hc. reflexivity.
Qed.

(** C8: for a response that acknowledges the refund (status code SUCCESS,
    a refund identifier, the order of the payment, a readable amount),
    [refund] leaves [captured_amount] as it was, raises a [ValueError] when
    the refund status is CANCELED, a [NotImplementedError] when it is
    FINALIZED and a [PayuApiError] for every other value that is not
    PENDING (a value that can be hashed, as every string is); it can only
    return when the status is PENDING. *)
Theorem refund_status_must_be_pending
    (amount : option Decimal) (w w1 : World)
    (describe : Payment -> option Decimal -> json)
    (request_url : string) (doc response refund_status : json) :
  get_refund_description self = Some describe ->
  refund_request urljoin self describe (w_payment w) amount
    = Ok (request_url, doc) ->
  post_request json_loads gateway self request_url doc w
    = (Ok response, w1) ->
  journal_ok "refund_responses" (w_payment w) = true ->
  acknowledges (w_payment w) response refund_status ->
  exists r w',
    refund json_loads urljoin gateway self amount w = (r, w')
    /\ captured_amount (w_payment w') = captured_amount (w_payment w)
    /\ (refund_status = JStr "CANCELED" ->
          r = Raise (ValueError
                       "refund {refund_id} of payment {payment.id} canceled"))
    /\ (refund_status = JStr "FINALIZED" ->
          r = Raise (NotImplementedError
                       "refund {refund_id} of payment {payment.id} being FINALIZED already is not supported yet"))
    /\ (hashable refund_status = true ->
        json_is_str refund_status "CANCELED" = false ->
        json_is_str refund_status "FINALIZED" = false ->
        json_is_str refund_status "PENDING" = false ->
          r = Raise (PayuApiError (JStr
                       "invalid status of refund {refund_id} of payment {payment.id}")))
    /\ (forall d, r = Ok d -> refund_status = JStr "PENDING").
Proof.
  intros Hdesc Hreq Hpost Hj Hack.
  pose proof (refund_leaves_captured_amount amount w) as Hcap.
  pose proof (post_request_payment json_loads gateway self request_url doc w)
    as Hframe.
  rewrite Hpost in Hframe. cbn [snd] in Hframe.
  unfold refund in *. rewrite Hdesc in *. revert Hcap. run.
  rewrite Hreq. cbn [fst snd]. rewrite Hpost.
  unfold on_payment, zoom. rewrite <- Hframe in Hj.
  destruct (add_refund_response_ok response (w_payment w1) Hj)
    as [journal ->].
  cbn [w_payment set_w_payment snd]. intro Hcap.
  rewrite (check_refund_response_reads _ (w_payment w) amount response)
    by (cbn; now rewrite Hframe).
  do 2 eexists. split; [reflexivity|]. split; [exact Hcap|].
  exact (check_refund_response_status (w_payment w) amount response
           refund_status Hack).
Qed.

End Refund.

(** ** Notifications: what comes back *)

Section Outcomes.

Variable json_loads : string -> option json.
Variable self : Provider.


End Outcomes.

(** * More properties of the provider *)

(** ** The money codec, continued *)

(** X1: the round trip in the other direction.  For a supported currency
    and a number of minor units below 10^26 in magnitude,
    [dequantize_price] returns a decimal that [quantize_price] takes back to
    the number. *)
Theorem dequantize_quantize_roundtrip (cur : string) (n : Z) :
  supported cur = true ->
  Z.abs n < 10 ^ 26 ->
  exists y, dequantize_price (JInt n) (JStr cur) = Ok y
            /\ quantize_price y cur = Ok n.
Proof.
  intros Hcur Hb.
  destruct (dequantize_price_exact cur n Hcur Hb) as [y [Hy [He Hs]]].
  exists y. split; [exact Hy|].
  assert (H2 : two_decimals y = true).
  { unfold two_decimals. apply Z.leb_le in He. now rewrite He. }
  assert (Hm : minor_units y = n).
  { rewrite <- Hs. unfold minor_units, units, Dec.scaled.
    apply Z.leb_le in He. rewrite He.
    now replace (d_exp y - -2) with (d_exp y + 2) by lia. }
  rewrite <- Hm. apply quantize_price_exact; [exact Hcur|exact H2|].
  now rewrite Hm.
Qed.

Lemma pow10_Z (k : Z) : 0 <= k -> Z.of_N (Dec.pow10 k) = 10 ^ k.
Proof.
  intro H. unfold Dec.pow10. rewrite N2Z.inj_pow. rewrite Z2N.id by lia.
  reflexivity.
Qed.

(** Rounding half-up moves a coefficient by less than one unit of the digit
    that is kept. *)
Lemma round_drop_half_up_bounds (c : N) (k : Z) :
  let Q := Dec.round_drop Dec.ROUND_HALF_UP c k in
  (Q * Dec.pow10 k <= c + Dec.pow10 k)%N
  /\ (c < (Q + 1) * Dec.pow10 k)%N
  /\ (Q <= c / Dec.pow10 k + 1)%N.
Proof.
  cbn zeta. unfold Dec.round_drop.
  pose proof (DecFacts.pow10_pos k) as Hp.
  pose proof (N.div_mod c (Dec.pow10 k) ltac:(lia)) as Hdm.
  pose proof (N.mod_lt c (Dec.pow10 k) ltac:(lia)) as Hlt.
  set (P := Dec.pow10 k) in *. set (q := (c / P)%N) in *.
  set (r := (c mod P)%N) in *.
  destruct (P <=? 2 * r)%N eqn:E;
    [apply N.leb_le in E|apply N.leb_gt in E];
    (split; [|split]); nia.
Qed.

(** X2: an amount with more than two fractional digits (and at most 26
    digits in all) is quantized to a number of minor units that is less than
    one minor unit away from it and has its sign.  With [e] the exponent of
    the amount, the amount is [Dec.scaled x e] units of [10^e] and a minor
    unit is [10^(-2 - e)] of them. *)
Theorem quantize_price_within_one_minor_unit (cur : string) (x : Decimal) :
  supported cur = true ->
  d_exp x < -2 ->
  (d_int x < 10 ^ 26)%N ->
  exists n,
    quantize_price x cur = Ok n
    /\ Z.abs (n * 10 ^ (-2 - d_exp x) - Dec.scaled x (d_exp x))
       < 10 ^ (-2 - d_exp x)
    /\ (if d_sign x then n <= 0 else 0 <= n).
Proof.
  intros Hcur He Hc. unfold quantize_price.
  rewrite (sub_unit_supported _ Hcur). cbn [rbind].
  unfold Dec.mul. cbn [d_sign d_int d_exp Dec.of_Z].
  change (Z.abs_N 100) with 100%N. change (100 <? 0) with false.
  rewrite xorb_false_r, Z.add_0_r.
  set (c := d_int x) in *. set (e := d_exp x) in *. set (k := -2 - e).
  assert (Hk : 0 < k) by (unfold k; lia).
  rewrite DecFacts.fix_small.
  2:{ cbn [d_int]. unfold Dec.prec.
      apply (DecFacts.ndigits_le _ 28); [lia|reflexivity]. }
  assert (Hscaled : Dec.scaled x e = if d_sign x then - Z.of_N c else Z.of_N c).
  { unfold Dec.scaled. fold c e. rewrite Z.sub_diag.
    change (Dec.pow10 0) with 1%N. now rewrite N.mul_1_r. }
  rewrite Hscaled.
  pose proof (DecFacts.pow10_pos k) as Hp.
  pose proof (pow10_Z k ltac:(lia)) as HpZ.
  unfold Dec.quantize, Dec.is_zero. cbn [d_int d_sign d_exp CENTS].
  destruct (c * 100 =? 0)%N eqn:Ez.
  - apply N.eqb_eq in Ez. assert (Hc0 : c = 0%N) by lia.
    cbn [rbind]. exists 0. split.
    { unfold Dec.fix_, Dec.is_zero. cbn [d_int]. cbn.
      destruct (d_sign x); reflexivity. }
    rewrite Hc0, <- HpZ.
    split; destruct (d_sign x); lia.
  - apply N.eqb_neq in Ez.
    assert (Hd : Dec.ndigits (c * 100) <= 28).
    { apply (DecFacts.ndigits_le _ 28); [lia|reflexivity]. }
    assert (Hadj : (Dec.prec <? Dec.ndigits (c * 100) + e - 1 - -2 + 1) = false).
    { apply Z.ltb_ge. unfold Dec.prec. lia. }
    rewrite Hadj. unfold Dec.rescale, Dec.is_zero. cbn [d_int d_sign d_exp].
    assert (Ez' : (c * 100 =? 0)%N = false) by (apply N.eqb_neq; exact Ez).
    rewrite Ez'.
    assert (Hle : (-2 <=? e) = false) by (apply Z.leb_gt; lia).
    rewrite Hle. cbn [d_int].
    replace (-2 - e) with k by reflexivity.
    set (Q := Dec.round_drop Dec.ROUND_HALF_UP (c * 100) k).
    pose proof (round_drop_half_up_bounds (c * 100) k) as [HQ1 [HQ2 HQ3]].
    fold Q in HQ1, HQ2, HQ3.
    assert (Hk10 : (10 <= Dec.pow10 k)%N).
    { replace k with (1 + (k - 1)) by lia.
      rewrite DecFacts.pow10_add by lia. change (Dec.pow10 1) with 10%N.
      pose proof (DecFacts.pow10_pos (k - 1)). lia. }
    assert (HQb : (Q < 10 ^ 28)%N).
    { assert ((c * 100 / Dec.pow10 k <= c * 100 / 10)%N).
      { apply N.div_le_compat_l. lia. }
      assert ((c * 100 / 10 = c * 10)%N).
      { replace (c * 100)%N with (c * 10 * 10)%N by lia.
        apply N.div_mul. discriminate. }
      lia. }
    assert (HdQ : (Dec.prec <? Dec.ndigits Q) = false).
    { apply Z.ltb_ge. unfold Dec.prec.
      apply (DecFacts.ndigits_le _ 28); [exact HQb|reflexivity]. }
    rewrite HdQ. cbn [rbind].
    rewrite DecFacts.fix_small.
    2:{ cbn [d_int]. apply Z.ltb_ge in HdQ. exact HdQ. }
    unfold Dec.to_int. cbn [d_int d_sign d_exp].
    change (0 <=? -2) with false. cbv iota.
    change (Dec.pow10 (- -2)) with 100%N.
    eexists. split; [reflexivity|].
    pose proof (N.div_mod Q 100 ltac:(discriminate)) as HQdm.
    pose proof (N.mod_lt Q 100 ltac:(discriminate)) as HQlt.
    set (A := (Q / 100)%N) in *. set (B := (Q mod 100)%N) in *.
    rewrite <- HpZ.
    split; [|destruct (d_sign x); lia].
    assert (Hmain : (A * Dec.pow10 k < c + Dec.pow10 k)%N
                    /\ (c < (A + 1) * Dec.pow10 k)%N) by (split; nia).
    destruct Hmain as [H1 H2].
    destruct (d_sign x); apply Z.abs_lt; split; nia.
Qed.

Lemma fix_neg (a : Decimal) : Dec.fix_ (Dec.neg a) = Dec.neg (Dec.fix_ a).
Proof.
  unfold Dec.fix_, Dec.neg, Dec.is_zero. cbn [d_int d_sign d_exp].
  destruct (d_int a =? 0)%N; [reflexivity|].
  destruct (Dec.prec <? Dec.ndigits (d_int a)); [|reflexivity].
  destruct (Dec.prec <? Dec.ndigits _); reflexivity.
Qed.

Lemma mul_neg (a b : Decimal) : Dec.mul (Dec.neg a) b = Dec.neg (Dec.mul a b).
Proof.
  unfold Dec.mul. rewrite <- fix_neg. unfold Dec.neg. cbn [d_int d_sign d_exp].
  now rewrite negb_xorb_l.
Qed.

Lemma quantize_neg (a q : Decimal) (mode : Dec.rounding) :
  Dec.quantize (Dec.neg a) q mode
  = (r <- Dec.quantize a q mode ;; Ok (Dec.neg r))%res.
Proof.
  unfold Dec.quantize, Dec.is_zero. cbn [Dec.neg d_int d_sign d_exp].
  destruct (d_int a =? 0)%N eqn:Ez.
  - cbn [rbind]. now rewrite <- fix_neg.
  - destruct (Dec.prec <? _); [reflexivity|].
    assert (Hr : Dec.rescale (Dec.neg a) (d_exp q) mode
                 = Dec.neg (Dec.rescale a (d_exp q) mode)).
    { unfold Dec.rescale, Dec.is_zero. cbn [Dec.neg d_int d_sign d_exp].
      rewrite Ez. destruct (d_exp q <=? d_exp a); reflexivity. }
    rewrite Hr. cbn [Dec.neg d_int].
    destruct (Dec.prec <? _); [reflexivity|].
    cbn [rbind]. now rewrite <- fix_neg.
Qed.

Lemma to_int_neg (a : Decimal) : Dec.to_int (Dec.neg a) = - Dec.to_int a.
Proof.
  unfold Dec.to_int, Dec.neg. cbn [d_int d_sign d_exp].
  destruct (d_sign a); cbn [negb]; lia.
Qed.

(** X3: [quantize_price] is odd: on the negated amount it returns the
    negated number of minor units, and it raises on the one exactly when it
    raises on the other, for every amount and every currency. *)
Theorem quantize_price_of_negation (cur : string) (x : Decimal) :
  quantize_price (Dec.neg x) cur
  = (n <- quantize_price x cur ;; Ok (- n))%res.
Proof.
  unfold quantize_price.
  destruct (currency_sub_unit (JStr cur)) as [u|e]; [|reflexivity].
  cbn [rbind]. rewrite mul_neg, quantize_neg.
  destruct (Dec.quantize (Dec.mul x u) CENTS Dec.ROUND_HALF_UP) as [q|e];
    [|reflexivity].
  cbn [rbind]. now rewrite to_int_neg.
Qed.

(** ** The journal in [extra_data] *)

Lemma assoc_get_set_other {A} (k k' : string) (v : A) (d : list (string * A)) :
  String.eqb k k' = false ->
  assoc_get k (assoc_set k' v d) = assoc_get k d.
Proof.
  intro Hne. induction d as [|[k0 v0] d IH]; cbn.
  - now rewrite Hne.
  - destruct (String.eqb k' k0) eqn:E; cbn.
    + apply String.eqb_eq in E. subst k0. now rewrite Hne.
    + now rewrite IH.
Qed.

Lemma assoc_get_set {A} (k k' : string) (v : A) (d : list (string * A)) :
  assoc_get k (assoc_set k' v d)
  = if String.eqb k k' then Some v else assoc_get k d.
Proof.
  destruct (String.eqb k k') eqn:E.
  - apply String.eqb_eq in E. subst. apply assoc_get_set_same.
  - now apply assoc_get_set_other.
Qed.

Lemma assoc_get_not_in {A} (k : string) (d : list (string * A)) :
  ~ In k (map fst d) -> assoc_get k d = None.
Proof.
  induction d as [|[k0 v0] d IH]; cbn; [reflexivity|].
  intro H. destruct (String.eqb k k0) eqn:E.
  - apply String.eqb_eq in E. subst. exfalso. apply H. now left.
  - apply IH. intro Hin. apply H. now right.
Qed.

(** In [{**old, **new}] a key of [new] has its new value and every other
    key the old one. *)
Lemma assoc_get_merge {A} (k : string) (new : list (string * A)) :
  NoDup (map fst new) ->
  forall old,
    assoc_get k (assoc_merge old new)
    = match assoc_get k new with
      | Some v => Some v
      | None => assoc_get k old
      end.
Proof.
  unfold assoc_merge.
  induction new as [|[k' v'] new IH]; intros Hnd old; [reflexivity|].
  cbn [fold_left fst snd assoc_get map] in *. inversion Hnd; subst.
  rewrite IH by assumption. rewrite assoc_get_set.
  destruct (String.eqb k k') eqn:E; [|reflexivity].
  apply String.eqb_eq in E. subst k'.
  now rewrite assoc_get_not_in.
Qed.

(** X4: [add_extra_data] with a dictionary (a list without a repeated key)
    changes [extra_data] only; afterwards every key of the dictionary has
    its new value and every other key the value it had. *)
Theorem add_extra_data_overrides_and_keeps
    (new_extra_data : list (string * json)) (p : Payment) :
  NoDup (map fst new_extra_data) ->
  exists merged,
    add_extra_data new_extra_data p = (Ok tt, set_extra_data merged p)
    /\ forall k,
         assoc_get k merged
         = match assoc_get k new_extra_data with
           | Some v => Some v
           | None => assoc_get k (extra_data p)
           end.
Proof.
  intro Hnd. unfold add_extra_data, save.
  unfold bind, gets, modify, ret.
  eexists. split; [reflexivity|].
  intro k. now apply assoc_get_merge.
Qed.

Lemma journal_ok_of_list (key : string) (p : Payment) (l : list json) :
  assoc_get key (extra_data p) = Some (JArr l) -> journal_ok key p = true.
Proof. unfold journal_ok. now intros ->. Qed.

Lemma set_extra_data_same (p : Payment) : set_extra_data (extra_data p) p = p.
Proof. now destruct p. Qed.

(** [add_new_status] appends to the list under [statuses] and leaves the
    other keys alone; it raises when what is under [statuses] is no
    list. *)
Lemma add_new_status_appends (data : json) (p : Payment) :
  journal_ok "statuses" p = true ->
  exists entries,
    add_new_status data p = (Ok tt, set_extra_data entries p)
    /\ assoc_get "statuses" entries
       = Some (JArr (journal "statuses" p ++ [data]))
    /\ forall k, String.eqb k "statuses" = false ->
                 assoc_get k entries = assoc_get k (extra_data p).
Proof.
  unfold journal_ok, journal, add_new_status, assoc_mem.
  unfold bind, gets, modify, raise, save, ret.
  destruct (assoc_get "statuses" (extra_data p)) as [[| | | | |l|]|] eqn:E;
    try discriminate; intros _.
  - rewrite E. eexists. split; [reflexivity|]. split.
    + apply assoc_get_set_same.
    + intros k Hk. now apply assoc_get_set_other.
  - rewrite assoc_get_set_same. eexists. split; [reflexivity|]. split.
    + apply assoc_get_set_same.
    + intros k Hk. now rewrite !assoc_get_set_other.
Qed.

Lemma add_new_status_not_a_list (data : json) (p : Payment) :
  journal_ok "statuses" p = false ->
  add_new_status data p = (Raise AttributeError, p).
Proof.
  unfold journal_ok, add_new_status, assoc_mem.
  unfold bind, gets, modify, raise, save, ret.
  destruct (assoc_get "statuses" (extra_data p)) as [[| | | | |l|]|] eqn:E;
    try discriminate; intros _; rewrite E; reflexivity.
Qed.

(** ** The signature header *)

Lemma str_split_none (sep : ascii) (s : string) :
  string_forallb (fun c => negb (Ascii.eqb c sep)) s = true ->
  str_split sep s = [s].
Proof.
  induction s as [|c s IH]; cbn; [reflexivity|].
  intro H. apply andb_true_iff in H as [Hc Hs].
  apply negb_true_iff in Hc. rewrite Hc, (IH Hs). reflexivity.
Qed.

Lemma str_split_app (sep : ascii) (a b : string) :
  string_forallb (fun c => negb (Ascii.eqb c sep)) a = true ->
  str_split sep (a ++ String sep b) = a :: str_split sep b.
Proof.
  induction a as [|c a IH]; cbn.
  - intros _. now rewrite Ascii.eqb_refl.
  - intro H. apply andb_true_iff in H as [Hc Hs].
    apply negb_true_iff in Hc. rewrite Hc, (IH Hs). reflexivity.
Qed.

Lemma forallb_append (f : ascii -> bool) (a b : string) :
  string_forallb f (a ++ b) = string_forallb f a && string_forallb f b.
Proof.
  induction a as [|c a IH]; cbn; [reflexivity|].
  now rewrite IH, andb_assoc.
Qed.

Lemma plain_no_semicolon (s : string) :
  plain s = true ->
  string_forallb (fun c => negb (Ascii.eqb c ";")) s = true.
Proof.
  unfold plain. induction s as [|c s IH]; cbn; [reflexivity|].
  intro H. apply andb_true_iff in H as [Hc Hs].
  rewrite (IH Hs), andb_true_r.
  apply negb_true_iff in Hc. apply orb_false_iff in Hc as [-> _]. reflexivity.
Qed.

Lemma plain_no_equals (s : string) :
  plain s = true ->
  string_forallb (fun c => negb (Ascii.eqb c "=")) s = true.
Proof.
  unfold plain. induction s as [|c s IH]; cbn; [reflexivity|].
  intro H. apply andb_true_iff in H as [Hc Hs].
  rewrite (IH Hs), andb_true_r.
  apply negb_true_iff in Hc. apply orb_false_iff in Hc as [_ ->]. reflexivity.
Qed.

Lemma split_field (k v : string) :
  plain k = true -> plain v = true ->
  str_split "=" (k ++ "=" ++ v) = [k; v].
Proof.
  intros Hk Hv. change (k ++ "=" ++ v) with (k ++ String "=" v).
  rewrite str_split_app by now apply plain_no_equals.
  now rewrite str_split_none by now apply plain_no_equals.
Qed.

Lemma field_no_semicolon (k v : string) :
  plain k = true -> plain v = true ->
  string_forallb (fun c => negb (Ascii.eqb c ";")) (k ++ "=" ++ v) = true.
Proof.
  intros Hk Hv. rewrite forallb_append. cbn.
  now rewrite !plain_no_semicolon.
Qed.

Lemma str_append_nil (s : string) : s ++ "" = s.
Proof. induction s as [|c s IH]; cbn; [reflexivity|now rewrite IH]. Qed.

Lemma str_append_assoc (a b c : string) : (a ++ b) ++ c = a ++ b ++ c.
Proof. induction a as [|x a IH]; cbn; [reflexivity|now rewrite IH]. Qed.

(** The loop of [process_notification] over the parts of a header reads
    the fields that the header was made of. *)
Lemma parse_header_of_fields (fields : list (string * string)) :
  fields <> [] ->
  Forall plain_field fields ->
  forall acc,
    parse_header (str_split ";" (header_of fields)) acc
    = Ok (assoc_merge acc fields).
Proof.
  induction fields as [|[k v] rest IH]; [congruence|].
  intros _ Hall acc. inversion Hall as [|? ? [Hk Hv] Hrest]; subst.
  cbn [fst snd] in Hk, Hv. cbn [header_of].
  destruct rest as [|kv rest].
  - rewrite str_append_nil.
    rewrite str_split_none by now apply field_no_semicolon.
    cbn [parse_header]. now rewrite split_field.
  - replace (k ++ "=" ++ v ++ ";" ++ header_of (kv :: rest))
      with ((k ++ "=" ++ v) ++ String ";" (header_of (kv :: rest)))
      by (now rewrite !str_append_assoc).
    rewrite str_split_app by now apply field_no_semicolon.
    cbn [parse_header]. rewrite split_field by assumption.
    rewrite IH by (assumption || discriminate). reflexivity.
Qed.

(** X5: the header is read back.  For fields with distinct keys, whose keys
    and values hold neither [;] nor [=], splitting the header at [;] and
    each part at [=] gives a dictionary in which every key has the value it
    had in the fields. *)
Theorem signature_header_fields_are_read_back
    (fields : list (string * string)) (k : string) :
  fields <> [] ->
  NoDup (map fst fields) ->
  Forall plain_field fields ->
  exists header_data,
    parse_header (str_split ";" (header_of fields)) [] = Ok header_data
    /\ assoc_get k header_data = assoc_get k fields.
Proof.
  intros Hne Hnd Hall. eexists. split.
  - now apply parse_header_of_fields.
  - rewrite assoc_get_merge by exact Hnd. cbn.
    now destruct (assoc_get k fields).
Qed.

Lemma hex_digit_plain (n : Z) :
  negb (Ascii.eqb (MD5.hex_digit n) ";" || Ascii.eqb (MD5.hex_digit n) "=")
  = true.
Proof.
  unfold MD5.hex_digit.
  set (l := list_ascii_of_string "0123456789abcdef").
  destruct (nth_in_or_default (Z.to_nat n) l "0"%char) as [Hin| ->];
    [|reflexivity].
  revert Hin. generalize (nth (Z.to_nat n) l "0"%char). intros c Hin.
  cbn in Hin.
  repeat (destruct Hin as [<-|Hin]; [reflexivity|]). contradiction.
Qed.

(** A digest in hexadecimal holds neither [;] nor [=]. *)
Lemma hexdigest_plain (data : string) : plain (MD5.hexdigest data) = true.
Proof.
  unfold MD5.hexdigest, plain. generalize (MD5.digest (MD5.bytes_of data)).
  induction l as [|b l IH]; [reflexivity|].
  cbn [MD5.hex string_forallb]. now rewrite !hex_digit_plain, IH.
Qed.

(** ** Notifications, continued *)

Section MoreNotification.

Variable json_loads : string -> option json.
Variable self : Provider.

Ltac run := unfold bind, try_except, lift, ret, raise, gets, modify, loads.

(** X6: the check accepts what the gateway signs.  When the header is made
    of fields with distinct keys that hold neither [;] nor [=], its
    signature is the MD5 digest of the body followed by the second key and
    its algorithm is MD5, the request is verified, whatever other fields the
    header carries and in whatever order. *)
Theorem header_signed_with_the_second_key_is_verified
    (request : HttpRequest) (fields : list (string * string)) :
  assoc_get "HTTP_OPENPAYU_SIGNATURE" (META request)
    = Some (header_of fields) ->
  NoDup (map fst fields) ->
  Forall plain_field fields ->
  assoc_get "signature" fields
    = Some (MD5.hexdigest (body request ++ second_key self)) ->
  assoc_get "algorithm" fields = Some "MD5" ->
  signature_ok self request = true.
Proof.
  intros Hh Hnd Hall Hsig Halg.
  assert (Hne : fields <> []) by (intros ->; discriminate).
  unfold signature_ok, signature_header, str_getitem. rewrite Hh.
  cbn [rbind]. rewrite (parse_header_of_fields fields Hne Hall).
  cbn [rbind]. rewrite !assoc_get_merge by exact Hnd.
  rewrite Hsig, Halg. cbn [rbind]. now rewrite !String.eqb_refl.
Qed.

Lemma kept_refl (p : Payment) : kept_by_notifications p p.
Proof. repeat split. Qed.

(** Both branches answer ok or raise, and leave [extra_data] and the fields
    that identify the payment as they were. *)
Lemma process_refund_frame (data : json) (p : Payment) :
  let run := process_refund data p in
  extra_data (snd run) = extra_data p
  /\ kept_by_notifications p (snd run)
  /\ (forall r, fst run = Ok r -> r = mkHttpResponse "ok" 200).
Proof.
  cbn zeta. unfold process_refund. run.
  destruct (_ <- py_getitem data "refund" ;; _)%res as [refunded|];
    [|cbn; auto using kept_refl; repeat split; discriminate].
  destruct (_ <- py_getitem data "refund" ;; _)%res as [st|];
    [|cbn; repeat split; discriminate].
  destruct (json_is_str st "FINALIZED");
    [|cbn; repeat split; discriminate].
  destruct (_ <- py_getitem data "refund" ;; _)%res as [m|];
    [|cbn; repeat split; discriminate].
  cbn [captured_amount set_message].
  unfold change_status, save. run.
  destruct (Dec.geb refunded (captured_amount p)); cbn; repeat split;
    intros r H; inversion H; reflexivity.
Qed.

Lemma process_order_frame (data : json) (p : Payment) :
  let run := process_order data p in
  extra_data (snd run) = extra_data p
  /\ kept_by_notifications p (snd run)
  /\ (forall r, fst run = Ok r -> r = mkHttpResponse "ok" 200).
Proof.
  cbn zeta. unfold process_order. run.
  destruct (_ <- py_getitem data "order" ;; _)%res as [st|];
    [|cbn; repeat split; discriminate].
  unfold change_status, save. run.
  destruct (PaymentStatus_eqb st CONFIRMED).
  - destruct (_ <- py_getitem data "order" ;; _)%res as [[|]|];
      [| |cbn; repeat split; discriminate].
    + destruct (_ <- py_getitem data "order" ;; _)%res as [amount|];
        [|cbn; repeat split; discriminate].
      cbn; repeat split; intros r H; inversion H; reflexivity.
    + cbn; repeat split; intros r H; inversion H; reflexivity.
  - cbn; repeat split; intros r H; inversion H; reflexivity.
Qed.

Lemma reconcile_frame (data : json) (p : Payment) :
  let run := reconcile data p in
  extra_data (snd run) = extra_data p
  /\ kept_by_notifications p (snd run)
  /\ (forall r, fst run = Ok r -> r = mkHttpResponse "ok" 200).
Proof.
  cbn zeta. unfold reconcile. run.
  destruct (py_contains "refund" data) as [[|]|].
  - apply process_refund_frame.
  - apply process_order_frame.
  - cbn. repeat split. discriminate.
Qed.

(** The three ways of a notification: not verified, verified, or no
    JSON. *)
Lemma process_notification_cases (request : HttpRequest) (p : Payment) :
  (signature_ok self request = false
   /\ snd (process_notification json_loads self request p) = p
   /\ forall r, fst (process_notification json_loads self request p) = Ok r ->
                r = mkHttpResponse "not ok" 500)
  \/ (signature_ok self request = true
      /\ exists data,
           json_loads (body request) = Some data
           /\ process_notification json_loads self request p
              = (add_new_status data ;; reconcile data)%prog p)
  \/ (json_loads (body request) = None
      /\ process_notification json_loads self request p
         = (Raise JSONDecodeError, p)).
Proof.
  destruct (json_loads (body request)) as [data|] eqn:Hd.
  2:{ right. right. split; [reflexivity|].
      unfold process_notification. run. now rewrite Hd. }
  destruct (signature_ok self request) eqn:Hs.
  - right. left. split; [reflexivity|]. exists data. split; [reflexivity|].
    destruct (verified_header self _ Hs) as [sig [alg [Hh Hv]]].
    rewrite (process_notification_header json_loads self _ p _ _ _ Hd Hh), Hv.
    reflexivity.
  - left. split; [reflexivity|].
    split; [now apply unverified_notification_frame|].
    unfold signature_ok in Hs.
    destruct (signature_header request) as [[sig alg]|e] eqn:Hh.
    + rewrite (process_notification_header json_loads self _ p _ _ _ Hd Hh), Hs.
      cbn. intros r H. now inversion H.
    + unfold signature_header in Hh.
      unfold process_notification. run. rewrite Hd.
      destruct (str_getitem (META request) "HTTP_OPENPAYU_SIGNATURE")
        as [header|e1]; [|destruct e1; cbn; discriminate].
      cbn [rbind] in Hh.
      destruct (parse_header (str_split ";" header) []) as [hd|];
        [|cbn; discriminate].
      cbn [rbind] in Hh.
      destruct (str_getitem hd "signature") as [sg|]; [|cbn; discriminate].
      cbn [rbind] in Hh.
      destruct (str_getitem hd "algorithm") as [al|]; [|cbn; discriminate].
      discriminate.
Qed.

(** X7: the two answers.  When [process_notification] returns a response,
    either the request is verified and the response is ok with status 200,
    or it is not verified, the response is not ok with status 500 and the
    payment is as it was. *)
Theorem notification_answers (request : HttpRequest) (p : Payment)
    (r : HttpResponse) :
  fst (process_notification json_loads self request p) = Ok r ->
  (signature_ok self request = true /\ r = mkHttpResponse "ok" 200)
  \/ (signature_ok self request = false
      /\ r = mkHttpResponse "not ok" 500
      /\ snd (process_notification json_loads self request p) = p).
Proof.
  intro H.
  destruct (process_notification_cases request p)
    as [[Hs [Hp Hr]]|[[Hs [data [Hd Hrun]]]|[Hd Hrun]]].
  - right. split; [exact Hs|]. split; [now apply Hr|exact Hp].
  - left. split; [exact Hs|]. rewrite Hrun in H. unfold bind in H.
    destruct (add_new_status data p) as [[[]|e] p1]; [|discriminate].
    now apply (reconcile_frame data p1).
  - rewrite Hrun in H. discriminate.
Qed.

(** X8: whatever the request and whatever the outcome, a notification
    leaves the identifier, the fraud status, the total, the currency, the
    transaction identifier, the renew token, the pay link and the payment
    address of the payment as they were. *)
Theorem notification_keeps_the_identity_of_the_payment
    (request : HttpRequest) (p : Payment) :
  let p' := snd (process_notification json_loads self request p) in
  id p' = id p
  /\ fraud_status p' = fraud_status p
  /\ total p' = total p
  /\ currency p' = currency p
  /\ transaction_id p' = transaction_id p
  /\ renew_token p' = renew_token p
  /\ pay_link p' = pay_link p
  /\ payment_url p' = payment_url p.
Proof.
  cbn zeta.
  destruct (process_notification_cases request p)
    as [[Hs [Hp Hr]]|[[Hs [data [Hd Hrun]]]|[Hd Hrun]]].
  - rewrite Hp. repeat split.
  - rewrite Hrun. unfold bind.
    destruct (journal_ok "statuses" p) eqn:Hj.
    + destruct (add_new_status_appends data p Hj) as [entries [-> _]].
      destruct (reconcile_frame data (set_extra_data entries p))
        as [_ [Hk _]].
      exact Hk.
    + rewrite (add_new_status_not_a_list data p Hj). repeat split.
  - rewrite Hrun. repeat split.
Qed.

(** A verified notification goes to the journal first. *)
Lemma verified_notification_journal (request : HttpRequest) (p : Payment)
    (data : json) :
  json_loads (body request) = Some data ->
  signature_ok self request = true ->
  journal_ok "statuses" p = true ->
  exists entries,
    process_notification json_loads self request p
      = reconcile data (set_extra_data entries p)
    /\ assoc_get "statuses" entries
       = Some (JArr (journal "statuses" p ++ [data]))
    /\ forall k, String.eqb k "statuses" = false ->
                 assoc_get k entries = assoc_get k (extra_data p).
Proof.
  intros Hd Hs Hj.
  destruct (process_notification_cases request p)
    as [[Hs' _]|[[_ [data' [Hd' Hrun]]]|[Hd' _]]]; try congruence.
  assert (data' = data) by congruence. subst data'.
  destruct (add_new_status_appends data p Hj) as [entries [Hadd [L O]]].
  exists entries. rewrite Hrun. unfold bind at 1. rewrite Hadd.
  split; [reflexivity|]. split; assumption.
Qed.

(** X9: a verified notification is in the journal afterwards, whether it
    was then accepted or raised: the list under [statuses] has the decoded
    body as its last entry and the other keys of [extra_data] are as they
    were. *)
Theorem verified_notification_is_journaled_whatever_follows
    (request : HttpRequest) (p : Payment) (data : json) :
  json_loads (body request) = Some data ->
  signature_ok self request = true ->
  journal_ok "statuses" p = true ->
  let p' := snd (process_notification json_loads self request p) in
  journal "statuses" p' = (journal "statuses" p ++ [data])%list
  /\ forall k, String.eqb k "statuses" = false ->
               assoc_get k (extra_data p') = assoc_get k (extra_data p).
Proof.
  intros Hd Hs Hj. cbn zeta.
  destruct (verified_notification_journal request p data Hd Hs Hj)
    as [entries [-> [L O]]].
  destruct (reconcile_frame data (set_extra_data entries p)) as [He _].
  unfold journal at 1. rewrite He. cbn [extra_data set_extra_data].
  rewrite L. split; [reflexivity|exact O].
Qed.

Lemma reconcile_refund_finalized (data : json) (p : Payment)
      (refunded : Decimal) (reason msg : string) :
  refund_amount_of data = Ok refunded ->
  refund_field_of "status" data = Ok (JStr "FINALIZED") ->
  refund_field_of "reasonDescription" data = Ok (JStr reason) ->
  message p = JStr msg ->
  reconcile data p =
    (Ok (mkHttpResponse "ok" 200),
     if Dec.geb refunded (captured_amount p)
     then moved_to REFUNDED (captured_amount p) (extra_data p) p
     else set_captured_amount (Dec.sub (captured_amount p) refunded)
            (set_message (JStr (msg ++ reason)) p)).
Proof.
  intros Ha Hst Hr Hm. unfold reconcile.
  unfold bind at 1, lift at 1.
  rewrite (refund_field_contains _ _ _ Hst).
  now apply process_refund_finalized.
Qed.

(** X10: a notification is applied each time it is delivered.  When a
    verified FINALIZED refund below [captured_amount] is delivered twice,
    both deliveries are answered ok; the first subtracts it from
    [captured_amount], appends its reason to the message and keeps the
    status, and the second is applied to what is left: a refund still
    below it is subtracted again and its reason appended again, with the
    status kept, and a refund that is not moves the payment to REFUNDED
    with an empty message and leaves what is left in [captured_amount]. *)
Theorem partial_refund_delivered_twice_is_applied_twice
    (request : HttpRequest) (p : Payment) (data : json)
    (refunded : Decimal) (reason msg : string) :
  json_loads (body request) = Some data ->
  signature_ok self request = true ->
  journal_ok "statuses" p = true ->
  message p = JStr msg ->
  refund_amount_of data = Ok refunded ->
  refund_field_of "status" data = Ok (JStr "FINALIZED") ->
  refund_field_of "reasonDescription" data = Ok (JStr reason) ->
  Dec.geb refunded (captured_amount p) = false ->
  exists p1 p2,
    process_notification json_loads self request p
      = (Ok (mkHttpResponse "ok" 200), p1)
    /\ process_notification json_loads self request p1
       = (Ok (mkHttpResponse "ok" 200), p2)
    /\ captured_amount p1 = Dec.sub (captured_amount p) refunded
    /\ message p1 = JStr (msg ++ reason)
    /\ status p1 = status p
    /\ if Dec.geb refunded (Dec.sub (captured_amount p) refunded)
       then status p2 = REFUNDED
            /\ captured_amount p2 = Dec.sub (captured_amount p) refunded
            /\ message p2 = JStr ""
       else status p2 = status p
            /\ captured_amount p2
               = Dec.sub (Dec.sub (captured_amount p) refunded) refunded
            /\ message p2 = JStr (msg ++ reason ++ reason).
Proof.
  intros Hd Hs Hj Hm Ha Hst Hr Hlt1.
  destruct (verified_notification_journal request p data Hd Hs Hj)
    as [e1 [Hrun1 [L1 _]]].
  rewrite (reconcile_refund_finalized data (set_extra_data e1 p) refunded
             reason msg Ha Hst Hr Hm) in Hrun1.
  cbn [captured_amount set_extra_data] in Hrun1. rewrite Hlt1 in Hrun1.
  match type of Hrun1 with _ = (_, ?q) => set (p1 := q) in * end.
  assert (Hj1 : journal_ok "statuses" p1 = true).
  { apply (journal_ok_of_list "statuses" p1 _ L1). }
  destruct (verified_notification_journal request p1 data Hd Hs Hj1)
    as [e2 [Hrun2 _]].
  rewrite (reconcile_refund_finalized data (set_extra_data e2 p1) refunded
             reason (msg ++ reason) Ha Hst Hr eq_refl) in Hrun2.
  cbn [captured_amount set_extra_data p1 set_captured_amount] in Hrun2.
  exists p1. eexists. split; [exact Hrun1|]. split; [exact Hrun2|].
  split; [reflexivity|]. split; [reflexivity|]. split; [reflexivity|].
  destruct (Dec.geb refunded (Dec.sub (captured_amount p) refunded)).
  - repeat split.
  - repeat split. cbn [message set_captured_amount set_message].
    f_equal. apply str_append_assoc.
Qed.

(** Run on a payment that it has moved already, [process_order] finds
    nothing left to change. *)
Lemma process_order_idempotent (data : json) (p p1 : Payment)
      (r : HttpResponse) :
  process_order data p = (Ok r, p1) ->
  forall entries,
    process_order data (set_extra_data entries p1)
    = (Ok r, set_extra_data entries p1).
Proof.
  unfold process_order. run.
  destruct (_ <- py_getitem data "order" ;; _)%res as [st|];
    [|discriminate].
  unfold change_status, save. run.
  destruct (PaymentStatus_eqb st CONFIRMED).
  - destruct (_ <- py_getitem data "order" ;; _)%res as [[|]|];
      [| |discriminate].
    + destruct (_ <- py_getitem data "order" ;; _)%res as [amount|];
        [|discriminate].
      intros H entries. inversion H; subst. reflexivity.
    + intros H entries. inversion H; subst. reflexivity.
  - intros H entries. inversion H; subst. reflexivity.
Qed.

(** X11: a verified order notification that was accepted is accepted again
    with the same answer, and the second delivery changes nothing but the
    journal, which gets the notification once more. *)
Theorem order_notification_delivered_twice_changes_the_journal_only
    (request : HttpRequest) (p p1 : Payment) (data : json)
    (r : HttpResponse) :
  json_loads (body request) = Some data ->
  signature_ok self request = true ->
  journal_ok "statuses" p = true ->
  py_contains "refund" data = Ok false ->
  process_notification json_loads self request p = (Ok r, p1) ->
  exists entries,
    process_notification json_loads self request p1
      = (Ok r, set_extra_data entries p1)
    /\ assoc_get "statuses" entries
       = Some (JArr (journal "statuses" p1 ++ [data])).
Proof.
  intros Hd Hs Hj Hc Hrun.
  destruct (verified_notification_journal request p data Hd Hs Hj)
    as [e1 [Hrun1 [L1 _]]].
  rewrite Hrun in Hrun1. unfold reconcile in Hrun1.
  unfold bind at 1, lift at 1 in Hrun1. rewrite Hc in Hrun1.
  symmetry in Hrun1.
  pose proof (process_order_frame data (set_extra_data e1 p)) as [He _].
  rewrite Hrun1 in He. cbn [snd extra_data set_extra_data] in He.
  assert (Hj1 : journal_ok "statuses" p1 = true).
  { apply (journal_ok_of_list "statuses" p1 (journal "statuses" p ++ [data])).
    now rewrite He. }
  destruct (verified_notification_journal request p1 data Hd Hs Hj1)
    as [e2 [Hrun2 [L2 _]]].
  exists e2. split; [|exact L2].
  rewrite Hrun2. unfold reconcile. unfold bind at 1, lift at 1. rewrite Hc.
  exact (process_order_idempotent data _ _ _ Hrun1 e2).
Qed.

End MoreNotification.

(** ** The access-token retry loop, continued *)

Lemma py_range_cons (a b : Z) :
  a < b -> py_range a b = a :: py_range (a + 1) b.
Proof.
  intro H. unfold py_range.
  replace (Z.to_nat (b - a)) with (S (Z.to_nat (b - (a + 1)))) by lia.
  cbn [seq map]. f_equal; [lia|].
  rewrite <- seq_shift, map_map. apply map_ext. intro i. lia.
Qed.

Section MoreGateway.

Variable json_loads : string -> option json.
Variable gateway : list Sent -> Sent -> string.
Variable self : Provider.

Ltac run := unfold bind, try_except, lift, ret, raise, gets, modify, loads.

(** X12: when the first answer is JSON and does not refuse the token,
    [post_request] (with [retry_count] above 1) returns it after this one
    request, and the token is kept. *)
Theorem post_request_returns_an_authorized_answer
    (url : string) (data response_dict : json) (w : World) :
  1 < retry_count self ->
  json_loads (gateway (w_sent w) (order_request url (w_token w) data))
    = Some response_dict ->
  is_unauthorized response_dict = Ok false ->
  post_request json_loads gateway self url data w
  = (Ok response_dict,
     mkWorld (w_token w) (order_request url (w_token w) data :: w_sent w)
             (w_payment w)).
Proof.
  intros Hn Hr Hu. unfold order_request in *.
  unfold post_request. rewrite py_range_cons by lia.
  cbn [post_request_loop]. unfold get_token_headers, requests_post. run.
  cbn [fst snd]. rewrite Hr, Hu. reflexivity.
Qed.

(** X13: when the first answer refuses the token, the token endpoint grants
    a new one and the answer to the second request does not refuse it,
    [post_request] (with [retry_count] above 2) returns the second answer
    after three requests; the second request carries the new token, and the
    new token is kept. *)
Theorem post_request_retries_with_a_new_token
    (url : string) (data refusal grant token response_dict : json)
    (w : World) :
  2 < retry_count self ->
  let first := order_request url (w_token w) data in
  let second := order_request url token data in
  json_loads (gateway (w_sent w) first) = Some refusal ->
  is_unauthorized refusal = Ok true ->
  json_loads (gateway (first :: w_sent w) (token_request self)) = Some grant ->
  py_getitem grant "access_token" = Ok token ->
  json_loads (gateway (token_request self :: first :: w_sent w) second)
    = Some response_dict ->
  is_unauthorized response_dict = Ok false ->
  post_request json_loads gateway self url data w
  = (Ok response_dict,
     mkWorld token (second :: token_request self :: first :: w_sent w)
             (w_payment w)).
Proof.
  intros Hn first second Hr1 Hu1 Hg Ht Hr2 Hu2.
  subst first second. unfold order_request, token_request in *.
  unfold post_request.
  rewrite py_range_cons by lia. rewrite py_range_cons by lia.
  cbn [post_request_loop]. unfold get_token_headers, requests_post. run.
  cbn [fst snd]. rewrite Hr1, Hu1.
  unfold get_access_token, requests_post. run. cbn [fst snd w_sent app].
  rewrite Hg, Ht.
  cbn [w_token w_sent set_w_token]. rewrite Hr2, Hu2.
  reflexivity.
Qed.

(** X14: when the first answer refuses the token and the token endpoint
    answers with a text that is no JSON, or with a dictionary without
    [access_token], [post_request] raises a [PayuApiError] after these two
    requests, without a second attempt, and the old token is kept. *)
Theorem post_request_gives_up_when_no_token_is_granted
    (url : string) (data refusal : json) (w : World) :
  1 < retry_count self ->
  let first := order_request url (w_token w) data in
  json_loads (gateway (w_sent w) first) = Some refusal ->
  is_unauthorized refusal = Ok true ->
  match json_loads (gateway (first :: w_sent w) (token_request self)) with
  | None => True
  | Some grant =>
      exists key, py_getitem grant "access_token" = Raise (KeyError key)
  end ->
  post_request json_loads gateway self url data w
  = (Raise (PayuApiError
              (JStr "Unable to regain authorization token {e}")),
     mkWorld (w_token w) (token_request self :: first :: w_sent w)
             (w_payment w)).
Proof.
  intros Hn first Hr1 Hu1 Hg.
  subst first. unfold order_request, token_request in *.
  unfold post_request.
  rewrite py_range_cons by lia.
  cbn [post_request_loop]. unfold get_token_headers, requests_post. run.
  cbn [fst snd]. rewrite Hr1, Hu1.
  unfold get_access_token, requests_post. run. cbn [fst snd w_sent app].
  match type of Hg with
  | match ?t with _ => _ end => destruct t as [grant|]; [|reflexivity]
  end.
  destruct Hg as [key ->]. reflexivity.
Qed.

End MoreGateway.

(** ** Order creation, continued *)

Lemma py_contains_missing (v : json) (k : string) (e : exn) (x : json) :
  py_getitem v "orderId" = Ok x ->
  py_getitem v k = Raise e -> py_contains k v = Ok false.
Proof.
  destruct v; try discriminate. cbn [py_getitem py_contains].
  unfold assoc_mem. intros _.
  destruct (assoc_get k members); [discriminate|reflexivity].
Qed.

Lemma quantize_price_unsupported (x : Decimal) (cur : string) :
  supported cur = false ->
  quantize_price x cur = Raise (KeyError (JStr cur)).
Proof.
  unfold supported, assoc_mem, quantize_price, currency_sub_unit.
  destruct (assoc_get cur CURRENCY_SUB_UNIT); [discriminate|reflexivity].
Qed.

(** No order document can be built for a currency without sub-unit, even
    for an empty order. *)
Lemma as_json_unsupported (pp : PaymentProcessor) :
  supported (pp_currency pp) = false ->
  as_json pp = Raise (KeyError (JStr (pp_currency pp))).
Proof.
  intro H. unfold as_json.
  destruct (pp_order pp) as [|item rest]; cbn [get_order_items rbind].
  - now rewrite quantize_price_unsupported.
  - unfold order_item. now rewrite quantize_price_unsupported.
Qed.

Section MoreCreateOrder.

Variable json_loads : string -> option json.
Variable gateway : list Sent -> Sent -> string.
Variable self : Provider.

Ltac run := unfold bind, try_except, lift, ret, raise, gets, modify, loads.

(** Runs the [try] block up to the test of the status code. *)
Ltac record_order Hid Hcard Hcode :=
  unfold create_order_try; run; rewrite Hid;
  unfold card_of in Hcard; unfold status_code_of in Hcode;
  destruct (py_contains "payMethods" _) as [[|]|];
    [| |discriminate]; cbn [rbind] in Hcard;
  [ destruct (renew_token_of self _) as [tok|]; [|discriminate];
    cbn [rbind] in Hcard
  | ];
  inversion Hcard; subst; clear Hcard;
  unfold add_extra_data, save; run; rewrite Hcode.

(** X19: for a processor whose currency has no sub-unit [create_order]
    raises a [KeyError] before anything is sent: the requests, the token and
    the payment are as they were. *)
Theorem create_order_in_an_unsupported_currency_sends_nothing
    (payment_processor : PaymentProcessor) (auto_renew : bool) (w : World) :
  supported (pp_currency payment_processor) = false ->
  create_order json_loads gateway self payment_processor auto_renew w
  = (Raise (KeyError (JStr (pp_currency payment_processor))), w).
Proof.
  intro H. unfold create_order. run.
  rewrite as_json_unsupported by exact H. reflexivity.
Qed.

Section Answered.

(** The order document is built and [post_request] returns
    [response_dict], leaving the world [w1]. *)
Variable payment_processor : PaymentProcessor.
Variable auto_renew : bool.
Variables w w1 : World.
Variables json_data response_dict : json.

Hypothesis document :
  as_json (set_pp_pos_id (JStr (pos_id self)) payment_processor)
  = Ok json_data.
Hypothesis answer :
  post_request json_loads gateway self (payu_api_orders_url self) json_data w
  = (Ok response_dict, w1).

Lemma answered_payment : w_payment w1 = w_payment w.
Proof.
  pose proof (post_request_payment json_loads gateway self
                (payu_api_orders_url self) json_data w) as Hframe.
  now rewrite answer in Hframe.
Qed.

Lemma create_order_answered :
  create_order json_loads gateway self payment_processor auto_renew w
  = (returned <-
       on_payment
         (try_except
            (create_order_try self
               (set_pp_pos_id (JStr (pos_id self)) payment_processor)
               auto_renew response_dict)
            (fun e => match e with
                      | KeyError _ => Some (ret None)
                      | _ => None
                      end)) ;;
     match returned with
     | Some url => ret url
     | None =>
         on_payment
           (create_order_failed
              (set_pp_pos_id (JStr (pos_id self)) payment_processor)
              response_dict)
     end)%prog w1.
Proof.
  unfold create_order. unfold bind at 1, lift at 1. rewrite document.
  unfold bind at 1. rewrite answer. reflexivity.
Qed.

(** X15: an order that the gateway accepts.  When the response has an
    [orderId], a card that can be read if it names one, and the status code
    SUCCESS, the payment gets the order identifier, the card and the
    response in [extra_data], and its status is kept; with a [redirectUri]
    the result is that address, which is also kept as [pay_link]; without
    one the result is [success] for an automatic renewal and the
    [continueUrl] of the processor otherwise (an [AttributeError] when it
    has none). *)
Theorem create_order_accepted
    (order_id : json) (card : option RenewToken) :
  py_getitem response_dict "orderId" = Ok order_id ->
  card_of self response_dict = Ok card ->
  status_code_of response_dict = Ok (JStr "SUCCESS") ->
  let recorded := order_recorded order_id card response_dict (w_payment w) in
  status recorded = status (w_payment w)
  /\ match py_getitem response_dict "redirectUri" with
     | Ok redirectUri =>
         create_order json_loads gateway self payment_processor auto_renew w
         = (Ok redirectUri,
            set_w_payment (set_pay_link redirectUri recorded) w1)
     | Raise _ =>
         create_order json_loads gateway self payment_processor auto_renew w
         = (if auto_renew then Ok (JStr "success")
            else match pp_continueUrl payment_processor with
                 | Some continueUrl => Ok (JStr continueUrl)
                 | None => Raise AttributeError
                 end,
            set_w_payment recorded w1)
     end.
Proof.
  intros Hid Hcard Hcode recorded. subst recorded.
  split; [destruct card; reflexivity|].
  destruct (py_getitem response_dict "redirectUri") as [redirectUri|e]
    eqn:Huri.
  - rewrite create_order_answered. rewrite <- answered_payment.
    unfold bind at 1, on_payment, zoom, try_except.
    record_order Hid Hcard Hcode;
      cbn [json_is_str String.eqb Ascii.eqb Bool.eqb];
      rewrite (py_contains_of_getitem _ _ _ Huri), Huri; reflexivity.
  - pose proof (py_contains_missing _ _ _ _ Hid Huri) as Hno.
    rewrite create_order_answered. rewrite <- answered_payment.
    unfold bind at 1, on_payment, zoom, try_except.
    record_order Hid Hcard Hcode;
      cbn [json_is_str String.eqb Ascii.eqb Bool.eqb];
      rewrite Hno; destruct auto_renew; try reflexivity;
      cbn [pp_continueUrl set_pp_pos_id];
      destruct (pp_continueUrl payment_processor); reflexivity.
Qed.

(** X16: an order that needs the card holder.  With the status code
    WARNING_CONTINUE_CVV the [redirectUri] of the response is kept under
    [cvv_url] and the result is the address of the payment; with
    WARNING_CONTINUE_3DS it is kept under [3ds_url] and is the result. *)
Theorem create_order_continues_with_the_card_holder
    (order_id redirectUri : json) (card : option RenewToken) :
  py_getitem response_dict "orderId" = Ok order_id ->
  card_of self response_dict = Ok card ->
  py_getitem response_dict "redirectUri" = Ok redirectUri ->
  let recorded := order_recorded order_id card response_dict (w_payment w) in
  (status_code_of response_dict = Ok (JStr "WARNING_CONTINUE_CVV") ->
   create_order json_loads gateway self payment_processor auto_renew w
   = (Ok (JStr (payment_url (w_payment w))),
      set_w_payment
        (set_extra_data
           (assoc_merge (extra_data recorded) [("cvv_url", redirectUri)])
           recorded) w1))
  /\ (status_code_of response_dict = Ok (JStr "WARNING_CONTINUE_3DS") ->
      create_order json_loads gateway self payment_processor auto_renew w
      = (Ok redirectUri,
         set_w_payment
           (set_extra_data
              (assoc_merge (extra_data recorded) [("3ds_url", redirectUri)])
              recorded) w1)).
Proof.
  intros Hid Hcard Huri recorded. subst recorded.
  split; intro Hcode; rewrite create_order_answered;
    rewrite <- answered_payment;
    unfold bind at 1, on_payment, zoom, try_except;
    record_order Hid Hcard Hcode;
    cbn [json_is_str String.eqb Ascii.eqb Bool.eqb];
    rewrite Huri; reflexivity.
Qed.

(** For a status code that is none of the three, the [try] block ends
    without a result, and without touching the two statuses. *)
Lemma create_order_try_refused (p : Payment) (code : json) :
  status_code_of response_dict = Ok code ->
  refused code = true ->
  renew_token_of self response_dict <> Raise TypeError ->
  exists p',
    try_except
      (create_order_try self
         (set_pp_pos_id (JStr (pos_id self)) payment_processor)
         auto_renew response_dict)
      (fun e => match e with
                | KeyError _ => Some (ret None)
                | _ => None
                end) p = (Ok None, p')
    /\ status p' = status p
    /\ fraud_status p' = fraud_status p.
Proof.
  intros Hcode Href Hshape. unfold refused in Href.
  apply negb_true_iff in Href.
  apply orb_false_iff in Href as [Href H3].
  apply orb_false_iff in Href as [H1 H2].
  destruct (status_code_is_dict _ _ Hcode) as [members [-> Hmem]].
  unfold create_order_try. run.
  cbn [py_getitem py_contains].
  destruct (assoc_get "orderId" members) as [orderId|];
    [|eexists; repeat split; reflexivity].
  destruct (assoc_mem "payMethods" members).
  - destruct (renew_token_of self (JObj members)) as [tok|e] eqn:E.
    + unfold add_extra_data, save. run. unfold status_code_of in Hcode.
      cbn [py_getitem] in Hcode. rewrite Hcode, H1, H2, H3.
      cbn. eexists; repeat split; reflexivity.
    + destruct (renew_token_of_error _ _ _ E) as [->|[j ->]];
        [contradiction|eexists; repeat split; reflexivity].
  - unfold add_extra_data, save. run. unfold status_code_of in Hcode.
    cbn [py_getitem] in Hcode. rewrite Hcode, H1, H2, H3.
    cbn. eexists; repeat split; reflexivity.
Qed.

Lemma create_order_failed_error (p : Payment) (code : json) :
  status_code_of response_dict = Ok code ->
  json_is_str code "ERROR_ORDER_NOT_UNIQUE"
  && PaymentStatus_eqb (status p) CONFIRMED = false ->
  exists p',
    create_order_failed
      (set_pp_pos_id (JStr (pos_id self)) payment_processor)
      response_dict p
    = (match code_literal_of response_dict with
       | Ok _ =>
           match pp_failureUrl payment_processor with
           | Some failureUrl => Ok (JStr failureUrl)
           | None => Raise AttributeError
           end
       | Raise e => Raise e
       end, p')
    /\ status p' = ERROR
    /\ fraud_status p'
       = if json_is_str code "BUSINESS_ERROR" then REJECT else fraud_status p.
Proof.
  intros Hcode Hnot.
  destruct (status_code_is_dict _ _ Hcode) as [members [-> Hmem]].
  unfold create_order_failed, code_literal_of. run.
  cbn [py_contains]. rewrite Hmem, Hcode.
  cbn [as_mapping].
  unfold add_extra_data, change_fraud_status, change_status, save. run.
  destruct (json_is_str code "BUSINESS_ERROR");
    cbn [status set_extra_data set_message set_fraud_status];
    rewrite Hnot;
    destruct (_ <- py_getitem (JObj members) "status" ;; _)%res;
    cbn [pp_failureUrl set_pp_pos_id];
    try destruct (pp_failureUrl payment_processor);
    eexists; repeat split; reflexivity.
Qed.

(** An order that the gateway refuses, unless it is the duplicate of a
    confirmed one, puts the payment in ERROR. *)
Lemma create_order_refused (code : json) :
  status_code_of response_dict = Ok code ->
  refused code = true ->
  renew_token_of self response_dict <> Raise TypeError ->
  json_is_str code "ERROR_ORDER_NOT_UNIQUE"
  && PaymentStatus_eqb (status (w_payment w)) CONFIRMED = false ->
  exists w',
    create_order json_loads gateway self payment_processor auto_renew w
    = (match code_literal_of response_dict with
       | Ok _ =>
           match pp_failureUrl payment_processor with
           | Some failureUrl => Ok (JStr failureUrl)
           | None => Raise AttributeError
           end
       | Raise e => Raise e
       end, w')
    /\ status (w_payment w') = ERROR
    /\ fraud_status (w_payment w')
       = if json_is_str code "BUSINESS_ERROR" then REJECT
         else fraud_status (w_payment w).
Proof.
  intros Hcode Href Hshape Hnot. rewrite create_order_answered.
  unfold bind at 1, on_payment, zoom.
  destruct (create_order_try_refused (w_payment w1) code Hcode Href Hshape)
    as [p1 [Htry [Hs1 Hf1]]].
  rewrite Htry. cbn [w_payment set_w_payment].
  rewrite answered_payment in Hs1, Hf1.
  destruct (create_order_failed_error p1 code Hcode) as [p2 [Hfail [Hs2 Hf2]]].
  { now rewrite Hs1. }
  rewrite Hfail. eexists. split; [reflexivity|].
  cbn [w_payment set_w_payment snd]. split; [exact Hs2|].
  now rewrite Hf2, Hf1.
Qed.

(** X17: an order that the gateway refuses.  When the status code of the
    response is none of SUCCESS, WARNING_CONTINUE_CVV and
    WARNING_CONTINUE_3DS, the status has a [codeLiteral] and the payment is
    not the confirmed one of a duplicate order, the payment moves to ERROR,
    its fraud status becomes REJECT exactly for a BUSINESS_ERROR, and the
    result is the [failureUrl] of the processor. *)
Theorem create_order_refused_gives_the_failure_url
    (code literal : json) (failureUrl : string) :
  status_code_of response_dict = Ok code ->
  refused code = true ->
  renew_token_of self response_dict <> Raise TypeError ->
  json_is_str code "ERROR_ORDER_NOT_UNIQUE"
  && PaymentStatus_eqb (status (w_payment w)) CONFIRMED = false ->
  code_literal_of response_dict = Ok literal ->
  pp_failureUrl payment_processor = Some failureUrl ->
  exists w',
    create_order json_loads gateway self payment_processor auto_renew w
    = (Ok (JStr failureUrl), w')
    /\ status (w_payment w') = ERROR
    /\ fraud_status (w_payment w')
       = if json_is_str code "BUSINESS_ERROR" then REJECT
         else fraud_status (w_payment w).
Proof.
  intros Hcode Href Hshape Hnot Hlit Hurl.
  destruct (create_order_refused code Hcode Href Hshape Hnot) as [w' [Hrun H]].
  rewrite Hlit, Hurl in Hrun. exists w'. split; assumption.
Qed.

(** X18: the same refusal when the status of the response has no
    [codeLiteral]: the payment moves to ERROR, and then the [KeyError]
    raised while the log message is built escapes from [create_order]; no
    [failureUrl] is returned. *)
Theorem create_order_refused_without_code_literal
    (code status_dict : json) :
  py_getitem response_dict "status" = Ok status_dict ->
  py_getitem status_dict "statusCode" = Ok code ->
  py_contains "codeLiteral" status_dict = Ok false ->
  refused code = true ->
  renew_token_of self response_dict <> Raise TypeError ->
  json_is_str code "ERROR_ORDER_NOT_UNIQUE"
  && PaymentStatus_eqb (status (w_payment w)) CONFIRMED = false ->
  exists w',
    create_order json_loads gateway self payment_processor auto_renew w
    = (Raise (KeyError (JStr "codeLiteral")), w')
    /\ status (w_payment w') = ERROR.
Proof.
  intros Hst Hc Hno Href Hshape Hnot.
  assert (Hcode : status_code_of response_dict = Ok code).
  { unfold status_code_of. now rewrite Hst. }
  destruct (create_order_refused code Hcode Href Hshape Hnot)
    as [w' [Hrun [Hs _]]].
  exists w'. split; [|exact Hs]. rewrite Hrun. unfold code_literal_of.
  rewrite Hst. cbn [rbind].
  destruct status_dict; try discriminate. cbn [py_contains py_getitem] in *.
  unfold assoc_mem in Hno.
  destruct (assoc_get "codeLiteral" members); [discriminate|reflexivity].
Qed.

End Answered.

End MoreCreateOrder.

(** ** Refunds, continued *)

Section MoreRefund.

Variable json_loads : string -> option json.
Variable urljoin : string -> string -> string.
Variable gateway : list Sent -> Sent -> string.
Variable self : Provider.

Ltac run := unfold bind, try_except, lift, ret, raise, gets, modify, loads.

(** X20: whatever it returns or raises, [refund] leaves the payment as it
    was but for [extra_data]: the status and the amounts wait for the
    notification. *)
Theorem refund_changes_the_journal_only (amount : option Decimal) (w : World) :
  let p' := w_payment (snd (refund json_loads urljoin gateway self amount w)) in
  p' = set_extra_data (extra_data p') (w_payment w).
Proof.
  cbn zeta. unfold refund.
  destruct (get_refund_description self) as [describe|];
    [|cbn; now rewrite set_extra_data_same].
  run. destruct (refund_request urljoin self describe (w_payment w) amount)
    as [[request_url doc]|]; [|cbn; now rewrite set_extra_data_same].
  cbn [fst snd].
  pose proof (post_request_payment json_loads gateway self request_url doc w)
    as Hframe.
  destruct (post_request json_loads gateway self request_url doc w)
    as [[response|] w1]; cbn [snd] in Hframe |- *;
    [|rewrite Hframe; now rewrite set_extra_data_same].
  unfold on_payment, zoom, add_refund_response, save. run. rewrite Hframe.
  destruct (assoc_get "refund_responses" _) as [[]|];
    cbn [snd w_payment set_w_payment]; try (now rewrite set_extra_data_same);
    try match goal with
        | |- context [check_refund_response ?a ?b ?c] =>
            destruct (check_refund_response a b c)
        end; reflexivity.
Qed.

Lemma add_refund_response_appends (response : json) (p : Payment) :
  journal_ok "refund_responses" p = true ->
  exists entries,
    add_refund_response response p = (Ok tt, set_extra_data entries p)
    /\ assoc_get "refund_responses" entries
       = Some (JArr (journal "refund_responses" p ++ [response]))
    /\ forall k, String.eqb k "refund_responses" = false ->
                 assoc_get k entries = assoc_get k (extra_data p).
Proof.
  unfold journal_ok, journal, add_refund_response, assoc_mem. run.
  destruct (assoc_get "refund_responses" (extra_data p))
    as [[| | | | |l|]|] eqn:E; try discriminate; intros _.
  - rewrite E. eexists. split; [reflexivity|]. split.
    + apply assoc_get_set_same.
    + intros k Hk. now apply assoc_get_set_other.
  - rewrite assoc_get_set_same. eexists. split; [reflexivity|]. split.
    + apply assoc_get_set_same.
    + intros k Hk. now rewrite !assoc_get_set_other.
Qed.

(** [refund] once the gateway has answered: the answer goes to the journal
    and is then checked against the payment. *)
Lemma refund_answered (amount : option Decimal) (w w1 : World)
    (describe : Payment -> option Decimal -> json)
    (request_url : string) (doc response : json) :
  get_refund_description self = Some describe ->
  refund_request urljoin self describe (w_payment w) amount
    = Ok (request_url, doc) ->
  post_request json_loads gateway self request_url doc w
    = (Ok response, w1) ->
  journal_ok "refund_responses" (w_payment w) = true ->
  exists entries,
    refund json_loads urljoin gateway self amount w
    = (check_refund_response (w_payment w) amount response,
       set_w_payment (set_extra_data entries (w_payment w)) w1)
    /\ assoc_get "refund_responses" entries
       = Some (JArr (journal "refund_responses" (w_payment w) ++ [response]))
    /\ forall k, String.eqb k "refund_responses" = false ->
                 assoc_get k entries = assoc_get k (extra_data (w_payment w)).
Proof.
  intros Hdesc Hreq Hpost Hj.
  pose proof (post_request_payment json_loads gateway self request_url doc w)
    as Hframe.
  rewrite Hpost in Hframe. cbn [snd] in Hframe.
  unfold refund. rewrite Hdesc. run.
  rewrite Hreq. cbn [fst snd]. rewrite Hpost.
  unfold on_payment, zoom. rewrite Hframe.
  destruct (add_refund_response_appends response (w_payment w) Hj)
    as [entries [-> [L O]]].
  exists entries. cbn [w_payment set_w_payment]. split; [|split; assumption].
  f_equal; apply check_refund_response_reads; reflexivity.
Qed.

(** X21: the answer of the gateway to a refund request is appended to the
    list under [refund_responses] before it is checked, so that it is in
    the journal whether [refund] then returns or raises; the other keys of
    [extra_data] are as they were. *)
Theorem refund_journals_the_answer_before_checking_it
    (amount : option Decimal) (w w1 : World)
    (describe : Payment -> option Decimal -> json)
    (request_url : string) (doc response : json) :
  get_refund_description self = Some describe ->
  refund_request urljoin self describe (w_payment w) amount
    = Ok (request_url, doc) ->
  post_request json_loads gateway self request_url doc w
    = (Ok response, w1) ->
  journal_ok "refund_responses" (w_payment w) = true ->
  let p' := w_payment (snd (refund json_loads urljoin gateway self amount w)) in
  journal "refund_responses" p'
  = (journal "refund_responses" (w_payment w) ++ [response])%list
  /\ forall k, String.eqb k "refund_responses" = false ->
               assoc_get k (extra_data p')
               = assoc_get k (extra_data (w_payment w)).
Proof.
  intros Hdesc Hreq Hpost Hj. cbn zeta.
  destruct (refund_answered amount w w1 describe request_url doc response
              Hdesc Hreq Hpost Hj) as [entries [-> [L O]]].
  cbn [snd w_payment set_w_payment]. unfold journal at 1.
  cbn [extra_data set_extra_data]. rewrite L. split; [reflexivity|exact O].
Qed.

(** X22: a refund that the gateway acknowledges as PENDING, in the currency
    of the payment, returns zero when its amount equals the requested one,
    and raises a [NotImplementedError] when it does not. *)
Theorem refund_pending_is_zero_when_the_amount_matches
    (requested : Decimal) (w w1 : World)
    (describe : Payment -> option Decimal -> json)
    (request_url : string) (doc response raw : json)
    (refund_amount : Decimal) :
  get_refund_description self = Some describe ->
  refund_request urljoin self describe (w_payment w) (Some requested)
    = Ok (request_url, doc) ->
  post_request json_loads gateway self request_url doc w
    = (Ok response, w1) ->
  journal_ok "refund_responses" (w_payment w) = true ->
  acknowledges (w_payment w) response (JStr "PENDING") ->
  refund_field_of "currencyCode" response
    = Ok (JStr (currency (w_payment w))) ->
  refund_field_of "amount" response = Ok raw ->
  dequantize_price raw (JStr (currency (w_payment w))) = Ok refund_amount ->
  fst (refund json_loads urljoin gateway self (Some requested) w)
  = if Dec.eqb refund_amount requested then Ok (Dec.of_Z 0)
    else Raise (NotImplementedError
                  "refund {refund_id} of payment {payment.id} having a different amount than requested not supported ").
Proof.
  intros Hdesc Hreq Hpost Hj Hack Hcur Hraw Hdq.
  destruct (refund_answered (Some requested) w w1 describe request_url doc
              response Hdesc Hreq Hpost Hj) as [entries [-> _]].
  cbn [fst].
  destruct Hack as [Hcode [[rid [Hrid Hnn]] [[oid [Hoid Heq]] [Hst _]]]].
  unfold check_refund_response. rewrite Hcode. cbn [except_Exception rbind].
  cbn [json_is_str String.eqb Ascii.eqb Bool.eqb negb].
  unfold refund_field_of in Hrid, Hst, Hcur, Hraw.
  destruct (py_getitem response "refund") as [r0|]; [|discriminate].
  cbn [rbind] in Hrid, Hst, Hcur, Hraw |- *.
  rewrite Hrid, Hoid, Hst, Hcur, Hraw. cbn [rbind]. rewrite Hdq.
  cbn [rbind except_Exception]. rewrite Heq.
  cbn [negb json_is_str]. rewrite String.eqb_refl.
  destruct rid; try contradiction;
    destruct (Dec.eqb refund_amount requested); reflexivity.
Qed.

End MoreRefund.

(** ** The order payload, continued *)

Lemma str_len_prefix (n : nat) (s : string) :
  str_len (str_prefix n s) = Nat.min n (str_len s).
Proof.
  revert n. induction s as [|c s IH]; intro n.
  - cbn. now rewrite Nat.min_0_r.
  - cbn [str_prefix str_len]. destruct (is_continuation c) eqn:Ec.
    + cbn [str_len]. rewrite Ec. apply IH.
    + destruct n as [|n]; [reflexivity|].
      cbn [str_len]. rewrite Ec, IH. reflexivity.
Qed.

Lemma str_prefix_starts (n : nat) (s : string) :
  exists rest, s = str_prefix n s ++ rest.
Proof.
  revert n. induction s as [|c s IH]; intro n; [now exists ""|].
  cbn [str_prefix]. destruct (is_continuation c).
  - destruct (IH n) as [rest H]. exists rest. cbn. now rewrite <- H.
  - destruct n as [|n]; [now exists (String c s)|].
    destruct (IH n) as [rest H]. exists rest. cbn. now rewrite <- H.
Qed.

Lemma str_prefix_whole (n : nat) (s : string) :
  (str_len s <= n)%nat -> str_prefix n s = s.
Proof.
  revert n. induction s as [|c s IH]; intros n H; [reflexivity|].
  cbn [str_prefix str_len] in *. destruct (is_continuation c).
  - f_equal. now apply IH.
  - destruct n as [|n]; [lia|]. f_equal. apply IH. lia.
Qed.

(** X23: when [get_order_items] returns, it returns one product for each
    purchased item, in their order; the name of a product is the slice
    [name[:127]] of the name of its item, which starts the name, has 127
    characters or all the characters of the name if these are fewer, and is
    the whole name when that has at most 127 characters, whatever the
    number of its bytes; the product has the quantity of the item and the
    sub-unit 100. *)
Theorem order_items_follow_the_purchased_items
    (cur : string) (order : list PurchasedItem) (items : list json) :
  get_order_items cur order = Ok items ->
  Forall2
    (fun purchased item =>
       exists name,
         py_getitem item "name" = Ok (JStr name)
         /\ name = str_prefix 127 (pi_name purchased)
         /\ (exists rest, pi_name purchased = name ++ rest)
         /\ str_len name = Nat.min 127 (str_len (pi_name purchased))
         /\ ((str_len (pi_name purchased) <= 127)%nat ->
             name = pi_name purchased)
         /\ py_getitem item "quantity" = Ok (JInt (pi_quantity purchased))
         /\ py_getitem item "subUnit" = Ok (JInt 100))
    order items.
Proof.
  revert items. induction order as [|purchased rest IH]; intros items H.
  - inversion H. constructor.
  - cbn [get_order_items] in H.
    destruct (order_item cur purchased) as [item|] eqn:Ei; [|discriminate].
    cbn [rbind] in H.
    destruct (get_order_items cur rest) as [items'|]; [|discriminate].
    cbn [rbind] in H. inversion H; subst. constructor; [|now apply IH].
    unfold order_item in Ei.
    destruct (quantize_price _ cur) as [unitPrice|] eqn:Eq; [|discriminate].
    cbn [rbind] in Ei.
    assert (Hs : supported cur = true).
    { unfold supported, assoc_mem.
      unfold quantize_price, currency_sub_unit in Eq.
      destruct (assoc_get cur CURRENCY_SUB_UNIT); [reflexivity|discriminate]. }
    rewrite (sub_unit_supported _ Hs) in Ei. cbn [rbind] in Ei.
    inversion Ei; subst. eexists. split; [reflexivity|].
    split; [reflexivity|]. split; [apply str_prefix_starts|].
    split; [apply str_len_prefix|].
    split; [apply str_prefix_whole|]. split; reflexivity.
Qed.

(** X24: a tax rate of zero counts as no tax rate.  For an item without a
    tax rate, or with one that is zero, whose price has at most 28 digits,
    the unit price of the product is the quantized price of the item, not
    zero. *)
Theorem zero_tax_rate_is_no_tax_rate
    (cur : string) (purchased : PurchasedItem) (item : json) :
  match pi_tax_rate purchased with
  | Some rate => Dec.is_zero rate = true
  | None => True
  end ->
  Dec.ndigits (d_int (pi_price purchased)) <= 28 ->
  order_item cur purchased = Ok item ->
  exists unitPrice,
    quantize_price (pi_price purchased) cur = Ok unitPrice
    /\ py_getitem item "unitPrice" = Ok (JInt unitPrice).
Proof.
  intros Hrate Hd. unfold order_item, tax_rate_or_1.
  assert (Hone : Dec.mul (pi_price purchased) (Dec.of_Z 1) = pi_price purchased).
  { unfold Dec.mul. cbn [Dec.of_Z d_sign d_int d_exp].
    change (1 <? 0) with false. change (Z.abs_N 1) with 1%N.
    rewrite xorb_false_r, N.mul_1_r, Z.add_0_r.
    rewrite DecFacts.fix_small by exact Hd.
    now destruct (pi_price purchased). }
  destruct (pi_tax_rate purchased) as [rate|]; [rewrite Hrate|];
    rewrite Hone;
    (destruct (quantize_price (pi_price purchased) cur) as [n|]; [|discriminate]);
    cbn [rbind];
    (destruct (currency_sub_unit (JStr cur)); [|discriminate]);
    cbn [rbind]; intro H; inversion H; subst; exists n; split; reflexivity.
Qed.

(** X25: the pay method and the buyer of a processor are set once: a second
    call of [set_paymethod] or of [set_buyer_data] changes nothing,
    whatever its arguments. *)
Theorem processor_attributes_are_set_once
    (pp : PaymentProcessor) (value value' : json)
    (method_type method_type' : string)
    (first last email phone first' last' email' phone' : json)
    (lang lang' : string) :
  set_paymethod value' method_type' (set_paymethod value method_type pp)
  = set_paymethod value method_type pp
  /\ set_buyer_data first' last' email' phone' lang'
       (set_buyer_data first last email phone lang pp)
     = set_buyer_data first last email phone lang pp.
Proof.
  unfold set_paymethod, set_buyer_data. split.
  - destruct (pp_paymethods pp) eqn:E; cbn; [now rewrite E|reflexivity].
  - destruct (pp_buyer pp) eqn:E; cbn; [now rewrite E|reflexivity].
Qed.

(** ** The widget and the other calls *)

Section Widget.

Variable json_loads : string -> option json.
Variable urljoin : string -> string -> string.
Variable gateway : list Sent -> Sent -> string.
Variable self : Provider.
Variable base_url : string.
Variable allowed_redirect : string -> bool.
Variable options : Options.

Ltac run := unfold bind, try_except, lift, ret, raise, gets, modify, loads.

(** X26: [process_widget] creates the order of a processor that asks for at
    most one kind of renewal: [cardOnFile] when the provider keeps cards on
    file, otherwise [recurring] when it takes recurring payments; the
    processor names the card token as its pay method exactly for express
    payments, and carries the token, the total and the currency of the
    payment. *)
Theorem process_widget_orders_one_kind_of_renewal
    (details : Details) (card_token : json) (recurring : string)
    (auto_renew : bool) (w : World) :
  exists processor,
    process_widget json_loads urljoin gateway self base_url options details
                   card_token recurring auto_renew w
    = create_order json_loads gateway self processor auto_renew w
    /\ (pp_cardOnFile processor = None \/ pp_recurring processor = None)
    /\ pp_cardOnFile processor
       = (if card_on_file options
          then Some (if String.eqb recurring "FIRST" then "FIRST"
                     else "STANDARD_CARDHOLDER")
          else None)
    /\ pp_recurring processor
       = (if card_on_file options then None
          else if recurring_payments self then Some recurring else None)
    /\ pp_paymethods processor
       = (if express_payments options
          then Some (JObj [("payMethod",
                            JObj [("type", JStr "CARD_TOKEN");
                                  ("value", card_token)])])
          else None)
    /\ pp_external_id processor = JStr (token details)
    /\ pp_total processor = total (w_payment w)
    /\ pp_currency processor = currency (w_payment w).
Proof.
  unfold process_widget. run. eexists. split; [reflexivity|].
  destruct (card_on_file options), (recurring_payments self),
    (express_payments options); cbn; repeat split; auto.
Qed.

(** X27: a request whose content type holds [application/json] is handled
    as a notification, whatever its form data and whether or not the
    payment has a renew token: [process_data] answers what
    [process_notification] answers, raises what it raises, leaves the
    payment as it leaves it, sends nothing and keeps the token. *)
Theorem process_data_of_a_notification_contacts_nobody
    (details : Details) (request : FormRequest) (content_type : string)
    (w : World) :
  assoc_get "CONTENT_TYPE" (META (request_of request)) = Some content_type ->
  is_substring "application/json" content_type = true ->
  let run := process_notification json_loads self (request_of request)
                                  (w_payment w) in
  process_data json_loads urljoin gateway self base_url allowed_redirect
               options details request w
  = (match fst run with
     | Ok response => Ok (Plain response)
     | Raise e => Raise e
     end,
     mkWorld (w_token w) (w_sent w) (snd run)).
Proof.
  intros Hct Hjson. cbn zeta. unfold process_data. run.
  rewrite Hct, Hjson. unfold on_payment, zoom.
  destruct (process_notification json_loads self (request_of request)
              (w_payment w)) as [[response|e] p']; reflexivity.
Qed.

End Widget.

Lemma py_eq_success (a b : json) :
  py_eq a b && json_is_str b "SUCCESS"
  = json_is_str a "SUCCESS" && json_is_str b "SUCCESS".
Proof.
  destruct b; cbn [json_is_str]; rewrite ?andb_false_r; try reflexivity.
  destruct (String.eqb s "SUCCESS") eqn:E; rewrite ?andb_false_r;
    [|reflexivity].
  apply String.eqb_eq in E. subst s. rewrite !andb_true_r.
  destruct a; reflexivity.
Qed.

Section Reject.

Variable json_loads : string -> option json.
Variable urljoin : string -> string -> string.
Variable self : Provider.
Variable service : list Sent -> list Call -> Call -> string * Z.

Ltac run := unfold bind, try_except, lift, ret, raise, gets, modify, loads.

(** X28: [reject_order] sends the same DELETE call twice, with the current
    token.  When both answers are JSON with a status code, the result is
    true exactly when both codes are SUCCESS; the payment is then REJECTED
    with an empty message, and otherwise as it was. *)
Theorem reject_order_needs_two_successes
    (s : Session) (url : string) (response1 response2 code1 code2 : json) :
  _get_payu_api_order_url urljoin self
    (transaction_id (w_payment (s_world s))) = Ok url ->
  let call := delete_call url s in
  json_loads (fst (service (w_sent (s_world s)) (s_calls s) call))
    = Some response1 ->
  json_loads (fst (service (w_sent (s_world s)) (call :: s_calls s) call))
    = Some response2 ->
  status_code_of response1 = Ok code1 ->
  status_code_of response2 = Ok code2 ->
  let rejected :=
    json_is_str code1 "SUCCESS" && json_is_str code2 "SUCCESS" in
  reject_order json_loads urljoin self service s
  = (Ok rejected,
     mkSession
       (set_w_payment
          (if rejected
           then set_message (JStr "")
                  (set_status REJECTED (w_payment (s_world s)))
           else w_payment (s_world s))
          (s_world s))
       (call :: call :: s_calls s)).
Proof.
  intros Hurl call H1 H2 Hc1 Hc2 rejected. subst call rejected.
  unfold delete_call in *.
  unfold reject_order, requests_call, in_world, on_payment, zoom,
    get_token_headers, change_status, save. run.
  rewrite Hurl. cbn [fst snd s_world s_calls set_s_world].
  rewrite H1. cbn [s_world s_calls w_token w_sent].
  rewrite H2, Hc1, Hc2. rewrite py_eq_success.
  destruct (json_is_str code1 "SUCCESS" && json_is_str code2 "SUCCESS");
    cbn; destruct s as [[t l p] c]; reflexivity.
Qed.

Lemma order_url_error (order_id : json) (e : exn) :
  _get_payu_api_order_url urljoin self order_id = Raise e -> e = TypeError.
Proof.
  unfold _get_payu_api_order_url. destruct order_id; cbn [py_truthy];
    repeat match goal with
           | |- context [if ?c then _ else _] => destruct c
           end; intro H; inversion H; reflexivity.
Qed.

Lemma status_code_error (response : json) (e : exn) :
  status_code_of response = Raise e ->
  e = TypeError \/ exists key, e = KeyError key.
Proof.
  unfold status_code_of.
  destruct (py_getitem response "status") as [st|e0] eqn:E0; cbn [rbind].
  - apply py_getitem_error.
  - intro H. inversion H; subst. eapply py_getitem_error; eassumption.
Qed.

(** X29: whatever the answers of the gateway, [reject_order] sends no POST
    request and keeps the token; when it returns true the payment is
    REJECTED with an empty message, in every other case the payment is as
    it was; and it never raises a [PayuApiError]. *)
Theorem reject_order_rejects_or_changes_nothing (s : Session) :
  let run := reject_order json_loads urljoin self service s in
  let w := s_world s in
  let w' := s_world (snd run) in
  w_token w' = w_token w
  /\ w_sent w' = w_sent w
  /\ (fst run = Ok true ->
      w_payment w' = set_message (JStr "") (set_status REJECTED (w_payment w)))
  /\ (fst run <> Ok true -> w_payment w' = w_payment w)
  /\ (forall arg, fst run <> Raise (PayuApiError arg)).
Proof.
  cbn zeta.
  unfold reject_order, requests_call, in_world, on_payment, zoom,
    get_token_headers, change_status, save. run.
  destruct (_get_payu_api_order_url urljoin self _) as [url|e] eqn:Eurl;
    [|rewrite (order_url_error _ _ Eurl);
      cbn; repeat split; intros; try discriminate; congruence].
  cbn [fst snd s_world s_calls set_s_world].
  destruct (json_loads _) as [r1|];
    [|cbn; repeat split; intros; try discriminate; congruence].
  cbn [s_world s_calls w_token w_sent].
  destruct (json_loads _) as [r2|];
    [|cbn; repeat split; intros; try discriminate; congruence].
  destruct (status_code_of r1) as [c1|e1] eqn:E1;
    [|destruct (status_code_error _ _ E1) as [->|[key ->]];
      cbn; repeat split; intros; try discriminate; congruence].
  destruct (status_code_of r2) as [c2|e2] eqn:E2;
    [|destruct (status_code_error _ _ E2) as [->|[key ->]];
      cbn; repeat split; intros; try discriminate; congruence].
  destruct (py_eq c1 c2 && json_is_str c2 "SUCCESS");
    cbn; repeat split; intros; try discriminate; congruence.
Qed.

End Reject.

Section MoreSignature.

Context {Value : Type}.
Variable py_str : Value -> string.
Variable sha256_hexdigest : string -> string.

Lemma flat_map_agree {A B} (f g : A -> list B) (l : list A) :
  (forall a, In a l -> f a = g a) -> flat_map f l = flat_map g l.
Proof.
  induction l as [|a l IH]; intro H; [reflexivity|].
  cbn [flat_map]. rewrite (H a) by now left.
  rewrite IH; [reflexivity|]. intros b Hb. apply H. now right.
Qed.

(** X30: the signature of the widget reads the eleven listed parameters
    only: two dictionaries that agree on them have the same signature,
    whatever their other entries and the order of their entries. *)
Theorem get_sig_reads_the_listed_keys_only
    (self : Provider) (payu_data payu_data' : list (string * Value)) :
  (forall key, In key sig_sorted_key_list ->
               assoc_get key payu_data' = assoc_get key payu_data) ->
  get_sig py_str sha256_hexdigest self payu_data'
  = get_sig py_str sha256_hexdigest self payu_data.
Proof.
  intro H. unfold get_sig. do 4 f_equal.
  apply flat_map_agree. intros key Hkey. now rewrite H.
Qed.

End MoreSignature.

(** ** The claims on the examples *)

Import Examples.

(** C5 (the code departs from it): the amount times 100, rounded half-up to
    the nearest integer, is 1352 for 13.5177; [quantize_price] rounds
    1351.77 to two places and truncates it to 1351. *)
Theorem quantize_price_truncates :
  quantize_price taxed_price "USD" = Ok 1351
  /\ quantize_half_up taxed_price = 1352.
Proof. split; reflexivity. Qed.

(** C6 as it stands fails for an amount of 25 digits: 10^24 has no
    fractional digit, and [quantize_price] raises [InvalidOperation] on it,
    since 10^26 to two places does not fit the 28 digits of the context. *)
Lemma roundtrip_fails_beyond_precision :
  supported "USD" = true
  /\ two_decimals (Dec.of_Z (10 ^ 24)) = true
  /\ quantize_price (Dec.of_Z (10 ^ 24)) "USD" = Raise InvalidOperation
  /\ ~ (exists n y,
          quantize_price (Dec.of_Z (10 ^ 24)) "USD" = Ok n
          /\ dequantize_price (JInt n) (JStr "USD") = Ok y
          /\ Dec.eqb y (Dec.of_Z (10 ^ 24)) = true).
Proof.
  split; [reflexivity|]. split; [reflexivity|].
  assert (H : quantize_price (Dec.of_Z (10 ^ 24)) "USD" = Raise InvalidOperation)
    by (vm_compute; reflexivity).
  split; [exact H|].
  intros [n [y [Hq _]]]. rewrite H in Hq. discriminate.
Qed.

(** The refund of [test_refund_no_amount]: the gateway answers PENDING,
    [refund] returns zero and the captured amount stays at 220. *)
Example refund_of_pending_returns_zero :
  let run := refund JsonFragment.loads urljoin (gateway refund_pending)
               provider None (world confirmed_payment) in
  fst run = Ok (Dec.of_Z 0)
  /\ captured_amount (w_payment (snd run)) = Dec.of_Z 220
  /\ status (w_payment (snd run)) = CONFIRMED.
Proof. vm_compute. repeat split. Qed.

(** C3 (the code departs from it): against a gateway that refuses every
    token while the token endpoint grants new ones, [post_request] with
    [retry_count = 5] sends the request 4 times, asks for a token 4 times,
    and raises. *)
Theorem post_request_sends_four_requests :
  let url := payu_api_orders_url provider in
  let run := post_request JsonFragment.loads (gateway unauthorized) provider
                          url (JObj []) (world waiting_payment) in
  retry_count provider = 5
  /\ fst run
     = Raise (PayuApiError (JStr "Unable to regain authorization token"))
  /\ requests_to url (snd run) = 4%nat
  /\ requests_to (payu_auth_url provider) (snd run) = 4%nat.
Proof. vm_compute. repeat split. Qed.



Ltac by_computation := vm_compute; reflexivity.

(** The partial refund of the test suite: 110.00 of a captured 220.00. *)
Lemma refund_notification_reconciles_witness :
  exists p',
    process_notification JsonFragment.loads provider refund_partial
                         confirmed_payment
      = (Ok (mkHttpResponse "ok" 200), p')
    /\ status p' = CONFIRMED
    /\ captured_amount p' = mkDecimal false 110 0.
Proof.
  pose proof (refund_notification_reconciles JsonFragment.loads provider
                refund_partial confirmed_payment (decoded refund_partial)
                (mkDecimal false 110 0) "BlenderKit refund" ""
                ltac:(by_computation) ltac:(by_computation)
                ltac:(by_computation) ltac:(by_computation)
                ltac:(by_computation) ltac:(by_computation)
                ltac:(by_computation)) as W.
  vm_compute in W. vm_compute. exact W.
Defined.


(** An order notification with [status = COMPLETED] and
    [totalAmount = 20000] in USD: 200 is captured and the payment is
    confirmed. *)
Lemma order_notification_reconciles_witness :
  exists p',
    process_notification JsonFragment.loads provider order_completed_total
                         waiting_payment
      = (Ok (mkHttpResponse "ok" 200), p')
    /\ captured_amount p' = mkDecimal false 200 0
    /\ status p' = CONFIRMED.
Proof.
  pose proof (order_notification_reconciles JsonFragment.loads provider
                order_completed_total waiting_payment
                (decoded order_completed_total) (JStr "COMPLETED")
                ltac:(by_computation) ltac:(by_computation)
                ltac:(by_computation) ltac:(by_computation)
                ltac:(by_computation)) as W.
  vm_compute in W. vm_compute. exact (W _ eq_refl).
Defined.

(** 19.99 USD *)
Lemma quantize_dequantize_roundtrip_witness :
  exists n y,
    quantize_price (mkDecimal false 1999 (-2)) "USD" = Ok n
    /\ dequantize_price (JInt n) (JStr "USD") = Ok y
    /\ Dec.eqb y (mkDecimal false 1999 (-2)) = true.
Proof.
  apply (quantize_dequantize_roundtrip "USD" (mkDecimal false 1999 (-2))
           ltac:(by_computation) ltac:(by_computation)
           ltac:(by_computation)).
Defined.

(** The duplicate order of the test suite, for a confirmed payment. *)
Lemma create_order_duplicate_of_confirmed_witness :
  exists w',
    create_order JsonFragment.loads (gateway duplicate_order) provider
                 processor false (world confirmed_payment)
      = (Ok (JStr ""), w')
    /\ status (w_payment w') = CONFIRMED.
Proof.
  pose (sent := post_request JsonFragment.loads (gateway duplicate_order)
                  provider (payu_api_orders_url provider)
                  (match as_json (set_pp_pos_id (JStr (pos_id provider))
                                                processor)
                   with Ok doc => doc | Raise _ => JNull end)
                  (world confirmed_payment)).
  pose proof (create_order_duplicate_of_confirmed JsonFragment.loads
                (gateway duplicate_order) provider processor false
                (world confirmed_payment) (snd sent)
                (match as_json (set_pp_pos_id (JStr (pos_id provider))
                                              processor)
                 with Ok doc => doc | Raise _ => JNull end)
                (match fst sent with Ok r => r | Raise _ => JNull end)
                ltac:(by_computation) ltac:(by_computation)
                ltac:(by_computation) ltac:(vm_compute; discriminate)
                ltac:(by_computation)) as W.
  exact W.
Defined.

(** The canceled refund of the test suite. *)
Lemma refund_status_must_be_pending_witness :
  exists r w',
    refund JsonFragment.loads urljoin (gateway refund_canceled) provider
           (Some (Dec.of_Z 110)) (world confirmed_payment) = (r, w')
    /\ captured_amount (w_payment w') = mkDecimal false 220 0
    /\ r = Raise (ValueError
                    "refund {refund_id} of payment {payment.id} canceled").
Proof.
  pose (request_url := "http://mock.url/api/v2_1/orders/1234/refunds").
  pose (doc := JObj [("refund",
                      JObj [("currencyCode", JStr "USD");
                            ("description", JStr "desc 1234 110");
                            ("amount", JInt 11000);
                            ("extRefundId", JStr "ext 1234 110")])]).
  pose (sent := post_request JsonFragment.loads (gateway refund_canceled)
                  provider request_url doc (world confirmed_payment)).
  pose (response := match fst sent with Ok r => r | Raise _ => JNull end).
  assert (Hack : acknowledges (w_payment (world confirmed_payment)) response
                              (JStr "CANCELED")).
  { unfold acknowledges. split; [by_computation|].
    split; [exists (JStr "5000009987"); split;
            [by_computation|discriminate]|].
    split; [exists (JStr "1234"); split; by_computation|].
    split; [by_computation|].
    exists (JStr "USD"), (JStr "11000"), (mkDecimal false 110 0).
    repeat split; by_computation. }
  destruct (refund_status_must_be_pending JsonFragment.loads urljoin
              (gateway refund_canceled) provider (Some (Dec.of_Z 110))
              (world confirmed_payment) (snd sent)
              (fun _ _ => JStr "desc 1234 110") request_url doc response
              (JStr "CANCELED")
              ltac:(by_computation) ltac:(by_computation)
              ltac:(by_computation) ltac:(by_computation) Hack)
    as [r [w' [Hrun [Hcap [Hcanceled _]]]]].
  exists r, w'. split; [exact Hrun|]. split; [exact Hcap|].
  exact (Hcanceled eq_refl).
Defined.


(** The full refund of the test suite: 220.00 of a captured 220.00. *)
Lemma full_refund_changes_status_message_journal_witness :
  exists journal,
    process_notification JsonFragment.loads provider refund_full
                         confirmed_payment
    = (Ok (mkHttpResponse "ok" 200),
       mkPayment 1 REFUNDED UNKNOWN (JStr "") (Dec.of_Z 220) (Dec.of_Z 220)
                 "USD" (JStr "1234") journal None JNull "/payment/token").
Proof.
  exact (full_refund_changes_status_message_journal JsonFragment.loads
           provider refund_full confirmed_payment (decoded refund_full)
           (mkDecimal false 220 0) "BlenderKit refund" ""
           ltac:(by_computation) ltac:(by_computation)
           ltac:(by_computation) ltac:(by_computation)
           ltac:(by_computation) ltac:(by_computation)
           ltac:(by_computation) ltac:(by_computation)).
Defined.

(** ** The further properties on the examples *)

(** 19.99 USD, from 1999 minor units and back. *)
Lemma dequantize_quantize_roundtrip_witness :
  exists y, dequantize_price (JInt 1999) (JStr "USD") = Ok y
            /\ quantize_price y "USD" = Ok 1999.
Proof.
  exact (dequantize_quantize_roundtrip "USD" 1999
           ltac:(by_computation) ltac:(by_computation)).
Defined.

(** 13.5177 USD is quantized within one cent of 1351.77 cents. *)
Lemma quantize_price_within_one_minor_unit_witness :
  exists n,
    quantize_price taxed_price "USD" = Ok n
    /\ Z.abs (n * 10 ^ (-2 - d_exp taxed_price)
              - Dec.scaled taxed_price (d_exp taxed_price))
       < 10 ^ (-2 - d_exp taxed_price)
    /\ (if d_sign taxed_price then n <= 0 else 0 <= n).
Proof.
  exact (quantize_price_within_one_minor_unit "USD" taxed_price
           ltac:(by_computation) ltac:(by_computation)
           ltac:(by_computation)).
Defined.

Ltac distinct_keys :=
  repeat (constructor; [cbn; intuition discriminate|]); constructor.

Ltac plain_fields :=
  repeat (constructor; [split; vm_compute; reflexivity|]); constructor.

(** The address of the CVV form, added to the payment of the test suite. *)
Lemma add_extra_data_overrides_and_keeps_witness :
  exists merged,
    add_extra_data [("cvv_url", JStr "test_redirect_uri")] waiting_payment
      = (Ok tt, set_extra_data merged waiting_payment)
    /\ forall k,
         assoc_get k merged
         = match assoc_get k [("cvv_url", JStr "test_redirect_uri")] with
           | Some v => Some v
           | None => assoc_get k (extra_data waiting_payment)
           end.
Proof.
  exact (add_extra_data_overrides_and_keeps
           [("cvv_url", JStr "test_redirect_uri")] waiting_payment
           ltac:(distinct_keys)).
Defined.

(** The header of the gateway, read for its signature. *)
Lemma signature_header_fields_are_read_back_witness :
  exists header_data,
    parse_header (str_split ";" (header_of checkout_fields)) []
      = Ok header_data
    /\ assoc_get "signature" header_data
       = assoc_get "signature" checkout_fields.
Proof.
  exact (signature_header_fields_are_read_back checkout_fields "signature"
           ltac:(discriminate) ltac:(distinct_keys) ltac:(plain_fields)).
Defined.

Lemma header_signed_with_the_second_key_is_verified_witness :
  signature_ok provider order_completed_checkout = true.
Proof.
  exact (header_signed_with_the_second_key_is_verified provider
           order_completed_checkout checkout_fields
           ltac:(by_computation) ltac:(distinct_keys) ltac:(plain_fields)
           ltac:(by_computation) ltac:(by_computation)).
Defined.

(** The notification of the test suite signed with [foo]. *)
Lemma notification_answers_witness :
  (signature_ok provider wrong_signature = true
   /\ mkHttpResponse "not ok" 500 = mkHttpResponse "ok" 200)
  \/ (signature_ok provider wrong_signature = false
      /\ mkHttpResponse "not ok" 500 = mkHttpResponse "not ok" 500
      /\ snd (process_notification JsonFragment.loads provider
                wrong_signature waiting_payment) = waiting_payment).
Proof.
  exact (notification_answers JsonFragment.loads provider wrong_signature
           waiting_payment (mkHttpResponse "not ok" 500)
           ltac:(by_computation)).
Defined.

(** The refund notification with the status FOO: it raises, and it is in
    the journal. *)
Lemma verified_notification_is_journaled_whatever_follows_witness :
  fst (process_notification JsonFragment.loads provider refund_not_finalized
                            waiting_payment)
    = Raise (PyException "Refund was not finelized")
  /\ journal "statuses"
       (snd (process_notification JsonFragment.loads provider
               refund_not_finalized waiting_payment))
     = [decoded refund_not_finalized].
Proof.
  split; [by_computation|].
  exact (proj1 (verified_notification_is_journaled_whatever_follows
                  JsonFragment.loads provider refund_not_finalized
                  waiting_payment (decoded refund_not_finalized)
                  ltac:(by_computation) ltac:(by_computation)
                  ltac:(by_computation))).
Defined.

(** The partial refund of the test suite, 110.00 of a captured 220.00,
    delivered twice: the second delivery moves the payment to REFUNDED. *)
Lemma partial_refund_delivered_twice_is_applied_twice_witness :
  exists p1 p2,
    process_notification JsonFragment.loads provider refund_partial
                         confirmed_payment
      = (Ok (mkHttpResponse "ok" 200), p1)
    /\ process_notification JsonFragment.loads provider refund_partial p1
       = (Ok (mkHttpResponse "ok" 200), p2)
    /\ captured_amount p1 = mkDecimal false 110 0
    /\ status p1 = CONFIRMED
    /\ status p2 = REFUNDED
    /\ captured_amount p2 = mkDecimal false 110 0
    /\ message p2 = JStr "".
Proof.
  destruct (partial_refund_delivered_twice_is_applied_twice
              JsonFragment.loads provider refund_partial confirmed_payment
              (decoded refund_partial) (mkDecimal false 110 0)
              "BlenderKit refund" ""
              ltac:(by_computation) ltac:(by_computation)
              ltac:(by_computation) ltac:(by_computation)
              ltac:(by_computation) ltac:(by_computation)
              ltac:(by_computation) ltac:(by_computation))
    as [p1 [p2 [H1 [H2 [Hc1 [_ [Hs1 H]]]]]]].
  change (Dec.geb (mkDecimal false 110 0)
            (Dec.sub (captured_amount confirmed_payment)
                     (mkDecimal false 110 0))) with true in H.
  destruct H as [Hs2 [Hc2 Hm2]].
  exists p1, p2. split; [exact H1|]. split; [exact H2|].
  split; [exact Hc1|]. split; [exact Hs1|]. split; [exact Hs2|].
  split; [exact Hc2|exact Hm2].
Defined.

(** The completed order of 200.00, delivered twice. *)
Lemma order_notification_delivered_twice_changes_the_journal_only_witness :
  let first := process_notification JsonFragment.loads provider
                 order_completed_total waiting_payment in
  exists entries,
    process_notification JsonFragment.loads provider order_completed_total
                         (snd first)
      = (Ok (mkHttpResponse "ok" 200), set_extra_data entries (snd first))
    /\ assoc_get "statuses" entries
       = Some (JArr (journal "statuses" (snd first)
                     ++ [decoded order_completed_total])).
Proof.
  exact (order_notification_delivered_twice_changes_the_journal_only
           JsonFragment.loads provider order_completed_total waiting_payment
           (snd (process_notification JsonFragment.loads provider
                   order_completed_total waiting_payment))
           (decoded order_completed_total) (mkHttpResponse "ok" 200)
           ltac:(by_computation) ltac:(by_computation)
           ltac:(by_computation) ltac:(by_computation)
           ltac:(by_computation)).
Defined.

(** An order that the gateway accepts at once. *)
Lemma post_request_returns_an_authorized_answer_witness :
  let w := world waiting_payment in
  let url := payu_api_orders_url provider in
  post_request JsonFragment.loads (gateway order_accepted) provider url
               (order_document processor) w
  = (Ok (parsed order_accepted),
     mkWorld (w_token w)
       (order_request url (w_token w) (order_document processor) :: w_sent w)
       (w_payment w)).
Proof.
  exact (post_request_returns_an_authorized_answer JsonFragment.loads
           (gateway order_accepted) provider (payu_api_orders_url provider)
           (order_document processor) (parsed order_accepted)
           (world waiting_payment)
           ltac:(by_computation) ltac:(by_computation)
           ltac:(by_computation)).
Defined.

(** An order that is accepted with the second token. *)
Lemma post_request_retries_with_a_new_token_witness :
  let w := world waiting_payment in
  let url := payu_api_orders_url provider in
  let data := order_document processor in
  post_request JsonFragment.loads (renewing_gateway order_accepted) provider
               url data w
  = (Ok (parsed order_accepted),
     mkWorld (JStr "new_access_token")
       (order_request url (JStr "new_access_token") data
          :: token_request provider
          :: order_request url (w_token w) data :: w_sent w)
       (w_payment w)).
Proof.
  exact (post_request_retries_with_a_new_token JsonFragment.loads
           (renewing_gateway order_accepted) provider
           (payu_api_orders_url provider) (order_document processor)
           (parsed unauthorized)
           (parsed "{'access_token': 'new_access_token'}")
           (JStr "new_access_token") (parsed order_accepted)
           (world waiting_payment)
           ltac:(by_computation) ltac:(by_computation)
           ltac:(by_computation) ltac:(by_computation)
           ltac:(by_computation) ltac:(by_computation)
           ltac:(by_computation)).
Defined.

(** A token endpoint that answers with a text that is no JSON. *)
Lemma post_request_gives_up_when_no_token_is_granted_witness :
  let w := world waiting_payment in
  let url := payu_api_orders_url provider in
  let data := order_document processor in
  post_request JsonFragment.loads closed_gateway provider url data w
  = (Raise (PayuApiError
              (JStr "Unable to regain authorization token {e}")),
     mkWorld (w_token w)
       (token_request provider :: order_request url (w_token w) data
          :: w_sent w)
       (w_payment w)).
Proof.
  exact (post_request_gives_up_when_no_token_is_granted JsonFragment.loads
           closed_gateway provider (payu_api_orders_url provider)
           (order_document processor) (parsed unauthorized)
           (world waiting_payment)
           ltac:(by_computation) ltac:(by_computation)
           ltac:(by_computation) ltac:(vm_compute; exact I)).
Defined.

(** The order of [test_redirect_payu]: the result is the address of the
    gateway. *)
Lemma create_order_accepted_witness :
  fst (create_order JsonFragment.loads (gateway order_accepted) provider
                    processor false (world waiting_payment))
    = Ok (JStr "test_redirect_uri")
  /\ pay_link (w_payment
       (snd (create_order JsonFragment.loads (gateway order_accepted)
               provider processor false (world waiting_payment))))
     = JStr "test_redirect_uri".
Proof.
  pose (sent := post_request JsonFragment.loads (gateway order_accepted)
                  provider (payu_api_orders_url provider)
                  (order_document processor) (world waiting_payment)).
  pose proof (create_order_accepted JsonFragment.loads
                (gateway order_accepted) provider processor false
                (world waiting_payment) (snd sent)
                (order_document processor) (parsed order_accepted)
                ltac:(by_computation) ltac:(by_computation)
                (JInt 123) None
                ltac:(by_computation) ltac:(by_computation)
                ltac:(by_computation)) as W.
  destruct W as [_ W].
  change (py_getitem (parsed order_accepted) "redirectUri")
    with (@Ok json (JStr "test_redirect_uri")) in W.
  cbv beta iota in W. rewrite W. split; reflexivity.
Defined.

(** The order of [test_auto_complete_recurring_cvv2]: the result is the
    address of the payment, and the address of the gateway is kept. *)
Lemma create_order_continues_with_the_card_holder_witness :
  let run := create_order JsonFragment.loads (gateway order_needs_cvv)
               provider processor false (world waiting_payment) in
  fst run = Ok (JStr "/payment/token")
  /\ assoc_get "cvv_url" (extra_data (w_payment (snd run)))
     = Some (JStr "test_redirect_uri").
Proof.
  pose (sent := post_request JsonFragment.loads (gateway order_needs_cvv)
                  provider (payu_api_orders_url provider)
                  (order_document processor) (world waiting_payment)).
  pose proof (proj1 (create_order_continues_with_the_card_holder
                JsonFragment.loads (gateway order_needs_cvv) provider
                processor false (world waiting_payment) (snd sent)
                (order_document processor) (parsed order_needs_cvv)
                ltac:(by_computation) ltac:(by_computation)
                (JInt 123) (JStr "test_redirect_uri") None
                ltac:(by_computation) ltac:(by_computation)
                ltac:(by_computation))
                ltac:(by_computation)) as W.
  cbv zeta. rewrite W. split; reflexivity.
Defined.

(** The duplicate order of the test suite for a payment that is not
    confirmed: the payment moves to ERROR. *)
Lemma create_order_refused_gives_the_failure_url_witness :
  exists w',
    create_order JsonFragment.loads (gateway duplicate_order) provider
                 processor false (world waiting_payment)
      = (Ok (JStr "http://cancel.com"), w')
    /\ status (w_payment w') = ERROR
    /\ fraud_status (w_payment w') = UNKNOWN.
Proof.
  pose (sent := post_request JsonFragment.loads (gateway duplicate_order)
                  provider (payu_api_orders_url provider)
                  (order_document processor) (world waiting_payment)).
  exact (create_order_refused_gives_the_failure_url JsonFragment.loads
           (gateway duplicate_order) provider processor false
           (world waiting_payment) (snd sent) (order_document processor)
           (parsed duplicate_order)
           ltac:(by_computation) ltac:(by_computation)
           (JStr "ERROR_ORDER_NOT_UNIQUE") (JStr "Foo code")
           "http://cancel.com"
           ltac:(by_computation) ltac:(by_computation)
           ltac:(vm_compute; discriminate) ltac:(by_computation)
           ltac:(by_computation) ltac:(by_computation)).
Defined.

(** A refusal without [codeLiteral]. *)
Lemma create_order_refused_without_code_literal_witness :
  exists w',
    create_order JsonFragment.loads (gateway order_refused) provider
                 processor false (world waiting_payment)
      = (Raise (KeyError (JStr "codeLiteral")), w')
    /\ status (w_payment w') = ERROR.
Proof.
  pose (sent := post_request JsonFragment.loads (gateway order_refused)
                  provider (payu_api_orders_url provider)
                  (order_document processor) (world waiting_payment)).
  exact (create_order_refused_without_code_literal JsonFragment.loads
           (gateway order_refused) provider processor false
           (world waiting_payment) (snd sent) (order_document processor)
           (parsed order_refused)
           ltac:(by_computation) ltac:(by_computation)
           (JStr "ERROR_VALUE_MISSING")
           (JObj [("statusCode", JStr "ERROR_VALUE_MISSING")])
           ltac:(by_computation) ltac:(by_computation)
           ltac:(by_computation) ltac:(by_computation)
           ltac:(vm_compute; discriminate) ltac:(by_computation)).
Defined.

(** An order in yen. *)
Lemma create_order_in_an_unsupported_currency_sends_nothing_witness :
  create_order JsonFragment.loads (gateway order_accepted) provider
               yen_processor false (world waiting_payment)
  = (Raise (KeyError (JStr "JPY")), world waiting_payment).
Proof.
  exact (create_order_in_an_unsupported_currency_sends_nothing
           JsonFragment.loads (gateway order_accepted) provider
           yen_processor false (world waiting_payment)
           ltac:(by_computation)).
Defined.

(** The canceled refund of the test suite: [refund] raises, and the answer
    is in the journal. *)
Lemma refund_journals_the_answer_before_checking_it_witness :
  let run := refund JsonFragment.loads urljoin (gateway refund_canceled)
               provider (Some (Dec.of_Z 110)) (world confirmed_payment) in
  fst run = Raise (ValueError
                     "refund {refund_id} of payment {payment.id} canceled")
  /\ journal "refund_responses" (w_payment (snd run))
     = [parsed refund_canceled].
Proof.
  pose (request :=
          match refund_request urljoin provider
                  (fun _ _ => JStr "desc 1234 110") confirmed_payment
                  (Some (Dec.of_Z 110))
          with Ok r => r | Raise _ => ("", JNull) end).
  pose (sent := post_request JsonFragment.loads (gateway refund_canceled)
                  provider (fst request) (snd request)
                  (world confirmed_payment)).
  split; [by_computation|].
  exact (proj1 (refund_journals_the_answer_before_checking_it
                  JsonFragment.loads urljoin (gateway refund_canceled)
                  provider (Some (Dec.of_Z 110)) (world confirmed_payment)
                  (snd sent) (fun _ _ => JStr "desc 1234 110")
                  (fst request) (snd request) (parsed refund_canceled)
                  ltac:(by_computation) ltac:(by_computation)
                  ltac:(by_computation) ltac:(by_computation))).
Defined.

(** The pending refund of 220.00 of [test_refund_no_amount], asked for with
    its amount. *)
Lemma refund_pending_is_zero_when_the_amount_matches_witness :
  fst (refund JsonFragment.loads urljoin (gateway refund_pending) provider
              (Some (Dec.of_Z 220)) (world confirmed_payment))
  = Ok (Dec.of_Z 0).
Proof.
  pose (request :=
          match refund_request urljoin provider
                  (fun _ _ => JStr "desc 1234 110") confirmed_payment
                  (Some (Dec.of_Z 220))
          with Ok r => r | Raise _ => ("", JNull) end).
  pose (sent := post_request JsonFragment.loads (gateway refund_pending)
                  provider (fst request) (snd request)
                  (world confirmed_payment)).
  assert (Hack : acknowledges (w_payment (world confirmed_payment))
                              (parsed refund_pending) (JStr "PENDING")).
  { unfold acknowledges. split; [by_computation|].
    split; [exists (JStr "5000009987"); split;
            [by_computation|discriminate]|].
    split; [exists (JStr "1234"); split; by_computation|].
    split; [by_computation|].
    exists (JStr "USD"), (JStr "22000"), (mkDecimal false 220 0).
    repeat split; by_computation. }
  exact (refund_pending_is_zero_when_the_amount_matches
           JsonFragment.loads urljoin (gateway refund_pending) provider
           (Dec.of_Z 220) (world confirmed_payment) (snd sent)
           (fun _ _ => JStr "desc 1234 110") (fst request) (snd request)
           (parsed refund_pending) (JStr "22000") (mkDecimal false 220 0)
           ltac:(by_computation) ltac:(by_computation)
           ltac:(by_computation) ltac:(by_computation) Hack
           ltac:(by_computation) ltac:(by_computation)
           ltac:(by_computation)).
Defined.

(** An item whose name has 64 characters in 128 bytes: the name is sent
    whole. *)
Lemma order_items_follow_the_purchased_items_witness :
  Forall2
    (fun purchased item =>
       exists name,
         py_getitem item "name" = Ok (JStr name)
         /\ name = str_prefix 127 (pi_name purchased)
         /\ (exists rest, pi_name purchased = name ++ rest)
         /\ str_len name = Nat.min 127 (str_len (pi_name purchased))
         /\ ((str_len (pi_name purchased) <= 127)%nat ->
             name = pi_name purchased)
         /\ py_getitem item "quantity" = Ok (JInt (pi_quantity purchased))
         /\ py_getitem item "subUnit" = Ok (JInt 100))
    [ accented_item ]
    [ JObj [ ("name", JStr (replicate 64 z_with_dot)); ("quantity", JInt 10);
             ("unitPrice", JInt 2000); ("currency", JStr "USD");
             ("subUnit", JInt 100) ] ].
Proof.
  exact (order_items_follow_the_purchased_items "USD" [ accented_item ]
           _ ltac:(by_computation)).
Defined.

(** An item at 20 with a tax rate of zero: its unit price is 2000. *)
Lemma zero_tax_rate_is_no_tax_rate_witness :
  exists unitPrice,
    quantize_price (pi_price untaxed_item) "USD" = Ok unitPrice
    /\ py_getitem
         (JObj [ ("name", JStr "foo"); ("quantity", JInt 10);
                 ("unitPrice", JInt 2000); ("currency", JStr "USD");
                 ("subUnit", JInt 100) ]) "unitPrice"
       = Ok (JInt unitPrice).
Proof.
  exact (zero_tax_rate_is_no_tax_rate "USD" untaxed_item _
           ltac:(by_computation) ltac:(vm_compute; discriminate)
           ltac:(by_computation)).
Defined.

(** The completed order of the test suite, posted with form data. *)
Lemma process_data_of_a_notification_contacts_nobody_witness :
  process_data JsonFragment.loads urljoin (gateway order_accepted) provider
               "https://example.com" (fun _ => true) options details
               (form order_completed) (world waiting_payment)
  = (Ok (Plain (mkHttpResponse "ok" 200)),
     mkWorld (JStr "test_access_token") []
       (snd (process_notification JsonFragment.loads provider order_completed
               waiting_payment))).
Proof.
  pose proof (process_data_of_a_notification_contacts_nobody
                JsonFragment.loads urljoin (gateway order_accepted) provider
                "https://example.com" (fun _ => true) options details
                (form order_completed) "application/json"
                (world waiting_payment)
                ltac:(by_computation) ltac:(by_computation)) as W.
  cbv zeta in W. rewrite W. vm_compute. reflexivity.
Defined.

(** The two answers of [test_reject_order]. *)
Lemma reject_order_needs_two_successes_witness :
  let s := session confirmed_payment in
  let call := delete_call "http://mock.url/api/v2_1/orders/1234" s in
  reject_order JsonFragment.loads urljoin provider
               (service "{'status': {'statusCode': 'SUCCESS'}}") s
  = (Ok true,
     mkSession
       (set_w_payment
          (set_message (JStr "") (set_status REJECTED confirmed_payment))
          (world confirmed_payment))
       [call; call]).
Proof.
  exact (reject_order_needs_two_successes JsonFragment.loads urljoin provider
           (service "{'status': {'statusCode': 'SUCCESS'}}")
           (session confirmed_payment)
           "http://mock.url/api/v2_1/orders/1234"
           (parsed "{'status': {'statusCode': 'SUCCESS'}}")
           (parsed "{'status': {'statusCode': 'SUCCESS'}}")
           (JStr "SUCCESS") (JStr "SUCCESS")
           ltac:(by_computation) ltac:(by_computation)
           ltac:(by_computation) ltac:(by_computation)
           ltac:(by_computation)).
Defined.

(** The signature and the callback do not change the signature. *)
Lemma get_sig_reads_the_listed_keys_only_witness :
  get_sig (fun value : string => value) MD5.hexdigest provider
          widget_data_signed
  = get_sig (fun value : string => value) MD5.hexdigest provider widget_data.
Proof.
  apply (get_sig_reads_the_listed_keys_only (fun value : string => value)
           MD5.hexdigest provider widget_data widget_data_signed).
  intros key Hkey. cbn in Hkey.
  repeat (destruct Hkey as [<-|Hkey]; [reflexivity|]). contradiction.
Defined.
